(** * NFS volume provisioning workflow of sdc-vmapi

    A shallow embedding of the workflow tasks that provision the NFS shared
    volumes a VM requires ([provisionNfsVolumes], [waitForNfsVolumeProvisions],
    [buildNfsVolumesMetadata], [setupUpdateVmNfsVolumesMetadataRequest],
    [waitForNfsVolumesMetadataUpdated]) and the properties the specification
    states about them.

    Conventions of the embedding:
    - a JavaScript callback is modelled by the list of its invocations, in
      order: a task that calls back twice yields a two-element list;
    - the remote services (VMAPI, VOLAPI) are an interface ([SdcClients]) over
      an abstract service state; every request is appended to a log;
    - [JSON.parse] and [JSON.stringify] are an interface ([JSON]);
    - a plain object is an association list in insertion order, which is the
      order [for .. in] and [Object.keys] enumerate it in (keys that look like
      array indices are enumerated first by JavaScript; UUIDs and volume names
      as used here are not such keys);
    - [internal_metadata] objects live in a heap of mutable objects, so that
      aliasing and in-place mutation can be told apart from copying.

    Two further parts of the repository are embedded after the workflow:
    the audit handler, the tracing middleware and the JSON formatter of the
    application ([lib/vmapi.js], module [VmapiApp]), and the script that
    backfills [image_uuid] for KVM VMs (module [KvmBackfill]), over an
    interface of the moray client ([Moray]). *)

From Stdlib Require Import Ascii String.
From stdpp Require Import gmap strings list pretty.

Set Warnings "-register-all".
Local Open Scope string_scope.
Local Open Scope list_scope.

(** ** JavaScript values *)

Inductive primitive :=
  | PNull
  | PBool (b : bool)
  | PNum (n : Z)
  | PStr (s : string).

(** Immutable JSON data, as produced by [JSON.parse] or received on the wire.
    Numbers are restricted to integers. *)
Inductive json :=
  | JPrim (p : primitive)
  | JArr (elems : list json)
  | JObj (props : list (string * json)).

Abbreviation JNull := (JPrim PNull).
Abbreviation JStr s := (JPrim (PStr s)).
Abbreviation JNum n := (JPrim (PNum n)).
Abbreviation JBool b := (JPrim (PBool b)).

(** A JavaScript expression of unknown type evaluates to [None] when it is
    [undefined] and to [Some j] otherwise. *)
Abbreviation undefined := None (only parsing).

Definition typeof_primitive (p : primitive) : string :=
  match p with
  | PNull => "object"
  | PBool _ => "boolean"
  | PNum _ => "number"
  | PStr _ => "string"
  end.

Definition typeof (v : option json) : string :=
  match v with
  | None => "undefined"
  | Some (JPrim p) => typeof_primitive p
  | Some (JArr _) | Some (JObj _) => "object"
  end.

Definition truthy_primitive (p : primitive) : bool :=
  match p with
  | PNull => false
  | PBool b => b
  | PNum n => negb (n =? 0)%Z
  | PStr s => negb (String.eqb s EmptyString)
  end.

(** [if (v)] *)
Definition truthy (v : option json) : bool :=
  match v with
  | None => false
  | Some (JPrim p) => truthy_primitive p
  | Some (JArr _) | Some (JObj _) => true
  end.

Definition Array_isArray (v : option json) : option (list json) :=
  match v with
  | Some (JArr elems) => Some elems
  | _ => None
  end.

(** ** Plain objects as ordered property lists *)

Section jsobject.
Context {A : Type}.

(** [obj[key]] *)
Fixpoint js_get (obj : list (string * A)) (key : string) : option A :=
  match obj with
  | [] => None
  | (k, v) :: rest => if String.eqb k key then Some v else js_get rest key
  end.

(** [obj[key] = value]: an existing property keeps its position, a new one
    is added last. *)
Fixpoint js_set (obj : list (string * A)) (key : string) (value : A)
  : list (string * A) :=
  match obj with
  | [] => [(key, value)]
  | (k, v) :: rest =>
      if String.eqb k key then (k, value) :: rest
      else (k, v) :: js_set rest key value
  end.

(** [Object.keys(obj)] *)
Definition Object_keys (obj : list (string * A)) : list string := obj.*1.
End jsobject.

(** [j[key]] for a JSON datum [j] that is an object or an array (an array has
    no property with a name such as [name] or [mountpoint]). *)
Definition json_get (j : json) (key : string) : option json :=
  match j with
  | JObj props => js_get props key
  | _ => None
  end.

(** String conversion of a value used as a property key or concatenated to a
    string. *)
Definition primitive_toString (p : primitive) : string :=
  match p with
  | PNull => "null"
  | PBool true => "true"
  | PBool false => "false"
  | PNum n => pretty n
  | PStr s => s
  end.

Fixpoint json_toString (j : json) : string :=
  match j with
  | JPrim p => primitive_toString p
  | JArr elems =>
      String.concat ","
        (map (fun e => match e with JPrim PNull => EmptyString | _ => json_toString e end)
             elems)
  | JObj _ => "[object Object]"
  end.

Definition js_toString (v : option json) : string :=
  match v with
  | None => "undefined"
  | Some j => json_toString j
  end.

(** ** Errors *)

(** A value passed as the first argument of a callback: an [Error] object
    (restify errors carry a [restCode]) or, in one place of the workflow, a
    bare string. *)
Inductive jserr :=
  | ErrorObj (name message : string) (restCode : option string)
  | ErrorStr (s : string).

Definition new_Error (message : string) : jserr := ErrorObj "Error" message None.

Definition restCode (e : jserr) : option string :=
  match e with
  | ErrorObj _ _ rc => rc
  | ErrorStr _ => None
  end.

(** ['' + err] *)
Definition err_toString (e : jserr) : string :=
  match e with
  | ErrorObj name message _ =>
      if String.eqb message EmptyString then name
      else if String.eqb name EmptyString then message
      else name +:+ ": " +:+ message
  | ErrorStr s => s
  end.

(** ** The JSON built-ins *)

Class JSON := {
  (** [None] when [JSON.parse] throws a [SyntaxError] *)
  JSON_parse : string -> option json;
  JSON_stringify : json -> string;
}.

(** ** Records exchanged with the services *)

(** An element of [vm.nics]. VMAPI serves nics as objects; [NicNotObject]
    stands for an element [e] with [typeof (e) !== 'object']. *)
Record nic := {
  nic_tag : option string;
  network_uuid : option string;
}.

Inductive nic_entry :=
  | NicObject (n : nic)
  | NicNotObject.

(** A volume record of VOLAPI. *)
Record volume := {
  vol_uuid : string;
  vol_name : string;
  vol_owner_uuid : string;
  vol_state : string;
  vol_filesystem_path : option string;
  vol_networks : list (option string);
}.

(** Locations of mutable objects. *)
Definition loc := positive.

(** The value of a property that may hold a mutable object: [undefined], a
    primitive, or a reference into the heap. *)
Inductive jsval :=
  | VUndefined
  | VPrim (p : primitive)
  | VRef (l : loc).

(** The same on the wire, where an object is given by its contents. *)
Inductive wire_value :=
  | WUndefined
  | WPrim (p : primitive)
  | WObject (props : gmap string json).

(** A VM object, with [internal_metadata] of type [M]. *)
Record vm_of (M : Type) := {
  vm_uuid : string;
  vm_owner_uuid : string;
  vm_internal_metadata : M;
  vm_nics : list nic_entry;
}.
Arguments vm_uuid {M} _.
Arguments vm_owner_uuid {M} _.
Arguments vm_internal_metadata {M} _.
Arguments vm_nics {M} _.

Abbreviation vm_wire := (vm_of wire_value).
Abbreviation vm := (vm_of jsval).

Abbreviation heap := (gmap loc (gmap string json)).

Definition typeof_val (v : jsval) : string :=
  match v with
  | VUndefined => "undefined"
  | VPrim p => typeof_primitive p
  | VRef _ => "object"
  end.

Definition truthy_val (v : jsval) : bool :=
  match v with
  | VUndefined => false
  | VPrim p => truthy_primitive p
  | VRef _ => true
  end.

(** [v[key]] for a [v] that is an object. *)
Definition get_property (h : heap) (v : jsval) (key : string) : option json :=
  match v with
  | VRef l => h !! l ≫= (.!! key)
  | _ => None
  end.

(** ** Requests and the service interface *)

Inductive request :=
  | GetVm (uuid : string) (owner_uuid : option string)
  | CreateVolume (name owner_uuid type : string) (networks : list (option string))
  | ListVolumes (name owner_uuid : string)
  | GetVolume (uuid owner_uuid : string).

Inductive reply :=
  | VmReply (err : option jserr) (v : option vm_wire)
  | VolumeReply (err : option jserr) (v : option volume)
  | VolumesReply (err : option jserr) (vs : option (list volume)).

(** What the workflow does to the outside, and what comes back. *)
Inductive event :=
  | Request (r : request)
  | Reply (r : reply)
  | SetTimeout (ms : Z).

(** The [sdc-clients] VMAPI and VOLAPI clients over a service state [S].
    Each method answers with the two arguments of the client callback. *)
Class SdcClients (S : Type) := {
  vmapi_getVm :
    string -> option string -> S -> (option jserr * option vm_wire) * S;
  volapi_createVolume :
    string -> string -> string -> list (option string) -> S ->
    (option jserr * option volume) * S;
  volapi_listVolumes :
    string -> string -> S -> (option jserr * option (list volume)) * S;
  volapi_getVolume :
    string -> string -> S -> (option jserr * option volume) * S;
}.

(** The state outside the job object: the services, the log of what was
    asked of them, what they answered and which timers were set, and the heap
    of mutable objects. *)
Record world (S : Type) := {
  service : S;
  log : list event;
  objects : heap;
}.
Arguments service {S} _.
Arguments log {S} _.
Arguments objects {S} _.

Definition is_volapi_request (e : event) : bool :=
  match e with
  | Request (CreateVolume _ _ _ _)
  | Request (ListVolumes _ _)
  | Request (GetVolume _ _) => true
  | _ => false
  end.

(** The requests made to VOLAPI, oldest first. *)
Definition volapi_requests {S} (w : world S) : list event :=
  filter (fun e => is_volapi_request e = true) (log w).

Section clients.
Context {S : Type} `{SdcClients S}.

Definition emit (e : event) (w : world S) : world S :=
  {| service := service w; log := log w ++ [e]; objects := objects w |}.

Definition with_service (s : S) (w : world S) : world S :=
  {| service := s; log := log w; objects := objects w |}.

Definition with_objects (h : heap) (w : world S) : world S :=
  {| service := service w; log := log w; objects := h |}.

(** Allocation of a fresh object. *)
Definition alloc (props : gmap string json) (w : world S) : loc * world S :=
  let l := fresh (dom (objects w)) in
  (l, with_objects (<[l := props]> (objects w)) w).

(** The client parses a response body into objects of its own. *)
Definition receive_vm (v : vm_wire) (w : world S) : vm * world S :=
  let '(m, w) :=
    match vm_internal_metadata v with
    | WUndefined => (VUndefined, w)
    | WPrim p => (VPrim p, w)
    | WObject props => let '(l, w) := alloc props w in (VRef l, w)
    end in
  ({| vm_uuid := vm_uuid v; vm_owner_uuid := vm_owner_uuid v;
      vm_internal_metadata := m; vm_nics := vm_nics v |}, w).

Definition getVm (uuid : string) (owner_uuid : option string) (w : world S)
  : (option jserr * option vm) * world S :=
  let w := emit (Request (GetVm uuid owner_uuid)) w in
  let '((err, v), s) := vmapi_getVm uuid owner_uuid (service w) in
  let w := emit (Reply (VmReply err v)) (with_service s w) in
  match v with
  | None => ((err, None), w)
  | Some v => let '(v, w) := receive_vm v w in ((err, Some v), w)
  end.

Definition createVolume (name owner_uuid type : string)
    (networks : list (option string)) (w : world S)
  : (option jserr * option volume) * world S :=
  let w := emit (Request (CreateVolume name owner_uuid type networks)) w in
  let '((err, v), s) :=
    volapi_createVolume name owner_uuid type networks (service w) in
  ((err, v), emit (Reply (VolumeReply err v)) (with_service s w)).

Definition listVolumes (name owner_uuid : string) (w : world S)
  : (option jserr * option (list volume)) * world S :=
  let w := emit (Request (ListVolumes name owner_uuid)) w in
  let '((err, vs), s) := volapi_listVolumes name owner_uuid (service w) in
  ((err, vs), emit (Reply (VolumesReply err vs)) (with_service s w)).

Definition getVolume (uuid owner_uuid : string) (w : world S)
  : (option jserr * option volume) * world S :=
  let w := emit (Request (GetVolume uuid owner_uuid)) w in
  let '((err, v), s) := volapi_getVolume uuid owner_uuid (service w) in
  ((err, v), emit (Reply (VolumeReply err v)) (with_service s w)).

Definition setTimeout (ms : Z) (w : world S) : world S := emit (SetTimeout ms) w.
End clients.

(** ** The job object and the pipeline context *)

Record job_params := {
  params_vm_uuid : string;
  params_owner_uuid : string;
  params_server_uuid : string;
  params_jobid : option string;
  (** the value of [payload.set_internal_metadata] once a payload is set *)
  params_payload : option jsval;
}.

(** The properties of [job] the tasks read or assign; a property that was
    never assigned is [None] ([VUndefined] for one that may hold an object). *)
Record job := {
  params : job_params;
  job_uuid : string;
  job_vm : option vm;
  mapRequiredNfsVolumes : option (list (string * json));
  createdVolumes : option (list (string * volume));
  updatedVmInternalMetadata : jsval;
  stringifiedRequiredNfsVolumesMetadata : option json;
  requiredNfsVolumes : option json;
  endpoint : option string;
  requestMethod : option string;
  action : option string;
  server_uuid : option string;
}.

Definition set_job_vm (v : vm) (j : job) : job :=
  {| params := params j;
     job_uuid := job_uuid j;
     job_vm := Some v;
     mapRequiredNfsVolumes := mapRequiredNfsVolumes j;
     createdVolumes := createdVolumes j;
     updatedVmInternalMetadata := updatedVmInternalMetadata j;
     stringifiedRequiredNfsVolumesMetadata := stringifiedRequiredNfsVolumesMetadata j;
     requiredNfsVolumes := requiredNfsVolumes j;
     endpoint := endpoint j;
     requestMethod := requestMethod j;
     action := action j;
     server_uuid := server_uuid j |}.

Definition set_mapRequiredNfsVolumes (m : list (string * json)) (j : job) : job :=
  {| params := params j;
     job_uuid := job_uuid j;
     job_vm := job_vm j;
     mapRequiredNfsVolumes := Some m;
     createdVolumes := createdVolumes j;
     updatedVmInternalMetadata := updatedVmInternalMetadata j;
     stringifiedRequiredNfsVolumesMetadata := stringifiedRequiredNfsVolumesMetadata j;
     requiredNfsVolumes := requiredNfsVolumes j;
     endpoint := endpoint j;
     requestMethod := requestMethod j;
     action := action j;
     server_uuid := server_uuid j |}.

Definition set_createdVolumes (c : option (list (string * volume))) (j : job) : job :=
  {| params := params j;
     job_uuid := job_uuid j;
     job_vm := job_vm j;
     mapRequiredNfsVolumes := mapRequiredNfsVolumes j;
     createdVolumes := c;
     updatedVmInternalMetadata := updatedVmInternalMetadata j;
     stringifiedRequiredNfsVolumesMetadata := stringifiedRequiredNfsVolumesMetadata j;
     requiredNfsVolumes := requiredNfsVolumes j;
     endpoint := endpoint j;
     requestMethod := requestMethod j;
     action := action j;
     server_uuid := server_uuid j |}.

Definition set_updatedVmInternalMetadata (v : jsval) (j : job) : job :=
  {| params := params j;
     job_uuid := job_uuid j;
     job_vm := job_vm j;
     mapRequiredNfsVolumes := mapRequiredNfsVolumes j;
     createdVolumes := createdVolumes j;
     updatedVmInternalMetadata := v;
     stringifiedRequiredNfsVolumesMetadata := stringifiedRequiredNfsVolumesMetadata j;
     requiredNfsVolumes := requiredNfsVolumes j;
     endpoint := endpoint j;
     requestMethod := requestMethod j;
     action := action j;
     server_uuid := server_uuid j |}.

(** [var context = {}] of [provisionNfsVolumes]. *)
Record context := {
  ctx_mapRequiredNfsVolumes : option (list (string * json));
  ctx_createdVolumes : option (list (string * volume));
}.

Definition empty_context : context :=
  {| ctx_mapRequiredNfsVolumes := None; ctx_createdVolumes := None |}.

(** What a task or one of its helpers does towards its caller: it invokes
    its callback, or an exception escapes from it. *)
Inductive call (A : Type) :=
  | Cb (args : A)
  | Throw (exn : string).
Arguments Cb {A} _.
Arguments Throw {A} _.

(** Arguments of a task callback: [(err, message)]. *)
Definition task_args : Type := option jserr * option string.

(** vasync requires every function it drives to call back exactly once; what
    it does otherwise is not part of this model. *)
Definition exactly_once {A} (calls : list A) : option A :=
  match calls with
  | [a] => Some a
  | _ => None
  end.

Definition nfs_volumes_required : string := "docker:nfs_volumes_required".
Definition nfsvolumes : string := "docker:nfsvolumes".

Definition is_null (j : json) : bool :=
  match j with
  | JPrim PNull => true
  | _ => false
  end.

Definition is_defined {A} (v : option A) : bool :=
  match v with
  | Some _ => true
  | None => false
  end.

(** ** Task [volapi.provision_nfs_volumes] *)

Section provisionNfsVolumes.
Context `{JSON} {S : Type} `{SdcClients S}.

(** *** Loading the required volumes *)

(** The body of [parsedRequiredNfsVolumes.forEach]: [return] leaves this
    function only, the iteration goes on with the next element. *)
Definition forEach_requiredVolume
    (acc : list (option jserr) * list (string * json)) (requiredVolume : json)
  : list (option jserr) * list (string * json) :=
  let '(calls, mapRequiredNfsVolumes) := acc in
  if is_null requiredVolume
     || negb (String.eqb (typeof (Some requiredVolume)) "object") then
    (calls ++ [Some (new_Error "requiredVolume must be an object")],
     mapRequiredNfsVolumes)
  else
    (calls,
     js_set mapRequiredNfsVolumes
       (js_toString (json_get requiredVolume "name")) requiredVolume).

(** The callback given to [vmapi.getVm]. The result lists the invocations
    of the pipeline callback, each with its [err] argument. *)
Definition onGetVm (vmUuid : string) (err : option jserr) (v : option vm)
    (h : heap) (j : job) (ctx : context)
  : list (option jserr) * job * context :=
  match v with
  | None =>
      ([Some (new_Error ("Could not get VM with uuid " +:+ vmUuid))], j, ctx)
  | Some v =>
      let j := set_job_vm v j in
      if negb (truthy_val (vm_internal_metadata v))
         || negb (String.eqb (typeof_val (vm_internal_metadata v)) "object") then
        ([Some (new_Error "internal_metadata property missing from VM object")],
         j, ctx)
      else
        let requiredNfsVolumesString :=
          get_property h (vm_internal_metadata v) nfs_volumes_required in
        if is_defined requiredNfsVolumesString
           && negb (String.eqb (typeof requiredNfsVolumesString) "string") then
          ([Some (new_Error ("docker:nfs_volumes_required "
              +:+ "internal_metadata property must be a string if "
              +:+ "present"))], j, ctx)
        else
          (* try .. catch: the handler calls back and falls through *)
          let '(caught, parsedRequiredNfsVolumes) :=
            if truthy requiredNfsVolumesString then
              match JSON_parse (js_toString requiredNfsVolumesString) with
              | Some parsed => ([], Some parsed)
              | None =>
                  ([Some (new_Error ("Could not parse "
                      +:+ "docker:nfs_volumes_required internal metadata"))],
                   undefined)
              end
            else ([], undefined) in
          match Array_isArray parsedRequiredNfsVolumes with
          | None =>
              (caught ++
               [Some (new_Error ("docker:nfs_volumes_required internal "
                  +:+ "metadata must represent an array"))], j, ctx)
          | Some elems =>
              let '(calls, mapRequiredNfsVolumes) :=
                fold_left forEach_requiredVolume elems (caught, []) in
              (calls ++ [err],
               set_mapRequiredNfsVolumes mapRequiredNfsVolumes j,
               {| ctx_mapRequiredNfsVolumes := Some mapRequiredNfsVolumes;
                  ctx_createdVolumes := ctx_createdVolumes ctx |})
          end
  end.

Definition loadRequiredNfsVolumes (j : job) (ctx : context) (w : world S)
  : list (option jserr) * job * context * world S :=
  let vmUuid := params_vm_uuid (params j) in
  let '((err, v), w) := getVm vmUuid None w in
  (onGetVm vmUuid err v (objects w) j ctx, w).

(** *** Provisioning one volume *)

(** Arguments of the callback of [provisionNfsVolume]: [(err, volume)]. *)
Definition volume_args : Type := option jserr * option volume.

(** The function mapped over [job.vm.nics]: the element of the [networks]
    array it yields, and the invocations of [callback] it makes. *)
Definition getOverlayNetwork (network : nic_entry)
  : list volume_args * option string :=
  match network with
  | NicNotObject =>
      ([(Some (ErrorStr "network must be an object"), None)], undefined)
  | NicObject n =>
      match nic_tag n with
      | Some tag =>
          if negb (String.eqb tag EmptyString)
             && String.prefix "sdc_overlay/" tag then
            ([], network_uuid n)
          else ([], undefined)
      | None => ([], undefined)
      end
  end.

(** [job.vm.nics.map(getOverlayNetwork)] *)
Definition overlay_networks (nics : list nic_entry) : list (option string) :=
  (map getOverlayNetwork nics).*2.

Definition onListVolumes (j : job) (volumeName : string)
    (listVolumesErr : option jserr) (volumes : option (list volume))
  : list volume_args :=
  match listVolumesErr with
  | None =>
      let inconsistent :=
        [(Some (new_Error ("There must be either no "
            +:+ "or one volume with name "
            +:+ volumeName +:+ " for user "
            +:+ params_owner_uuid (params j))), None)] in
      match volumes with
      | None => inconsistent
      | Some volumes =>
          if negb (length volumes =? 1)%nat then inconsistent
          else [(listVolumesErr, head volumes)]
      end
  | Some _ => [(listVolumesErr, undefined)]
  end.

Definition onVolumeCreated (j : job) (volumeName : string)
    (volumeCreationErr : option jserr) (createdVolume : option volume)
    (w : world S)
  : list volume_args * world S :=
  match volumeCreationErr with
  | Some e =>
      match restCode e with
      | Some code =>
          if String.eqb code "VOLUME_ALREADY_EXISTS" then
            let '((listVolumesErr, volumes), w) :=
              listVolumes volumeName (params_owner_uuid (params j)) w in
            (onListVolumes j volumeName listVolumesErr volumes, w)
          else ([(volumeCreationErr, createdVolume)], w)
      | None => ([(volumeCreationErr, createdVolume)], w)
      end
  | None => ([(volumeCreationErr, createdVolume)], w)
  end.

(** [volumeName] is a key of [ctx.mapRequiredNfsVolumes], hence a string:
    the [typeof (volumeName) !== 'string'] guard cannot fire. *)
Definition provisionNfsVolume (j : job) (volumeName : string) (w : world S)
  : list (call volume_args) * world S :=
  match job_vm j with
  | None => ([Throw "TypeError: Cannot read property 'nics' of undefined"], w)
  | Some v =>
      let early := concat (map getOverlayNetwork (vm_nics v)).*1 in
      let '((volumeCreationErr, createdVolume), w) :=
        createVolume volumeName (params_owner_uuid (params j)) "tritonnfs"
          (overlay_networks (vm_nics v)) w in
      let '(calls, w) :=
        onVolumeCreated j volumeName volumeCreationErr createdVolume w in
      (map Cb (early ++ calls), w)
  end.

(** *** Provisioning all required volumes *)

(** [vasync.forEachParallel]: [func] is started on every input and the
    results are gathered in the order of the inputs. The requests of
    different inputs are served one input after the other here, which is
    one of the orders the service may serve them in. *)
Fixpoint forEachParallel {A B : Type}
    (func : A -> world S -> list (call B) * world S)
    (inputs : list A) (w : world S)
  : option (call (list B)) * world S :=
  match inputs with
  | [] => (Some (Cb []), w)
  | input :: rest =>
      let '(calls, w) := func input w in
      match exactly_once calls with
      | None => (None, w)
      | Some (Throw exn) => (Some (Throw exn), w)
      | Some (Cb result) =>
          let '(results, w) := forEachParallel func rest w in
          (match results with
           | Some (Cb results) => Some (Cb (result :: results))
           | other => other
           end, w)
      end
  end.

Definition err_message (e : jserr) : string :=
  match e with
  | ErrorObj _ message _ => message
  | ErrorStr _ => "undefined"
  end.

(** The error [vasync] hands to the final callback: none if no operation
    failed, otherwise a [MultiError] over the errors. *)
Definition MultiError (errors : list jserr) : option jserr :=
  match errors with
  | [] => None
  | first :: _ =>
      Some (ErrorObj "MultiError"
              ("first of " +:+ pretty (length errors) +:+ " error"
               +:+ (if (length errors =? 1)%nat then EmptyString else "s")
               +:+ ": " +:+ err_message first) None)
  end.

(** The [for .. in results.operations] loop; [None] when an operation
    result is not an object. *)
Fixpoint collect_createdVolumes (operations : list volume_args)
    (createdVolumes : list (string * volume))
  : option (list (string * volume)) :=
  match operations with
  | [] => Some createdVolumes
  | (_, None) :: _ => None
  | (_, Some operationResult) :: rest =>
      collect_createdVolumes rest
        (js_set createdVolumes (vol_uuid operationResult) operationResult)
  end.

Definition onAllRequiredVolumesProvisioned (ctx : context)
    (operations : list volume_args)
  : list (option jserr) * context :=
  let err := MultiError (omap fst operations) in
  if negb (is_defined err) then
    match collect_createdVolumes operations [] with
    | None =>
        ([Some (new_Error ("operationResult must be an " +:+ "object"))], ctx)
    | Some createdVolumes =>
        ([err],
         {| ctx_mapRequiredNfsVolumes := ctx_mapRequiredNfsVolumes ctx;
            ctx_createdVolumes := Some createdVolumes |})
    end
  else ([err], ctx).

(** [None]: a helper called back more than once, outside what [vasync]
    defines. *)
Definition provisionRequiredNfsVolumes (j : job) (ctx : context) (w : world S)
  : option (list (call (option jserr)) * context * world S) :=
  match ctx_mapRequiredNfsVolumes ctx with
  | None =>
      Some ([Cb (Some (new_Error "ctx.mapRequiredNfsVolumes must be an object"))],
            ctx, w)
  | Some mapRequiredNfsVolumes =>
      let ctx := {| ctx_mapRequiredNfsVolumes := Some mapRequiredNfsVolumes;
                    ctx_createdVolumes := Some [] |} in
      if (length (Object_keys mapRequiredNfsVolumes) =? 0)%nat then
        Some ([Cb None], ctx, w)
      else
        let '(results, w) :=
          forEachParallel (provisionNfsVolume j)
            (Object_keys mapRequiredNfsVolumes) w in
        match results with
        | None => None
        | Some (Throw exn) => Some ([Throw exn], ctx, w)
        | Some (Cb operations) =>
            let '(calls, ctx) := onAllRequiredVolumesProvisioned ctx operations in
            Some (map Cb calls, ctx, w)
        end
  end.

(** *** The task *)

Definition allVolumesProvisioned (err : option jserr) (ctx : context) (j : job)
  : list (call task_args) * job :=
  match err with
  | Some err =>
      ([Cb (Some (new_Error ("Could not provision volumes, reason: "
                               +:+ err_toString err)), None)], j)
  | None =>
      ([Cb (None, Some "All volumes provisioned")],
       set_createdVolumes (ctx_createdVolumes ctx) j)
  end.

(** [vasync.pipeline] over [loadRequiredNfsVolumes] and
    [provisionRequiredNfsVolumes], then [allVolumesProvisioned]. *)
Definition provisionNfsVolumes (j : job) (w : world S)
  : option (list (call task_args) * job * world S) :=
  let '(calls, j, ctx, w) := loadRequiredNfsVolumes j empty_context w in
  match exactly_once calls with
  | None => None
  | Some (Some err) => Some (allVolumesProvisioned (Some err) ctx j, w)
  | Some None =>
      match provisionRequiredNfsVolumes j ctx w with
      | None => None
      | Some (calls, ctx, w) =>
          match exactly_once calls with
          | None => None
          | Some (Throw exn) => Some ([Throw exn], j, w)
          | Some (Cb err) => Some (allVolumesProvisioned err ctx j, w)
          end
      end
  end.
End provisionNfsVolumes.

(** ** Task [cnapi.wait_for_nfs_volumes_provisions] *)

(** A poll loop is either waiting for its next answer or has called [done]. *)
Inductive poller :=
  | Polling
  | Finished (err : option jserr).

Section waitForNfsVolumeProvisions.
Context {S : Type} `{SdcClients S}.

(** [job.createdVolumes[volume.uuid] = volume]; the task has checked that
    [job.createdVolumes] is an object before any poll loop starts. *)
Definition assign_createdVolume (v : volume) (j : job) : job :=
  match createdVolumes j with
  | Some created => set_createdVolumes (Some (js_set created (vol_uuid v) v)) j
  | None => j
  end.

Definition onGetVolume (getVolumeErr : option jserr) (v : option volume)
    (j : job) (w : world S)
  : poller * job * world S :=
  match getVolumeErr with
  | Some _ => (Finished getVolumeErr, j, w)
  | None =>
      match v with
      | Some v =>
          if String.eqb (vol_state v) "ready" then
            (Finished None, assign_createdVolume v j, w)
          else (Polling, j, setTimeout 1000 w)
      | None => (Polling, j, setTimeout 1000 w)
      end
  end.

(** One round of the loop: the request and the handling of its answer. *)
Definition checkVolumeReady (nfsVolumeUuid : string) (j : job) (w : world S)
  : poller * job * world S :=
  let '((getVolumeErr, v), w) :=
    getVolume nfsVolumeUuid (params_owner_uuid (params j)) w in
  onGetVolume getVolumeErr v j w.

(** The loop of one volume on its own, observed for at most [fuel]
    rounds: [Polling] when the next round is still to come. *)
Fixpoint checkVolumeCreated (fuel : nat) (nfsVolumeUuid : string)
    (j : job) (w : world S)
  : poller * job * world S :=
  match fuel with
  | O => (Polling, j, w)
  | Datatypes.S fuel =>
      match checkVolumeReady nfsVolumeUuid j w with
      | (Finished err, j, w) => (Finished err, j, w)
      | (Polling, j, w) => checkVolumeCreated fuel nfsVolumeUuid j w
      end
  end.

(** The loops of all volumes, run by [vasync.forEachParallel]. *)
Record wait_state := {
  pollers : list (string * poller);
  wait_job : job;
  wait_world : world S;
}.

(** The answer awaited by the [i]-th loop arrives. *)
Definition wait_step (st : wait_state) (i : nat) : wait_state :=
  match pollers st !! i with
  | Some (nfsVolumeUuid, Polling) =>
      let '(p, j, w) :=
        checkVolumeReady nfsVolumeUuid (wait_job st) (wait_world st) in
      {| pollers := <[i := (nfsVolumeUuid, p)]> (pollers st);
         wait_job := j; wait_world := w |}
  | _ => st
  end.

(** The answers arrive in the order given by [schedule]. *)
Definition wait_run (schedule : list nat) (st : wait_state) : wait_state :=
  fold_left wait_step schedule st.

Definition is_finished (p : string * poller) : bool :=
  match p.2 with
  | Finished _ => true
  | Polling => false
  end.

Definition has_failed (p : string * poller) : bool :=
  match p.2 with
  | Finished (Some _) => true
  | _ => false
  end.

(** [allVolumesReady] is called once every loop has called [done]. *)
Definition allVolumesReady (ps : list (string * poller)) : list (call task_args) :=
  if forallb is_finished ps then
    if existsb has_failed ps then
      [Cb (Some (new_Error ("Could not determine if all required volumes "
                             +:+ "are ready")), None)]
    else [Cb (None, Some "All required volumes ready")]
  else [].

(** The task, observed while the answers of [schedule] arrive. *)
Definition waitForNfsVolumeProvisions (schedule : list nat) (j : job) (w : world S)
  : list (call task_args) * job * world S :=
  if is_defined (requiredNfsVolumes j)
     && negb (is_defined (Array_isArray (requiredNfsVolumes j))) then
    ([Cb (Some (new_Error ("job.requiredNfsVolumes must be an array if "
                            +:+ "present")), None)], j, w)
  else
    let none := ([Cb (None, Some "No required NFS volume to wait for")], j, w) in
    match createdVolumes j with
    | None => none
    | Some created =>
        if (length (Object_keys created) =? 0)%nat then none
        else
          let st :=
            wait_run schedule
              {| pollers := map (fun uuid => (uuid, Polling)) (Object_keys created);
                 wait_job := j; wait_world := w |} in
          (allVolumesReady (pollers st), wait_job st, wait_world st)
    end.
End waitForNfsVolumeProvisions.
Arguments wait_state S : clear implicits.

(** ** Task [cnapi.build_nfs_volumes_metadata] *)

Section buildNfsVolumesMetadata.
Context `{JSON} {S : Type} `{SdcClients S}.

(** [jsprim.deepCopy]: a new object with the same contents for an object,
    the value itself otherwise. *)
Definition deepCopy (v : jsval) (w : world S) : jsval * world S :=
  match v with
  | VRef l =>
      let '(l', w) := alloc (default ∅ (objects w !! l)) w in (VRef l', w)
  | _ => (v, w)
  end.

(** [v[key] = value]: [None] for the [TypeError] on [undefined] and [null];
    on another primitive the assignment is dropped. *)
Definition set_property (v : jsval) (key : string) (value : json) (w : world S)
  : option (world S) :=
  match v with
  | VUndefined | VPrim PNull => None
  | VPrim _ => Some w
  | VRef l => Some (with_objects (alter (insert key value) l (objects w)) w)
  end.

(** An object literal as [JSON.stringify] sees it: a property whose value is
    [undefined] is left out. *)
Definition object_literal (props : list (string * option json)) : json :=
  JObj (omap (fun p => pair p.1 <$> p.2) props).

(** The [for (volumeUuid in job.createdVolumes)] loop; [None] for the
    [TypeError] raised when [job.mapRequiredNfsVolumes[volume.name]] cannot
    be dereferenced. *)
Fixpoint push_nfsVolumesMetadata (j : job) (created : list (string * volume))
    (nfsVolumesMetadata : list json) : option (list json) :=
  match created with
  | [] => Some nfsVolumesMetadata
  | (volumeUuid, v) :: rest =>
      match mapRequiredNfsVolumes j ≫= (fun m => js_get m (vol_name v)) with
      | None | Some (JPrim PNull) => None
      | Some requiredVolume =>
          push_nfsVolumesMetadata j rest
            (nfsVolumesMetadata ++
             [object_literal
                [("nfsvolume", JPrim ∘ PStr <$> vol_filesystem_path v);
                 ("mountpoint", json_get requiredVolume "mountpoint")]])
      end
  end.

Definition buildNfsVolumesMetadata (j : job) (w : world S)
  : list (call task_args) * job * world S :=
  match job_vm j with
  | None => ([Cb (Some (new_Error "job.vm must be an object"), None)], j, w)
  | Some v =>
      match createdVolumes j with
      | None =>
          ([Cb (Some (new_Error "job.createdVolumes must be an object"), None)],
           j, w)
      | Some created =>
          let '(vmInternalMetadata, w) := deepCopy (vm_internal_metadata v) w in
          if (length (Object_keys created) =? 0)%nat then
            ([Cb (None, Some ("No NFS volume with which to update VM's internal "
                               +:+ "metadata"))], j, w)
          else
            match push_nfsVolumesMetadata j created [] with
            | None =>
                ([Throw "TypeError: Cannot read property 'mountpoint'"], j, w)
            | Some nfsVolumesMetadata =>
                let stringifiedNfsVolumesMetadata :=
                  JSON_stringify (JArr nfsVolumesMetadata) in
                match set_property vmInternalMetadata nfsvolumes
                        (JStr stringifiedNfsVolumesMetadata) w with
                | None =>
                    ([Throw "TypeError: Cannot set property 'docker:nfsvolumes'"],
                     j, w)
                | Some w =>
                    ([Cb (None, Some ("Built docker:nfsvolumes internal_metadata:"
                                       +:+ stringifiedNfsVolumesMetadata))],
                     set_updatedVmInternalMetadata vmInternalMetadata j, w)
                end
            end
      end
  end.
End buildNfsVolumesMetadata.

(** ** Function [waitForNfsVolumesMetadataUpdated] *)

Section waitForNfsVolumesMetadataUpdated.
Context {S : Type} `{SdcClients S}.

(** [a === b] for a value [a] and a string [b]. *)
Definition strict_equal_string (a : option json) (b : string) : bool :=
  match a with
  | Some (JPrim (PStr s)) => String.eqb s b
  | _ => false
  end.

(** The poll loop, observed for at most [fuel] rounds. The result lists
    the invocations of the task callback: none while the loop goes on. *)
Fixpoint checkMetadataUpdated (fuel : nat) (v : vm)
    (stringifiedRequiredNfsVolumesMetadata : string) (w : world S)
  : list (call task_args) * world S :=
  match fuel with
  | O => ([], w)
  | Datatypes.S fuel =>
      let '((err, fetched), w) :=
        getVm (vm_uuid v) (Some (vm_owner_uuid v)) w in
      match err with
      | Some err =>
          ([Cb (Some (new_Error ("Error when getting VM: " +:+ err_toString err)),
                None)], w)
      | None =>
          match fetched with
          | None => ([Throw "TypeError: Cannot read property 'internal_metadata'"], w)
          | Some fetched =>
              let currentVmNfsVolumesMetadata :=
                if truthy_val (vm_internal_metadata fetched) then
                  get_property (objects w) (vm_internal_metadata fetched) nfsvolumes
                else undefined in
              if strict_equal_string currentVmNfsVolumesMetadata
                   stringifiedRequiredNfsVolumesMetadata then
                ([Cb (None, Some "NFS volumes metadata updated successfully")], w)
              else
                checkMetadataUpdated fuel v
                  stringifiedRequiredNfsVolumesMetadata (setTimeout 1000 w)
          end
      end
  end.

Definition waitForNfsVolumesMetadataUpdated (fuel : nat) (j : job) (w : world S)
  : list (call task_args) * world S :=
  match job_vm j with
  | None => ([Cb (Some (new_Error "job.vm must be an object"), None)], w)
  | Some v =>
      match stringifiedRequiredNfsVolumesMetadata j with
      | Some (JPrim (PStr stringifiedRequiredNfsVolumesMetadata)) =>
          match createdVolumes j with
          | None =>
              ([Cb (Some (new_Error "job.createdVolumes must be an object"), None)],
               w)
          | Some created =>
              if (length (Object_keys created) =? 0)%nat then
                ([Cb (None, Some ("No NFS volume with which to update VM's internal "
                                   +:+ "metadata"))], w)
              else
                checkMetadataUpdated fuel v
                  stringifiedRequiredNfsVolumesMetadata w
          end
      | _ =>
          ([Cb (Some (new_Error ("job.stringifiedRequiredNfsVolumesMetadata must "
                                  +:+ "be a string")), None)], w)
      end
  end.
End waitForNfsVolumesMetadataUpdated.

(** ** Task [setup_update_vm_nfs_volumes_metadata_request] *)

(** The task that follows [cnapi.build_nfs_volumes_metadata] in
    [provisionChain]. *)
Definition setupUpdateVmNfsVolumesMetadataRequest (j : job)
  : list (call task_args) * job :=
  if match updatedVmInternalMetadata j with VPrim PNull => true | _ => false end
     || negb (String.eqb (typeof_val (updatedVmInternalMetadata j)) "object") then
    ([Cb (Some (new_Error "job.updatedVmInternalMetadata must be an object"), None)],
     j)
  else
    ([Cb (None, Some "Request has been setup!")],
     {| params :=
          {| params_vm_uuid := params_vm_uuid (params j);
             params_owner_uuid := params_owner_uuid (params j);
             params_server_uuid := params_server_uuid (params j);
             params_jobid := Some (job_uuid j);
             params_payload := Some (updatedVmInternalMetadata j) |};
        job_uuid := job_uuid j;
        job_vm := job_vm j;
        mapRequiredNfsVolumes := mapRequiredNfsVolumes j;
        createdVolumes := createdVolumes j;
        updatedVmInternalMetadata := updatedVmInternalMetadata j;
        stringifiedRequiredNfsVolumesMetadata :=
          stringifiedRequiredNfsVolumesMetadata j;
        requiredNfsVolumes := requiredNfsVolumes j;
        endpoint := Some ("/servers/" +:+ params_server_uuid (params j)
                          +:+ "/vms/" +:+ params_vm_uuid (params j) +:+ "/update");
        requestMethod := Some "post";
        action := Some "update";
        server_uuid := Some (params_server_uuid (params j)) |}).

(** ** An implementation of the JSON built-ins

    Serialization and parsing of the fragment of JSON that [json] covers:
    integer numbers, and strings whose escapes are the two-character ones.
    It instantiates [JSON] where a property is run on concrete data. *)

Module Json.
Definition dquote : ascii := "034"%char.
Definition backslash : ascii := "092"%char.

Definition escape_char (c : ascii) : string :=
  if Ascii.eqb c dquote then String backslash (String dquote EmptyString)
  else if Ascii.eqb c backslash then String backslash (String backslash EmptyString)
  else if Ascii.eqb c "010"%char then String backslash "n"
  else if Ascii.eqb c "013"%char then String backslash "r"
  else if Ascii.eqb c "009"%char then String backslash "t"
  else String c EmptyString.

Fixpoint escape (s : string) : string :=
  match s with
  | EmptyString => EmptyString
  | String c rest => escape_char c +:+ escape rest
  end.

Definition quote (s : string) : string :=
  String dquote (escape s) +:+ String dquote EmptyString.

Fixpoint stringify (j : json) : string :=
  match j with
  | JPrim (PStr s) => quote s
  | JPrim p => primitive_toString p
  | JArr elems => "[" +:+ String.concat "," (map stringify elems) +:+ "]"
  | JObj props =>
      "{" +:+ String.concat ","
               (map (fun p => quote p.1 +:+ ":" +:+ stringify p.2) props)
      +:+ "}"
  end.

Definition is_space (c : ascii) : bool :=
  Ascii.eqb c " "%char || Ascii.eqb c "009"%char
  || Ascii.eqb c "010"%char || Ascii.eqb c "013"%char.

Fixpoint skip_ws (s : string) : string :=
  match s with
  | String c rest => if is_space c then skip_ws rest else s
  | EmptyString => s
  end.

Definition digit (c : ascii) : option Z :=
  let n := Z.of_nat (nat_of_ascii c) in
  if (48 <=? n)%Z && (n <=? 57)%Z then Some (n - 48)%Z else None.

Fixpoint parse_digits (s : string) (acc : Z) : Z * string :=
  match s with
  | String c rest =>
      match digit c with
      | Some d => parse_digits rest (10 * acc + d)%Z
      | None => (acc, s)
      end
  | EmptyString => (acc, s)
  end.

(** A natural number without a superfluous leading zero, and with no
    fraction or exponent after it. *)
Definition parse_nat (s : string) : option (Z * string) :=
  match s with
  | String c rest =>
      match digit c with
      | Some d =>
          let '(n, rest) :=
            if (d =? 0)%Z then (0%Z, rest) else parse_digits rest d in
          match rest with
          | String c' _ =>
              if is_defined (digit c') || Ascii.eqb c' "."%char
                 || Ascii.eqb c' "e"%char || Ascii.eqb c' "E"%char
              then None else Some (n, rest)
          | EmptyString => Some (n, rest)
          end
      | None => None
      end
  | EmptyString => None
  end.

(** The characters of a string literal after its opening quote. *)
Fixpoint parse_chars (s : string) (acc : string) : option (string * string) :=
  match s with
  | EmptyString => None
  | String c rest =>
      if Ascii.eqb c dquote then Some (acc, rest)
      else if Ascii.eqb c backslash then
        match rest with
        | String e rest' =>
            let unescaped :=
              if Ascii.eqb e dquote then Some dquote
              else if Ascii.eqb e backslash then Some backslash
              else if Ascii.eqb e "/"%char then Some "/"%char
              else if Ascii.eqb e "n"%char then Some "010"%char
              else if Ascii.eqb e "r"%char then Some "013"%char
              else if Ascii.eqb e "t"%char then Some "009"%char
              else None in
            match unescaped with
            | Some u => parse_chars rest' (acc +:+ String u EmptyString)
            | None => None
            end
        | EmptyString => None
        end
      else if (nat_of_ascii c <? 32)%nat then None
      else parse_chars rest (acc +:+ String c EmptyString)
  end.

Definition expect (word : string) (value : json) (s : string)
  : option (json * string) :=
  if String.prefix word s
  then Some (value, String.substring (String.length word)
                      (String.length s - String.length word) s)
  else None.

(** [parse_elements] and [parse_members] read what follows an opening
    bracket that is not closed at once. *)
Fixpoint parse_elements (value : string -> option (json * string))
    (fuel : nat) (s : string) (acc : list json)
  : option (list json * string) :=
  match fuel with
  | O => None
  | Datatypes.S fuel =>
      match value s with
      | Some (v, rest) =>
          match skip_ws rest with
          | String c rest' =>
              if Ascii.eqb c ","%char then
                parse_elements value fuel rest' (acc ++ [v])
              else if Ascii.eqb c "]"%char then Some (acc ++ [v], rest')
              else None
          | EmptyString => None
          end
      | None => None
      end
  end.

Fixpoint parse_members (value : string -> option (json * string))
    (fuel : nat) (s : string) (acc : list (string * json))
  : option (list (string * json) * string) :=
  match fuel with
  | O => None
  | Datatypes.S fuel =>
      match skip_ws s with
      | String q rest =>
          if Ascii.eqb q dquote then
            match parse_chars rest EmptyString with
            | Some (key, rest) =>
                match skip_ws rest with
                | String colon rest =>
                    if Ascii.eqb colon ":"%char then
                      match value rest with
                      | Some (v, rest) =>
                          match skip_ws rest with
                          | String c rest' =>
                              if Ascii.eqb c ","%char then
                                parse_members value fuel rest' (js_set acc key v)
                              else if Ascii.eqb c "}"%char then
                                Some (js_set acc key v, rest')
                              else None
                          | EmptyString => None
                          end
                      | None => None
                      end
                    else None
                | EmptyString => None
                end
            | None => None
            end
          else None
      | EmptyString => None
      end
  end.

Fixpoint parse_value (fuel : nat) (s : string) : option (json * string) :=
  match fuel with
  | O => None
  | Datatypes.S fuel =>
      match skip_ws s with
      | EmptyString => None
      | String c rest =>
          if Ascii.eqb c "n"%char then expect "null" JNull (String c rest)
          else if Ascii.eqb c "t"%char then expect "true" (JBool true) (String c rest)
          else if Ascii.eqb c "f"%char then expect "false" (JBool false) (String c rest)
          else if Ascii.eqb c dquote then
            match parse_chars rest EmptyString with
            | Some (str, rest) => Some (JStr str, rest)
            | None => None
            end
          else if Ascii.eqb c "["%char then
            match skip_ws rest with
            | String c' rest' =>
                if Ascii.eqb c' "]"%char then Some (JArr [], rest')
                else
                  match parse_elements (parse_value fuel) fuel rest [] with
                  | Some (elems, rest) => Some (JArr elems, rest)
                  | None => None
                  end
            | EmptyString => None
            end
          else if Ascii.eqb c "{"%char then
            match skip_ws rest with
            | String c' rest' =>
                if Ascii.eqb c' "}"%char then Some (JObj [], rest')
                else
                  match parse_members (parse_value fuel) fuel rest [] with
                  | Some (props, rest) => Some (JObj props, rest)
                  | None => None
                  end
            | EmptyString => None
            end
          else if Ascii.eqb c "-"%char then
            match parse_nat rest with
            | Some (n, rest) => Some (JNum (- n), rest)
            | None => None
            end
          else
            match parse_nat (String c rest) with
            | Some (n, rest) => Some (JNum n, rest)
            | None => None
            end
      end
  end.

Definition parse (s : string) : option json :=
  match parse_value (Datatypes.S (String.length s)) s with
  | Some (j, rest) =>
      match skip_ws rest with
      | EmptyString => Some j
      | String _ _ => None
      end
  | None => None
  end.

Definition builtins : JSON :=
  {| JSON_parse := parse; JSON_stringify := stringify |}.
End Json.

(** ** A simulation of the services

    A small VMAPI and VOLAPI: volume names are unique per owner, a new
    volume becomes ready after a number of polls, and a volume may be stuck
    in the [failed] state. It instantiates [SdcClients] where a property is
    run on concrete data. *)

Module Sim.
(** A volume as stored: [remaining] counts the polls before the volume is
    ready, [None] marks a volume whose creation failed. *)
Record stored := {
  record : volume;
  remaining : option nat;
}.

Record state := {
  vms : list vm_wire;
  volumes : list stored;
  allocated : nat;
  delay : nat;
}.

Definition with_state (st : string) (path : option string) (v : volume) : volume :=
  {| vol_uuid := vol_uuid v; vol_name := vol_name v;
     vol_owner_uuid := vol_owner_uuid v; vol_state := st;
     vol_filesystem_path := path; vol_networks := vol_networks v |}.

(** The record as the service shows it. *)
Definition shown (x : stored) : volume :=
  match remaining x with
  | Some O =>
      with_state "ready" (Some ("10.0.0.7:/exports/" +:+ vol_name (record x)))
        (record x)
  | Some (Datatypes.S _) => with_state "creating" None (record x)
  | None => with_state "failed" None (record x)
  end.

Definition named (name owner_uuid : string) (x : stored) : bool :=
  String.eqb (vol_name (record x)) name
  && String.eqb (vol_owner_uuid (record x)) owner_uuid.

Definition identified (uuid owner_uuid : string) (x : stored) : bool :=
  String.eqb (vol_uuid (record x)) uuid
  && String.eqb (vol_owner_uuid (record x)) owner_uuid.

Definition not_found (what : string) : jserr :=
  ErrorObj "ResourceNotFoundError" (what +:+ " not found") (Some "ResourceNotFound").

Definition sim_getVm (uuid : string) (owner_uuid : option string) (s : state)
  : (option jserr * option vm_wire) * state :=
  match List.find (fun v => String.eqb (vm_uuid v) uuid
                      && match owner_uuid with
                         | Some o => String.eqb (vm_owner_uuid v) o
                         | None => true
                         end) (vms s) with
  | Some v => ((None, Some v), s)
  | None => ((Some (not_found "VM"), None), s)
  end.

Definition sim_createVolume (name owner_uuid type : string)
    (networks : list (option string)) (s : state)
  : (option jserr * option volume) * state :=
  if existsb (named name owner_uuid) (volumes s) then
    ((Some (ErrorObj "VolumeAlreadyExistsError"
              ("Volume with name " +:+ name +:+ " already exists")
              (Some "VOLUME_ALREADY_EXISTS")), None), s)
  else
    let x :=
      {| record := {| vol_uuid := "volume-" +:+ pretty (allocated s);
                      vol_name := name; vol_owner_uuid := owner_uuid;
                      vol_state := "creating"; vol_filesystem_path := None;
                      vol_networks := networks |};
         remaining := Some (delay s) |} in
    ((None, Some (shown x)),
     {| vms := vms s; volumes := volumes s ++ [x];
        allocated := Datatypes.S (allocated s); delay := delay s |}).

Definition sim_listVolumes (name owner_uuid : string) (s : state)
  : (option jserr * option (list volume)) * state :=
  ((None, Some (map shown (List.filter (named name owner_uuid) (volumes s)))), s).

(** A poll brings a volume in creation one step closer to ready. *)
Definition polled (uuid owner_uuid : string) (x : stored) : stored :=
  if identified uuid owner_uuid x then
    {| record := record x; remaining := Nat.pred <$> remaining x |}
  else x.

Definition sim_getVolume (uuid owner_uuid : string) (s : state)
  : (option jserr * option volume) * state :=
  match List.find (identified uuid owner_uuid) (volumes s) with
  | Some x =>
      ((None, Some (shown x)),
       {| vms := vms s; volumes := map (polled uuid owner_uuid) (volumes s);
          allocated := allocated s; delay := delay s |})
  | None => ((Some (not_found "Volume"), None), s)
  end.

Definition clients : SdcClients state :=
  {| vmapi_getVm := sim_getVm;
     volapi_createVolume := sim_createVolume;
     volapi_listVolumes := sim_listVolumes;
     volapi_getVolume := sim_getVolume |}.

(** A world with nothing logged and no object allocated. *)
Definition boot (s : state) : world state :=
  {| service := s; log := []; objects := ∅ |}.
End Sim.

(** ** Concrete scenarios *)

Module Scenario.
Import Json.

Definition overlay_nic : nic :=
  {| nic_tag := Some "sdc_overlay/4651"; network_uuid := Some "net-fabric" |}.
Definition admin_nic : nic :=
  {| nic_tag := Some "admin"; network_uuid := Some "net-admin" |}.
Definition untagged_nic : nic :=
  {| nic_tag := None; network_uuid := Some "net-external" |}.

(** A VM whose [internal_metadata] is the object [props]. *)
Definition vm_with (props : gmap string json) : vm_wire :=
  {| vm_uuid := "vm-1"; vm_owner_uuid := "owner-1";
     vm_internal_metadata := WObject props;
     vm_nics := [NicObject overlay_nic; NicObject admin_nic] |}.

(** The value of [docker:nfs_volumes_required] for one volume [data]
    mounted on [/data]. *)
Definition requires_data : string :=
  stringify (JArr [JObj [("name", JStr "data"); ("mountpoint", JStr "/data")]]).

Definition start_job : job :=
  {| params := {| params_vm_uuid := "vm-1"; params_owner_uuid := "owner-1";
                  params_server_uuid := "server-1"; params_jobid := None;
                  params_payload := None |};
     job_uuid := "job-1";
     job_vm := None;
     mapRequiredNfsVolumes := None;
     createdVolumes := None;
     updatedVmInternalMetadata := VUndefined;
     stringifiedRequiredNfsVolumesMetadata := None;
     requiredNfsVolumes := None;
     endpoint := None; requestMethod := None; action := None;
     server_uuid := None |}.

(** The services holding the VM [v] and the stored volumes [vols]; a new
    volume is ready after [d] polls. *)
Definition services (v : vm_wire) (vols : list Sim.stored) (d : nat) : Sim.state :=
  {| Sim.vms := [v]; Sim.volumes := vols; Sim.allocated := length vols;
     Sim.delay := d |}.

Definition stored_volume (uuid name : string) (remaining : option nat) : Sim.stored :=
  {| Sim.record := {| vol_uuid := uuid; vol_name := name;
                      vol_owner_uuid := "owner-1"; vol_state := "creating";
                      vol_filesystem_path := None; vol_networks := [] |};
     Sim.remaining := remaining |}.

(** The descriptor of the volume [data]. *)
Definition data_descriptor : json :=
  JObj [("name", JStr "data"); ("mountpoint", JStr "/data")].

(** [job.vm] once the VM is loaded, its metadata object being at [l]. *)
Definition loaded_vm (l : loc) : vm :=
  {| vm_uuid := "vm-1"; vm_owner_uuid := "owner-1";
     vm_internal_metadata := VRef l;
     vm_nics := [NicObject overlay_nic; NicObject admin_nic] |}.

(** The job after the extraction step, then with [created] as
    [job.createdVolumes]. *)
Definition loaded_job : job :=
  set_mapRequiredNfsVolumes [("data", data_descriptor)]
    (set_job_vm (loaded_vm 1%positive) start_job).

Definition provisioned_job (created : list (string * volume)) : job :=
  set_createdVolumes (Some created) loaded_job.

(** The record of a volume as [createVolume] returned it. *)
Definition creating (uuid name : string) : volume :=
  {| vol_uuid := uuid; vol_name := name; vol_owner_uuid := "owner-1";
     vol_state := "creating"; vol_filesystem_path := None; vol_networks := [] |}.

(** The answer of VOLAPI to the creation of a second volume [data]. *)
Definition conflict : jserr :=
  ErrorObj "VolumeAlreadyExistsError" "Volume with name data already exists"
    (Some "VOLUME_ALREADY_EXISTS").

(** The volume [data] once ready, and the value of [docker:nfsvolumes]
    that records it. *)
Definition ready_data : volume :=
  Sim.shown (stored_volume "volume-0" "data" (Some 0)).

Definition nfsvolumes_data : string :=
  stringify (JArr [JObj [("nfsvolume", JStr "10.0.0.7:/exports/data");
                         ("mountpoint", JStr "/data")]]).

(** The metadata of the VM before and after the update. *)
Definition metadata_before : gmap string json :=
  {[ nfs_volumes_required := JStr requires_data ]}.

Definition metadata_after : gmap string json :=
  <[ nfsvolumes := JStr nfsvolumes_data ]> metadata_before.

(** A world whose heap holds the metadata object of the loaded VM. *)
Definition loaded_world (props : gmap string json) (s : Sim.state)
  : world Sim.state :=
  {| service := s; log := []; objects := {[ 1%positive := props ]} |}.

(** Whether a task reported an error, threw, or did not call back once. *)
Definition failed (calls : list (call task_args)) : bool :=
  match calls with
  | [Cb (None, _)] => false
  | _ => true
  end.

(** The first four tasks of [provisionChain] run in order against the
    simulation, up to and including the first one that fails: what each
    task passed to its callback. *)
Definition chain_calls (schedule : list nat) (j : job) (w : world Sim.state)
  : list (list (call task_args)) :=
  match @provisionNfsVolumes builtins _ Sim.clients j w with
  | None => []
  | Some (provisioned, j, w) =>
      if failed provisioned then [provisioned]
      else
        let '(waited, j, w) :=
          @waitForNfsVolumeProvisions _ Sim.clients schedule j w in
        if failed waited then [provisioned; waited]
        else
          let '(built, j, w) :=
            @buildNfsVolumesMetadata builtins _ j w in
          if failed built then [provisioned; waited; built]
          else
            [provisioned; waited; built;
             (setupUpdateVmNfsVolumesMetadataRequest j).1]
  end.
End Scenario.

(** ** Vocabulary of the properties *)

Section vocabulary.
Context {S : Type} `{SdcClients S}.

(** An element of the parsed array that the [forEach] loop rejects. *)
Definition not_an_object (requiredVolume : json) : bool :=
  is_null requiredVolume
  || negb (String.eqb (typeof (Some requiredVolume)) "object").

(** A nic whose tag marks it as an overlay-network interface. *)
Definition is_overlay (n : nic) : bool :=
  match nic_tag n with
  | Some tag => String.prefix "sdc_overlay/" tag
  | None => false
  end.

(** The error reported when the listing after a conflict does not show
    exactly one volume. *)
Definition inconsistent_state (j : job) (volumeName : string) : jserr :=
  new_Error ("There must be either no or one volume with name "
             +:+ volumeName +:+ " for user " +:+ params_owner_uuid (params j)).

(** What the workflow relies on in VOLAPI when it retries: listing and a
    refused creation change nothing, and a volume that was created is the
    one match of a listing by its name and owner. *)
Record consistent_volapi : Prop := {
  list_reads : forall name owner s, (volapi_listVolumes name owner s).2 = s;
  conflict_reads : forall name owner type networks s e v s',
    volapi_createVolume name owner type networks s = ((Some e, v), s') ->
    restCode e = Some "VOLUME_ALREADY_EXISTS" -> s' = s;
  created_listed : forall name owner type networks s v s',
    volapi_createVolume name owner type networks s = ((None, Some v), s') ->
    exists v', (volapi_listVolumes name owner s').1 = (None, Some [v'])
               /\ vol_uuid v' = vol_uuid v;
}.

(** The invocations of [callback] made while the [networks] array is built. *)
Definition early_calls (v : vm) : list volume_args :=
  concat (map getOverlayNetwork (vm_nics v)).*1.

(** The answer to the [k]-th further poll of a volume in a row, counted
    from 0, with the service state after it. *)
Fixpoint nth_fetch (uuid owner : string) (k : nat) (s : S)
  : (option jserr * option volume) * S :=
  match k with
  | O => volapi_getVolume uuid owner s
  | Datatypes.S k => nth_fetch uuid owner k (volapi_getVolume uuid owner s).2
  end.

(** A fetch that succeeds without showing a ready volume. *)
Definition pending (r : option jserr * option volume) : Prop :=
  r.1 = None /\ forall v, r.2 = Some v -> vol_state v <> "ready".

Definition is_reply (e : event) : bool :=
  match e with
  | Reply _ => true
  | _ => false
  end.

(** What the workflow did, without the answers it got. *)
Definition actions (l : list event) : list event :=
  List.filter (fun e => negb (is_reply e)) l.

(** [n] rounds of fetching and waiting one second. *)
Definition rounds (uuid owner : string) (n : nat) : list event :=
  concat (replicate n [Request (GetVolume uuid owner); SetTimeout 1000]).

(** VOLAPI answers a fetch with the volume that was asked for. *)
Definition fetches_by_uuid : Prop :=
  forall uuid owner s v s',
    volapi_getVolume uuid owner s = ((None, Some v), s') -> vol_uuid v = uuid.

(** The state of the loops, [created0] being [job.createdVolumes] and [w0]
    the world when the task started: the keys of [job.createdVolumes] are
    still the same, and a loop that called [done] without error has stored
    under its key a ready record that it fetched. *)
Record wait_inv (owner : string) (created0 : list (string * volume))
    (w0 : world S) (st : wait_state S) : Prop := {
  inv_owner : params_owner_uuid (params (wait_job st)) = owner;
  inv_keys : exists created,
    createdVolumes (wait_job st) = Some created
    /\ Object_keys created = Object_keys created0;
  inv_pollers : (pollers st).*1 = Object_keys created0;
  inv_log : exists tail, log (wait_world st) = log w0 ++ tail;
  inv_done : forall i uuid,
    pollers st !! i = Some (uuid, Finished None) ->
    exists v created,
      createdVolumes (wait_job st) = Some created
      /\ js_get created uuid = Some v
      /\ vol_state v = "ready" /\ vol_uuid v = uuid
      /\ exists pre post,
           log (wait_world st)
           = log w0 ++ pre ++ [Request (GetVolume uuid owner);
                               Reply (VolumeReply None (Some v))] ++ post;
}.

End vocabulary.
Arguments consistent_volapi S {_}.
Arguments fetches_by_uuid S {_}.


(** ** Further vocabulary for the workflow *)

Section workflow_vocabulary.
Context {S : Type} `{SdcClients S}.





(** The requests among the events of a log, oldest first. *)
Definition requests (l : list event) : list request :=
  omap (fun e => match e with Request r => Some r | _ => None end) l.

Definition is_creation (r : request) : bool :=
  match r with
  | CreateVolume _ _ _ _ => true
  | _ => false
  end.

(** The [docker:nfsvolumes] entry for a created volume: its
    [filesystem_path] with the mountpoint of the required volume of the
    same name. *)
Definition nfs_entry (m : list (string * json)) (v : volume) : json :=
  object_literal
    [("nfsvolume", JPrim ∘ PStr <$> vol_filesystem_path v);
     ("mountpoint", js_get m (vol_name v) ≫= (fun d => json_get d "mountpoint"))].

(** A created volume whose required volume can be dereferenced. *)
Definition has_descriptor (m : list (string * json)) (v : volume) : bool :=
  match js_get m (vol_name v) with
  | None | Some (JPrim PNull) => false
  | Some _ => true
  end.

(** [v.internal_metadata[key]] of a VM as received, when
    [v.internal_metadata] is truthy. *)
Definition wire_get (v : vm_wire) (key : string) : option json :=
  match vm_internal_metadata v with
  | WObject props => props !! key
  | _ => None
  end.

(** The answer to the [k]-th further fetch of a VM in a row, counted from
    0, with the service state after it. *)
Fixpoint nth_getVm (uuid : string) (owner : option string) (k : nat) (s : S)
  : (option jserr * option vm_wire) * S :=
  match k with
  | O => vmapi_getVm uuid owner s
  | Datatypes.S k => nth_getVm uuid owner k (vmapi_getVm uuid owner s).2
  end.

(** A fetch that shows a VM whose [docker:nfsvolumes] is not the string
    [expected], and one that shows a VM where it is. *)
Definition differs (expected : string) (r : option jserr * option vm_wire) : Prop :=
  exists v, r = (None, Some v) /\ wire_get v nfsvolumes <> Some (JStr expected).

Definition shows (expected : string) (r : option jserr * option vm_wire) : Prop :=
  exists v, r = (None, Some v) /\ wire_get v nfsvolumes = Some (JStr expected).

(** [n] rounds of fetching the VM and waiting one second. *)
Definition vm_rounds (uuid owner : string) (n : nat) : list event :=
  concat (replicate n [Request (GetVm uuid (Some owner)); SetTimeout 1000]).

(** What the wait for the volumes may do: fetch one of the volumes it
    waits for, for the owner of the job, and set a timer of one second. *)
Definition fetches_only (owner : string) (keys : list string) (e : event) : Prop :=
  match e with
  | Request r => exists uuid, r = GetVolume uuid owner /\ uuid ∈ keys
  | Reply _ => True
  | SetTimeout ms => ms = 1000%Z
  end.
End workflow_vocabulary.


(** An object of volume records in which every record is filed under its
    own UUID. *)
Definition keyed_by_uuid (created : list (string * volume)) : Prop :=
  forall uuid v, js_get created uuid = Some v -> vol_uuid v = uuid.

(** The creation that [provisionNfsVolume] asks for. *)
Definition creation_of (j : job) (v : vm) (volumeName : string) : request :=
  CreateVolume volumeName (params_owner_uuid (params j)) "tritonnfs"
    (overlay_networks (vm_nics v)).

(** ** A VMAPI on which an update lands late *)

Module Updating.
(** The VM as it is now and as it will be, and the number of fetches that
    still show it as it is now. *)
Record state := {
  current : vm_wire;
  updated : vm_wire;
  fetches_left : nat;
}.

Definition upd_getVm (uuid : string) (owner_uuid : option string) (s : state)
  : (option jserr * option vm_wire) * state :=
  match fetches_left s with
  | O => ((None, Some (updated s)), s)
  | Datatypes.S k =>
      ((None, Some (current s)),
       {| current := current s; updated := updated s; fetches_left := k |})
  end.

Definition unavailable : jserr :=
  ErrorObj "ServiceUnavailableError" "VOLAPI is not available"
    (Some "ServiceUnavailable").

Definition clients : SdcClients state :=
  {| vmapi_getVm := upd_getVm;
     volapi_createVolume := fun _ _ _ _ s => ((Some unavailable, None), s);
     volapi_listVolumes := fun _ _ s => ((Some unavailable, None), s);
     volapi_getVolume := fun _ _ s => ((Some unavailable, None), s) |}.

Definition boot (s : state) : world state :=
  {| service := s; log := []; objects := ∅ |}.
End Updating.

(** ** Further scenarios *)

Module Cases.
Import Json Scenario.



(** Two volumes required. *)
Definition logs_descriptor : json :=
  JObj [("name", JStr "logs"); ("mountpoint", JStr "/var/log")].

Definition requires_two : string :=
  stringify (JArr [data_descriptor; logs_descriptor]).

(** A VM served without [internal_metadata]. *)
Definition bare_vm : vm_wire :=
  {| vm_uuid := "vm-1"; vm_owner_uuid := "owner-1";
     vm_internal_metadata := WUndefined;
     vm_nics := [NicObject overlay_nic] |}.


(** The job [j] with [expected] in
    [job.stringifiedRequiredNfsVolumesMetadata]. *)
Definition expecting (expected : string) (j : job) : job :=
  {| params := params j;
     job_uuid := job_uuid j;
     job_vm := job_vm j;
     mapRequiredNfsVolumes := mapRequiredNfsVolumes j;
     createdVolumes := createdVolumes j;
     updatedVmInternalMetadata := updatedVmInternalMetadata j;
     stringifiedRequiredNfsVolumesMetadata := Some (JStr expected);
     requiredNfsVolumes := requiredNfsVolumes j;
     endpoint := endpoint j;
     requestMethod := requestMethod j;
     action := action j;
     server_uuid := server_uuid j |}.

(** A job that waits for the update recording the ready volume [data]. *)
Definition updating_job : job :=
  expecting nfsvolumes_data (provisioned_job [("volume-0", ready_data)]).

(** A VMAPI that shows the update at the third fetch. *)
Definition late_update : Updating.state :=
  {| Updating.current := vm_with metadata_before;
     Updating.updated := vm_with metadata_after;
     Updating.fetches_left := 2 |}.
End Cases.

(** ** The VMAPI application ([lib/vmapi.js])

    Numbers are exact integers here: status codes, millisecond timestamps
    and the sequence numbers derived from them are integers well below
    [2^53]. A string stands for its UTF-8 bytes. *)

Module VmapiApp.

(** [responseIndicatesSuccess(res)], as a function of [res.statusCode]. *)
Definition responseIndicatesSuccess (statusCode : Z) : bool :=
  (statusCode / 100 =? 2)%Z.

(** A restify route, of which the handlers read the name. *)
Record route := {
  route_name : string;
}.

(** The options that the ['after'] handler of [_initApis] passes to
    [restify.auditLogger]: the [route] of the child logger, and [body]. *)
Record audit := {
  audit_route : option string;
  audit_body : bool;
}.

(** The ['after'] handler of [_initApis], as a function of [req.path()],
    [req.method], [res.statusCode] and [route]: [None] when it returns
    without writing an audit record. *)
Definition onAfter (path method : string) (statusCode : Z) (rt : option route)
  : option audit :=
  if String.eqb path "/ping" then None
  else
    let requestSuccessful := responseIndicatesSuccess statusCode in
    let includeBodyInAuditLog :=
      if requestSuccessful then
        if String.eqb method "GET" || String.eqb method "HEAD"
           || match rt with
              | Some r => String.eqb (route_name r) "putvms"
              | None => false
              end
        then false else true
      else true in
    Some {| audit_route := route_name <$> rt;
            audit_body := includeBodyInAuditLog |}.

(** The names every plain object inherits from [Object.prototype]. *)
Definition Object_prototype : list string :=
  ["constructor"; "__defineGetter__"; "__defineSetter__"; "hasOwnProperty";
   "__lookupGetter__"; "__lookupSetter__"; "isPrototypeOf";
   "propertyIsEnumerable"; "toString"; "valueOf"; "__proto__";
   "toLocaleString"].

Definition EVT_SKIP_ROUTES : list (string * json) :=
  [("ping", JBool true); ("changefeeds", JBool true);
   ("changefeeds_stats", JBool true)].

(** [EVT_SKIP_ROUTES[name]] as a condition: an own property of the object,
    or a property it inherits, which is a function or an object. *)
Definition skipped (name : string) : bool :=
  truthy (js_get EVT_SKIP_ROUTES name) || bool_decide (name ∈ Object_prototype).

(** What the tracing middleware reads of a request: [req.route] and
    [req.time()]. *)
Record req := {
  req_route : option route;
  req_time : Z;
}.

(** The tracing middleware of [setMiddleware]: [req.trace.seq_id]
    ([None] when it is not assigned) and the new value of the module
    variable [request_seq_id]. *)
Definition trace (r : req) (request_seq_id : Z) : option Z * Z :=
  match req_route r with
  | Some rt =>
      if skipped (route_name rt) then (None, request_seq_id)
      else
        let request_seq_id := Z.rem (request_seq_id + 1) 1000 in
        (Some (req_time r * 1000 + request_seq_id)%Z, request_seq_id)
  | None => (None, request_seq_id)
  end.

(** The middleware on the requests of a server, in order of arrival. *)
Fixpoint serve (reqs : list req) (request_seq_id : Z) : list (option Z) :=
  match reqs with
  | [] => []
  | r :: reqs =>
      let '(seq_id, request_seq_id) := trace r request_seq_id in
      seq_id :: serve reqs request_seq_id
  end.

(** A request that the middleware gives a sequence number. *)
Definition traced (r : req) : bool :=
  match req_route r with
  | Some rt => negb (skipped (route_name rt))
  | None => false
  end.

(** The two operations of [crypto] and [Buffer] that [formatJSON] uses:
    [crypto.createHash('md5').update(data).digest('base64')] and
    [buffer.toString('base64')]. *)
Class Crypto := {
  md5_base64 : string -> string;
  base64 : string -> string;
}.

(** The [body] argument of a formatter: an [Error] with its [statusCode],
    [body] and [message] properties, a [Buffer], or another value. *)
Inductive body :=
  | BodyError (statusCode : option Z) (body : option json) (message : option string)
  | BodyBuffer (bytes : string)
  | BodyValue (v : option json).

(** The response: its status code and its headers, which Node files under
    their names in lower case. *)
Record response := {
  res_statusCode : Z;
  res_headers : gmap string primitive;
}.

Definition toLowerCase_ascii (c : ascii) : ascii :=
  let n := nat_of_ascii c in
  if (65 <=? n)%nat && (n <=? 90)%nat then ascii_of_nat (n + 32) else c.

Fixpoint toLowerCase (s : string) : string :=
  match s with
  | EmptyString => EmptyString
  | String c s => String (toLowerCase_ascii c) (toLowerCase s)
  end.

Definition setHeader (name : string) (value : primitive) (res : response)
  : response :=
  {| res_statusCode := res_statusCode res;
     res_headers := <[toLowerCase name := value]> (res_headers res) |}.

Section formatJSON.
Context `{JSON} `{Crypto}.

(** [formatJSON(req, res, body, callback)] as a function of [req.method]:
    the second argument of [callback], or the exception of
    [crypto]'s [update] on the [undefined] that [JSON.stringify] returns
    for [undefined], with the response as the function leaves it. *)
Definition formatJSON (method : string) (res : response) (b : body)
  : call string * response :=
  let '(res, b) :=
    match b with
    | BodyError statusCode inner message =>
        ({| res_statusCode :=
              match statusCode with
              | Some c => if (c =? 0)%Z then 500 else c
              | None => 500
              end;
            res_headers := res_headers res |},
         if truthy inner then inner
         else Some (object_literal [("message", JPrim ∘ PStr <$> message)]))
    | BodyBuffer bytes => (res, Some (JStr (base64 bytes)))
    | BodyValue v => (res, v)
    end in
  match b with
  | None => (Throw "TypeError: Not a string or buffer", res)
  | Some b =>
      let data := JSON_stringify b in
      let md5 := md5_base64 data in
      let res :=
        setHeader "Content-Type" (PStr "application/json")
          (setHeader "Content-MD5" (PStr md5)
             (setHeader "Content-Length" (PNum (Z.of_nat (String.length data)))
                res)) in
      (Cb (if String.eqb method "HEAD" then EmptyString else data), res)
  end.
End formatJSON.
End VmapiApp.

(** ** The backfill of [image_uuid] for KVM VMs ([tools/kvm-backfill])

    The moray client is an interface over the state of the store; the
    callback of [putVm] is invoked later than the call, so that a page of
    VMs has a number of writes in flight. *)

Module KvmBackfill.

Abbreviation vmobj := (list (string * json)).

(** [countVms({brand: 'kvm'}, cb)], [listVms({brand: 'kvm', offset, limit},
    true, cb)] and [putVm(uuid, vm, cb)], each answering with the arguments
    of its callback. *)
Class Moray (M : Type) := {
  countVms : M -> (option jserr * Z) * M;
  listVms : Z -> Z -> M -> (option jserr * list vmobj) * M;
  putVm : option json -> vmobj -> M -> option jserr * M;
}.

(** [disks[0]] for a [disks] that is not [null]. *)
Definition first_disk (disks : json) : option json :=
  match disks with
  | JArr elems => head elems
  | JObj props => js_get props "0"
  | JPrim (PStr (String c _)) => Some (JStr (String c EmptyString))
  | JPrim _ => None
  end.

(** What [processVm] does with a VM: it counts it at once in one of three
    branches, or writes it back. *)
Inductive processed :=
  | AlreadyProcessed
  | ParseError
  | PutVm (uuid : option json) (vm : vmobj)
  | NoStandardDisks.

Section processVm.
Context `{JSON}.

Definition processVm (vm : vmobj) : processed :=
  let disks := js_get vm "disks" in
  if truthy (js_get vm "image_uuid") then AlreadyProcessed
  else
    let parsed :=
      match disks with
      | Some (JPrim (PStr text)) =>
          match JSON_parse text with
          | Some disks => Some (Some disks)
          | None => None
          end
      | _ => Some disks
      end in
    match parsed with
    | None => ParseError
    | Some disks =>
        let disk := if truthy disks then disks ≫= first_disk else None in
        match (if truthy disk then disk ≫= (fun d => json_get d "image_uuid")
               else None) with
        | Some image_uuid =>
            if truthy (Some image_uuid) then
              let vm := js_set vm "image_uuid" image_uuid in
              PutVm (js_get vm "uuid") vm
            else NoStandardDisks
        | None => NoStandardDisks
        end
    end.
End processVm.

(** The store, the two counters of the script, and the calls of [putVm] so
    far, oldest first. *)
Record script (M : Type) := {
  moray : M;
  totalNbKvmVms : Z;
  nbProcessedVms : Z;
  written : list (option json * vmobj);
}.
Arguments moray {M} _.
Arguments totalNbKvmVms {M} _.
Arguments nbProcessedVms {M} _.
Arguments written {M} _.

(** The variables of one call of [processVms], and the answers of the
    writes whose callback has not run yet. *)
Record page := {
  done : Z;
  limit : Z;
  in_flight : list (option jserr);
}.

(** How a call of [processVms] ends: the process exits, [processCb] is
    called, or [wait] has set one more timer at the end of what is
    observed. *)
Inductive outcome (M : Type) :=
  | Exited (code : Z)
  | Called (err : option jserr) (st : script M) (p : page)
  | Waiting (st : script M) (p : page).
Arguments Exited {M} _.
Arguments Called {M} _ _ _.
Arguments Waiting {M} _ _.

Section processVms.
Context `{JSON} {M : Type} `{Moray M}.

(** [nbProcessedVms += 1; done += 1] *)
Definition count_vm (x : script M * page) : script M * page :=
  ({| moray := moray x.1; totalNbKvmVms := totalNbKvmVms x.1;
      nbProcessedVms := nbProcessedVms x.1 + 1; written := written x.1 |},
   {| done := done x.2 + 1; limit := limit x.2; in_flight := in_flight x.2 |}).

(** One step of [vms.forEach(processVm)]. *)
Definition visit (x : script M * page) (vm : vmobj) : script M * page :=
  match processVm vm with
  | PutVm uuid vm =>
      let '(perr, m) := putVm uuid vm (moray x.1) in
      ({| moray := m; totalNbKvmVms := totalNbKvmVms x.1;
          nbProcessedVms := nbProcessedVms x.1;
          written := written x.1 ++ [(uuid, vm)] |},
       {| done := done x.2; limit := limit x.2;
          in_flight := in_flight x.2 ++ [perr] |})
  | _ => count_vm x
  end.

(** The callback of the oldest write in flight runs. Each callback adds
    one to both counters, so the order in which they run does not show in
    the state. *)
Definition arrive (x : script M * page) : script M * page :=
  match in_flight x.2 with
  | [] => x
  | perr :: rest =>
      count_vm (x.1, {| done := done x.2; limit := limit x.2; in_flight := rest |})
  end.

(** [wait()], then one more [wait()] per timer: [arrivals] gives, for each
    second waited, the number of write callbacks that run during it. *)
Fixpoint wait (arrivals : list nat) (x : script M * page) : outcome M :=
  if (done x.2 =? limit x.2)%Z then Called None x.1 x.2
  else
    match arrivals with
    | [] => Waiting x.1 x.2
    | n :: arrivals => wait arrivals (Nat.iter n arrive x)
    end.

Definition processVms (arrivals : list nat) (offset limit : Z) (st : script M)
  : outcome M :=
  let '((countVmsErr, count), m) := countVms (moray st) in
  match countVmsErr with
  | Some _ => Exited 1
  | None =>
      let '((err, vms), m) := listVms offset limit m in
      match err with
      | Some err =>
          Called (Some err)
            {| moray := m; totalNbKvmVms := totalNbKvmVms st;
               nbProcessedVms := nbProcessedVms st; written := written st |}
            {| done := 0; limit := limit; in_flight := [] |}
      | None =>
          let st :=
            {| moray := m;
               totalNbKvmVms :=
                 if (totalNbKvmVms st =? 0)%Z then count else totalNbKvmVms st;
               nbProcessedVms := nbProcessedVms st; written := written st |} in
          let limit := if (count <? limit)%Z then count else limit in
          wait arrivals
            (fold_left visit vms
               (st, {| done := 0; limit := limit; in_flight := [] |}))
      end
  end.
End processVms.

(** What [processCb] does next: one more page from the given offset, or
    the end of the script. *)
Inductive next :=
  | NextPage (offset limit : Z)
  | Done.

Definition processCb {M} (VMS_LIMIT : Z) (st : script M) : next :=
  if (nbProcessedVms st <? totalNbKvmVms st)%Z
  then NextPage (nbProcessedVms st) VMS_LIMIT
  else Done.

(** The write that [processVm] asks for, if any. *)
Definition put_of `{JSON} (vm : vmobj) : option (option json * vmobj) :=
  match processVm vm with
  | PutVm uuid vm => Some (uuid, vm)
  | _ => None
  end.
End KvmBackfill.

(** ** A store of VMs in memory *)

Module Store.
Import KvmBackfill.

Definition has_uuid (uuid : option json) (vm : vmobj) : bool :=
  match uuid, js_get vm "uuid" with
  | Some (JPrim (PStr a)), Some (JPrim (PStr b)) => String.eqb a b
  | _, _ => false
  end.

(** The store holds KVM VMs only; a page is a slice of them. *)
Definition clients : Moray (list vmobj) :=
  {| countVms := fun s => ((None, Z.of_nat (length s)), s);
     listVms := fun offset limit s =>
       ((None, take (Z.to_nat limit) (drop (Z.to_nat offset) s)), s);
     putVm := fun uuid vm s =>
       (None, map (fun old => if has_uuid uuid old then vm else old) s) |}.

Definition start (s : list vmobj) : script (list vmobj) :=
  {| moray := s; totalNbKvmVms := 0; nbProcessedVms := 0; written := [] |}.

(** A VM with a disk image, as moray stores it, one that was backfilled
    already, and one without disks. *)
Definition kvm (uuid image : string) : vmobj :=
  [("uuid", JStr uuid); ("brand", JStr "kvm");
   ("disks", JStr (Json.stringify
                     (JArr [JObj [("image_uuid", JStr image); ("size", JNum 10240)];
                            JObj [("size", JNum 2048)]])))].

Definition backfilled (uuid image : string) : vmobj :=
  [("uuid", JStr uuid); ("brand", JStr "kvm"); ("image_uuid", JStr image)].

Definition diskless (uuid : string) : vmobj :=
  [("uuid", JStr uuid); ("brand", JStr "kvm")].

Definition three_vms : list vmobj :=
  [kvm "vm-a" "image-1"; backfilled "vm-b" "image-2"; kvm "vm-c" "image-3"].

(** A digest for the runs of [formatJSON]. *)
Definition plain : VmapiApp.Crypto :=
  {| VmapiApp.md5_base64 := fun data => "md5-" +:+ pretty (String.length data);
     VmapiApp.base64 := fun bytes => "base64-" +:+ bytes |}.
End Store.

(** ** Vocabulary for the application and the backfill *)

(** The disks of a VM as [processVm] looks at them: the value of
    [vm.disks], parsed when it is a string. *)
Definition disks_of `{JSON} (vm : KvmBackfill.vmobj) : option json :=
  match js_get vm "disks" with
  | Some (JPrim (PStr text)) => JSON_parse text
  | disks => disks
  end.

(** The number of requests with a sequence number among the first [k]. *)
Definition traced_before (reqs : list VmapiApp.req) (k : nat) : nat :=
  length (List.filter VmapiApp.traced (take k reqs)).

(** ** The implementations on examples *)

(** The JSON implementation reads back what it writes, and rejects text
    that is not JSON. *)
Example Json_parse_descriptors :
  Json.parse (Json.stringify
    (JArr [JObj [("name", JStr "data"); ("mountpoint", JStr "/data")]; JNum (-12);
           JArr []; JObj []; JNull; JBool true]))
  = Some (JArr [JObj [("name", JStr "data"); ("mountpoint", JStr "/data")]; JNum (-12);
               JArr []; JObj []; JNull; JBool true]).
Proof. vm_compute. reflexivity. Qed.

Example Json_parse_rejects :
  Json.parse "{not json" = None /\ Json.parse "[1,]" = None.
Proof. split; reflexivity. Qed.

(** A VM that requires the volume [data], which does not exist yet: the
    volume is created, polled until ready and recorded in the metadata
    update, and the update request is set up. *)
Example chain_data :
  Scenario.chain_calls [0; 0] Scenario.start_job
    (Sim.boot (Scenario.services (Scenario.vm_with Scenario.metadata_before) [] 1))
  = [[Cb (None, Some "All volumes provisioned")];
     [Cb (None, Some "All required volumes ready")];
     [Cb (None, Some ("Built docker:nfsvolumes internal_metadata:"
                       +:+ Scenario.nfsvolumes_data))];
     [Cb (None, Some "Request has been setup!")]].
Proof. vm_compute. reflexivity. Qed.

(** The same when the volume [data] exists already. *)
Example chain_data_exists :
  Scenario.chain_calls [0] Scenario.start_job
    (Sim.boot (Scenario.services (Scenario.vm_with Scenario.metadata_before)
                 [Scenario.stored_volume "volume-0" "data" (Some 0)] 1))
  = [[Cb (None, Some "All volumes provisioned")];
     [Cb (None, Some "All required volumes ready")];
     [Cb (None, Some ("Built docker:nfsvolumes internal_metadata:"
                       +:+ Scenario.nfsvolumes_data))];
     [Cb (None, Some "Request has been setup!")]].
Proof. vm_compute. reflexivity. Qed.

(** A VM that requires no volume, by an empty list and by no property. *)
Example chain_empty_list :
  Scenario.chain_calls [] Scenario.start_job
    (Sim.boot (Scenario.services
                 (Scenario.vm_with {[ nfs_volumes_required := JStr "[]" ]}) [] 1))
  = [[Cb (None, Some "All volumes provisioned")];
     [Cb (None, Some "No required NFS volume to wait for")];
     [Cb (None, Some "No NFS volume with which to update VM's internal metadata")];
     [Cb (Some (new_Error "job.updatedVmInternalMetadata must be an object"), None)]].
Proof. vm_compute. reflexivity. Qed.

Example chain_absent :
  Scenario.chain_calls [] Scenario.start_job
    (Sim.boot (Scenario.services (Scenario.vm_with ∅) [] 1))
  = [[Cb (Some (new_Error
         ("Could not provision volumes, reason: Error: "
          +:+ "docker:nfs_volumes_required internal metadata "
          +:+ "must represent an array")), None)]].
Proof. vm_compute. reflexivity. Qed.

(** ** Facts about the clients and the log *)



Section client_facts.
Context {S : Type} `{SdcClients S}.

Lemma volapi_requests_app (w : world S) (l1 l2 : list event) :
  log w = l1 ++ l2 ->
  volapi_requests w
  = filter (fun e => is_volapi_request e = true) l1
    ++ filter (fun e => is_volapi_request e = true) l2.
Proof. intros E. unfold volapi_requests. rewrite E. apply filter_app. Qed.

(** Fetching a VM whose [internal_metadata] is an object allocates that
    object at a location that was free, and talks to VMAPI only. *)
Lemma getVm_object uuid owner (w : world S) err (v : vm_wire) s' props :
  vmapi_getVm uuid owner (service w) = ((err, Some v), s') ->
  vm_internal_metadata v = WObject props ->
  exists l w',
    getVm uuid owner w
    = ((err, Some {| vm_uuid := vm_uuid v; vm_owner_uuid := vm_owner_uuid v;
                     vm_internal_metadata := VRef l; vm_nics := vm_nics v |}), w')
    /\ objects w' = <[l := props]> (objects w)
    /\ objects w !! l = None
    /\ service w' = s'
    /\ log w' = log w ++ [Request (GetVm uuid owner); Reply (VmReply err (Some v))].
Proof.
  intros Hget Hmeta.
  exists (fresh (dom (objects w))). eexists.
  unfold getVm, receive_vm, alloc. simpl. rewrite Hget. simpl. rewrite Hmeta.
  simpl. split; [reflexivity|]. simpl. repeat split.
  - apply not_elem_of_dom, is_fresh.
  - by rewrite <- app_assoc.
Qed.

Lemma createVolume_eq name owner type networks (w : world S) err v s' :
  volapi_createVolume name owner type networks (service w) = ((err, v), s') ->
  createVolume name owner type networks w
  = ((err, v),
     {| service := s';
        log := log w ++ [Request (CreateVolume name owner type networks);
                         Reply (VolumeReply err v)];
        objects := objects w |}).
Proof.
  intros E. unfold createVolume, emit, with_service. simpl. rewrite E. simpl.
  by rewrite <- app_assoc.
Qed.

Lemma listVolumes_eq name owner (w : world S) err vs s' :
  volapi_listVolumes name owner (service w) = ((err, vs), s') ->
  listVolumes name owner w
  = ((err, vs),
     {| service := s';
        log := log w ++ [Request (ListVolumes name owner);
                         Reply (VolumesReply err vs)];
        objects := objects w |}).
Proof.
  intros E. unfold listVolumes, emit, with_service. simpl. rewrite E. simpl.
  by rewrite <- app_assoc.
Qed.

Lemma getVolume_eq uuid owner (w : world S) err v s' :
  volapi_getVolume uuid owner (service w) = ((err, v), s') ->
  getVolume uuid owner w
  = ((err, v),
     {| service := s';
        log := log w ++ [Request (GetVolume uuid owner);
                         Reply (VolumeReply err v)];
        objects := objects w |}).
Proof.
  intros E. unfold getVolume, emit, with_service. simpl. rewrite E. simpl.
  by rewrite <- app_assoc.
Qed.
End client_facts.

(** ** Properties of the extraction of required volumes *)

Section extraction.
Context `{JSON} {S : Type} `{SdcClients S}.

(** The invocations of the callback made by the [forEach] loop: one per
    element that is not an object. *)
Lemma forEach_requiredVolume_calls elems calls m :
  (fold_left forEach_requiredVolume elems (calls, m)).1
  = calls ++ map (fun _ => Some (new_Error "requiredVolume must be an object"))
                 (List.filter not_an_object elems).
Proof.
  revert calls m. induction elems as [|e elems IH]; intros calls m; cbn [fold_left List.filter map].
  - by rewrite app_nil_r.
  - unfold forEach_requiredVolume at 2. fold (not_an_object e).
    destruct (not_an_object e); rewrite IH; [|done].
    by rewrite <- app_assoc.
Qed.

(** What [onGetVm] does for a VM whose metadata object has no
    [docker:nfs_volumes_required] property. *)
Lemma onGetVm_absent vmUuid err (v : vm) l (h : heap) j ctx :
  vm_internal_metadata v = VRef l ->
  get_property h (VRef l) nfs_volumes_required = None ->
  onGetVm vmUuid err (Some v) h j ctx
  = ([Some (new_Error
        "docker:nfs_volumes_required internal metadata must represent an array")],
     set_job_vm v j, ctx).
Proof.
  intros Hmeta Hget. unfold onGetVm. rewrite Hmeta. simpl in *. by rewrite Hget.
Qed.

(** C1, on the code: a VM whose [internal_metadata] has no
    [docker:nfs_volumes_required] property makes the task fail. The
    extraction step calls back with "must represent an array" and the task
    reports "Could not provision volumes"; no mapping is produced and
    [job.createdVolumes] stays as it was. No request is made to VOLAPI. *)
Theorem provisionNfsVolumes_absent_field_fails
    (j : job) (w : world S) err (v : vm_wire) s' props :
  vmapi_getVm (params_vm_uuid (params j)) None (service w) = ((err, Some v), s') ->
  vm_internal_metadata v = WObject props ->
  props !! nfs_volumes_required = None ->
  exists j' w',
    provisionNfsVolumes j w
    = Some ([Cb (Some (new_Error
               ("Could not provision volumes, reason: Error: "
                +:+ "docker:nfs_volumes_required internal metadata "
                +:+ "must represent an array")), None)], j', w')
    /\ mapRequiredNfsVolumes j' = mapRequiredNfsVolumes j
    /\ createdVolumes j' = createdVolumes j
    /\ volapi_requests w' = volapi_requests w.
Proof.
  intros Hget Hmeta Habsent.
  destruct (getVm_object _ _ _ _ _ _ _ Hget Hmeta)
    as (l & w' & Hg & Hobj & _ & _ & Hlog).
  eexists _, w'. unfold provisionNfsVolumes, loadRequiredNfsVolumes.
  rewrite Hg. erewrite onGetVm_absent; [|reflexivity|].
  - simpl. split; [reflexivity|]. repeat split.
    rewrite (volapi_requests_app w' _ _ Hlog). simpl.
    by rewrite app_nil_r.
  - simpl. rewrite Hobj, lookup_insert_eq. simpl. exact Habsent.
Qed.

(** The part of C1 that holds: with the explicitly empty list the task
    succeeds with an empty [createdVolumes] and asks nothing of VOLAPI. *)
Lemma provisionNfsVolumes_empty_list
    (j : job) (w : world S) (v : vm_wire) s' props str :
  vmapi_getVm (params_vm_uuid (params j)) None (service w) = ((None, Some v), s') ->
  vm_internal_metadata v = WObject props ->
  props !! nfs_volumes_required = Some (JStr str) ->
  str <> EmptyString ->
  JSON_parse str = Some (JArr []) ->
  exists j' w',
    provisionNfsVolumes j w
    = Some ([Cb (None, Some "All volumes provisioned")], j', w')
    /\ mapRequiredNfsVolumes j' = Some []
    /\ createdVolumes j' = Some []
    /\ volapi_requests w' = volapi_requests w.
Proof.
  intros Hget Hmeta Hfield Hstr Hparse.
  destruct (getVm_object _ _ _ _ _ _ _ Hget Hmeta)
    as (l & w' & Hg & Hobj & _ & _ & Hlog).
  eexists _, w'. unfold provisionNfsVolumes, loadRequiredNfsVolumes.
  rewrite Hg. unfold onGetVm. simpl.
  rewrite Hobj, lookup_insert_eq. simpl. rewrite Hfield. simpl.
  apply String.eqb_neq in Hstr. rewrite Hstr. simpl. rewrite Hparse. simpl.
  split; [reflexivity|]. repeat split.
  rewrite (volapi_requests_app w' _ _ Hlog). simpl. by rewrite app_nil_r.
Qed.

(** The two malformed shapes that are reported once: a value that is not a
    string, and a string that parses to something that is not an array. The
    task fails with the error of the extraction step and asks nothing of
    VOLAPI. *)
Lemma provisionNfsVolumes_malformed_once
    (j : job) (w : world S) err (v : vm_wire) s' props field :
  vmapi_getVm (params_vm_uuid (params j)) None (service w) = ((err, Some v), s') ->
  vm_internal_metadata v = WObject props ->
  props !! nfs_volumes_required = Some field ->
  (typeof (Some field) <> "string" ->
   exists j' w',
     provisionNfsVolumes j w
     = Some ([Cb (Some (new_Error
                ("Could not provision volumes, reason: Error: "
                 +:+ "docker:nfs_volumes_required internal_metadata property "
                 +:+ "must be a string if present")), None)], j', w')
     /\ volapi_requests w' = volapi_requests w)
  /\ (forall str parsed,
        field = JStr str -> str <> EmptyString ->
        JSON_parse str = Some parsed -> Array_isArray (Some parsed) = None ->
        exists j' w',
          provisionNfsVolumes j w
          = Some ([Cb (Some (new_Error
                     ("Could not provision volumes, reason: Error: "
                      +:+ "docker:nfs_volumes_required internal metadata "
                      +:+ "must represent an array")), None)], j', w')
          /\ volapi_requests w' = volapi_requests w).
Proof.
  intros Hget Hmeta Hfield.
  destruct (getVm_object _ _ _ _ _ _ _ Hget Hmeta)
    as (l & w' & Hg & Hobj & _ & _ & Hlog).
  assert (volapi_requests w' = volapi_requests w) as Hreq.
  { rewrite (volapi_requests_app w' _ _ Hlog). simpl. by rewrite app_nil_r. }
  unfold provisionNfsVolumes, loadRequiredNfsVolumes. rewrite Hg.
  unfold onGetVm. simpl. rewrite Hobj, lookup_insert_eq. simpl. rewrite Hfield.
  simpl. split.
  - intros Htype. apply String.eqb_neq in Htype. rewrite Htype. simpl.
    by eexists _, _.
  - intros str parsed -> Hstr Hparse Harray. simpl.
    apply String.eqb_neq in Hstr. rewrite Hstr. simpl. rewrite Hparse.
    destruct parsed as [p|elems|ps]; [|discriminate Harray|];
      simpl; by eexists _, _.
Qed.

(** C6, on the code: for a [docker:nfs_volumes_required] string that
    [JSON.parse] rejects, the extraction step calls back twice, first with
    the parse error and then with "must represent an array"; for one that
    parses to an array, it calls back once per element that is not an
    object and then once more with the [err] of [getVm], which is no error
    after a successful fetch. *)
Theorem loadRequiredNfsVolumes_malformed_calls
    (j : job) (ctx : context) (w : world S) err (v : vm_wire) s' props str :
  vmapi_getVm (params_vm_uuid (params j)) None (service w) = ((err, Some v), s') ->
  vm_internal_metadata v = WObject props ->
  props !! nfs_volumes_required = Some (JStr str) ->
  str <> EmptyString ->
  exists calls j' ctx' w',
    loadRequiredNfsVolumes j ctx w = (calls, j', ctx', w')
    /\ (JSON_parse str = None ->
        calls =
          [Some (new_Error
             "Could not parse docker:nfs_volumes_required internal metadata");
           Some (new_Error
             "docker:nfs_volumes_required internal metadata must represent an array")])
    /\ (forall elems, JSON_parse str = Some (JArr elems) ->
        calls =
          map (fun _ => Some (new_Error "requiredVolume must be an object"))
              (List.filter not_an_object elems) ++ [err]).
Proof.
  intros Hget Hmeta Hfield Hstr.
  destruct (getVm_object _ _ _ _ _ _ _ Hget Hmeta)
    as (l & w' & Hg & Hobj & _ & _ & Hlog).
  unfold loadRequiredNfsVolumes. rewrite Hg. unfold onGetVm. simpl.
  rewrite Hobj, lookup_insert_eq. simpl. rewrite Hfield. simpl.
  apply String.eqb_neq in Hstr. rewrite Hstr. simpl.
  destruct (JSON_parse str) as [[p|elems|ps]|] eqn:Hparse; simpl.
  - eexists _, _, _, _. split; [reflexivity|]. split; [done|]. by intros ? [=].
  - pose proof (forEach_requiredVolume_calls elems [] []) as Hcalls.
    destruct (fold_left forEach_requiredVolume elems ([], [])) as [calls m].
    simpl in Hcalls. subst calls.
    eexists _, _, _, _. split; [reflexivity|]. split; [done|].
    by intros ? [= <-].
  - eexists _, _, _, _. split; [reflexivity|]. split; [done|]. by intros ? [=].
  - eexists _, _, _, _. split; [reflexivity|]. split; [done|]. by intros ? [=].
Qed.
End extraction.

(** ** Properties of the provisioning of one volume *)

Section provisioning.
Context {S : Type} `{SdcClients S}.

Lemma getOverlayNetwork_object n :
  getOverlayNetwork (NicObject n)
  = ([], if is_overlay n then network_uuid n else undefined).
Proof.
  unfold getOverlayNetwork, is_overlay. destruct (nic_tag n) as [tag|]; [|done].
  destruct (String.eqb tag EmptyString) eqn:E.
  - apply String.eqb_eq in E. by subst tag.
  - cbn [negb andb]. by destruct (String.prefix _ _).
Qed.

(** C7, on the code: the [networks] array of the [createVolume] request has
    one element per nic. An overlay nic contributes its [network_uuid]; a
    nic object without the overlay tag contributes an [undefined] element,
    and the callback is not invoked for it. *)
Theorem overlay_networks_one_per_nic (nics : list nic_entry) :
  length (overlay_networks nics) = length nics
  /\ forall i n, nics !! i = Some (NicObject n) ->
       (getOverlayNetwork (NicObject n)).1 = []
       /\ overlay_networks nics !! i
          = Some (if is_overlay n then network_uuid n else undefined).
Proof.
  unfold overlay_networks. split.
  - by rewrite !length_fmap.
  - intros i n Hi. rewrite getOverlayNetwork_object. split; [done|].
    rewrite list_lookup_fmap.
    change (map getOverlayNetwork nics) with (getOverlayNetwork <$> nics).
    rewrite list_lookup_fmap, Hi. cbn [fmap option_fmap option_map].
    by rewrite getOverlayNetwork_object.
Qed.

(** C3: after a duplicate-name conflict the volumes of that name and owner
    are listed; when the listing succeeds, exactly one match is the result
    of the step, and any other number of matches is reported as an error
    with no volume. *)
Theorem onVolumeCreated_conflict_lookup
    (j : job) (volumeName : string) (e : jserr) (createdVolume : option volume)
    (w : world S) (volumes : option (list volume)) s' :
  restCode e = Some "VOLUME_ALREADY_EXISTS" ->
  volapi_listVolumes volumeName (params_owner_uuid (params j)) (service w)
  = ((None, volumes), s') ->
  exists calls w',
    onVolumeCreated j volumeName (Some e) createdVolume w = (calls, w')
    /\ log w' = log w ++ [Request (ListVolumes volumeName
                                     (params_owner_uuid (params j)));
                          Reply (VolumesReply None volumes)]
    /\ (forall v, volumes = Some [v] -> calls = [(None, Some v)])
    /\ (forall vs, volumes = Some vs -> length vs <> 1 ->
        calls = [(Some (inconsistent_state j volumeName), None)]).
Proof.
  intros Hcode Hlist. unfold onVolumeCreated. rewrite Hcode. simpl.
  rewrite (listVolumes_eq _ _ _ _ _ _ Hlist).
  eexists _, _. split; [reflexivity|]. split; [reflexivity|]. split.
  - by intros v ->.
  - intros vs -> Hlen. unfold onListVolumes.
    apply Nat.eqb_neq in Hlen. by rewrite Hlen.
Qed.

Lemma onVolumeCreated_once j volumeName err createdVolume (w : world S) :
  exists a, (onVolumeCreated j volumeName err createdVolume w).1 = [a].
Proof.
  unfold onVolumeCreated.
  destruct err as [e|]; [|by eexists].
  destruct (restCode e) as [code|]; [|by eexists].
  destruct (String.eqb code "VOLUME_ALREADY_EXISTS"); [|by eexists].
  destruct (listVolumes _ _ _) as [[listVolumesErr volumes] w'].
  unfold onListVolumes. simpl.
  destruct listVolumesErr; [by eexists|].
  destruct volumes as [vs|]; [|by eexists].
  destruct (negb _); by eexists.
Qed.

Lemma single_call {A} (early calls : list A) a y :
  map Cb (early ++ calls) = [Cb y] -> calls = [a] -> early = [] /\ a = y.
Proof.
  intros E ->. destruct early as [|x [|x' early]]; simpl in E.
  - by injection E.
  - discriminate.
  - discriminate.
Qed.

(** How a successful run of [provisionNfsVolume] came to its volume:
    by creating it, or by finding it after a conflict. *)
Lemma provisionNfsVolume_inv j volumeName (w w1 : world S) v v1 :
  job_vm j = Some v ->
  provisionNfsVolume j volumeName w = ([Cb (None, Some v1)], w1) ->
  early_calls v = []
  /\ ((volapi_createVolume volumeName (params_owner_uuid (params j)) "tritonnfs"
         (overlay_networks (vm_nics v)) (service w)
       = ((None, Some v1), service w1))
      \/ exists e cv s0,
           volapi_createVolume volumeName (params_owner_uuid (params j))
             "tritonnfs" (overlay_networks (vm_nics v)) (service w)
           = ((Some e, cv), s0)
           /\ restCode e = Some "VOLUME_ALREADY_EXISTS"
           /\ volapi_listVolumes volumeName (params_owner_uuid (params j)) s0
              = ((None, Some [v1]), service w1)).
Proof.
  intros Hvm Hrun. unfold provisionNfsVolume in Hrun. rewrite Hvm in Hrun.
  fold (early_calls v) in Hrun.
  destruct (volapi_createVolume volumeName (params_owner_uuid (params j))
              "tritonnfs" (overlay_networks (vm_nics v)) (service w))
    as [[err cv] s0] eqn:Hcreate.
  rewrite (createVolume_eq _ _ _ _ _ _ _ _ Hcreate) in Hrun.
  set (w0 := {| service := s0 |}) in Hrun.
  destruct (onVolumeCreated_once j volumeName err cv w0) as [a Ha].
  destruct (onVolumeCreated j volumeName err cv w0) as [calls w'] eqn:Hon.
  simpl in Ha. injection Hrun as Hcalls ->.
  destruct (single_call _ _ _ _ Hcalls Ha) as [Hearly ->].
  split; [exact Hearly|]. subst calls. unfold onVolumeCreated in Hon.
  destruct err as [e|].
  - right. destruct (restCode e) as [code|] eqn:Hcode; [|by injection Hon].
    destruct (String.eqb code "VOLUME_ALREADY_EXISTS") eqn:Heq;
      [|by injection Hon].
    apply String.eqb_eq in Heq. subst code.
    destruct (volapi_listVolumes volumeName (params_owner_uuid (params j)) s0)
      as [[lerr vs] s1] eqn:Hlist.
    rewrite (listVolumes_eq _ _ w0 _ _ _ Hlist) in Hon.
    unfold onListVolumes in Hon. exists e, cv, s0.
    destruct lerr; [by injection Hon|].
    destruct vs as [vs|]; [|by injection Hon].
    destruct vs as [|x [|x' vs]]; simpl in Hon; try by injection Hon.
    injection Hon as -> <-. done.
  - left. injection Hon as -> <-. done.
Qed.

(** The run of [provisionNfsVolume] that meets a conflict and finds one
    volume. *)
Lemma provisionNfsVolume_lookup j volumeName (w : world S) v e cv s0 v2 s1 :
  job_vm j = Some v ->
  early_calls v = [] ->
  volapi_createVolume volumeName (params_owner_uuid (params j)) "tritonnfs"
    (overlay_networks (vm_nics v)) (service w) = ((Some e, cv), s0) ->
  restCode e = Some "VOLUME_ALREADY_EXISTS" ->
  volapi_listVolumes volumeName (params_owner_uuid (params j)) s0
  = ((None, Some [v2]), s1) ->
  provisionNfsVolume j volumeName w
  = ([Cb (None, Some v2)],
     {| service := s1;
        log := log w ++
          [Request (CreateVolume volumeName (params_owner_uuid (params j))
                      "tritonnfs" (overlay_networks (vm_nics v)));
           Reply (VolumeReply (Some e) cv);
           Request (ListVolumes volumeName (params_owner_uuid (params j)));
           Reply (VolumesReply None (Some [v2]))];
        objects := objects w |}).
Proof.
  intros Hvm Hearly Hcreate Hcode Hlist. unfold provisionNfsVolume.
  rewrite Hvm. fold (early_calls v). rewrite Hearly.
  rewrite (createVolume_eq _ _ _ _ _ _ _ _ Hcreate).
  unfold onVolumeCreated. rewrite Hcode. simpl.
  erewrite listVolumes_eq by exact Hlist. simpl.
  by rewrite <- app_assoc.
Qed.

(** C4: when [provisionNfsVolume] has yielded a volume for a name, and the
    creation of that name is then answered with a conflict, a second run
    yields a volume with the same UUID. The second run goes through the
    listing by name and owner, and leaves the service as it was. *)
Theorem provisionNfsVolume_idempotent
    (j : job) (volumeName : string) (w w1 : world S) (v : vm) (v1 : volume)
    (e : jserr) (cv : option volume) s2 :
  consistent_volapi S ->
  job_vm j = Some v ->
  provisionNfsVolume j volumeName w = ([Cb (None, Some v1)], w1) ->
  volapi_createVolume volumeName (params_owner_uuid (params j)) "tritonnfs"
    (overlay_networks (vm_nics v)) (service w1) = ((Some e, cv), s2) ->
  restCode e = Some "VOLUME_ALREADY_EXISTS" ->
  exists v2 w2,
    provisionNfsVolume j volumeName w1 = ([Cb (None, Some v2)], w2)
    /\ vol_uuid v2 = vol_uuid v1
    /\ service w2 = service w1
    /\ log w2 = log w1 ++
         [Request (CreateVolume volumeName (params_owner_uuid (params j))
                     "tritonnfs" (overlay_networks (vm_nics v)));
          Reply (VolumeReply (Some e) cv);
          Request (ListVolumes volumeName (params_owner_uuid (params j)));
          Reply (VolumesReply None (Some [v2]))].
Proof.
  intros [Hlist Hconflict Hcreated] Hvm Hfirst Hsecond Hcode.
  destruct (provisionNfsVolume_inv _ _ _ _ _ _ Hvm Hfirst)
    as [Hearly [Hcreate | (e0 & cv0 & s0 & Hcreate & Hcode0 & Hfound)]].
  - (* the first run created the volume *)
    pose proof (Hconflict _ _ _ _ _ _ _ _ Hsecond Hcode) as ->.
    destruct (Hcreated _ _ _ _ _ _ _ Hcreate) as (v2 & Hl & Huuid).
    destruct (volapi_listVolumes volumeName (params_owner_uuid (params j))
                (service w1)) as [r s3] eqn:Hl3.
    pose proof (Hlist volumeName (params_owner_uuid (params j)) (service w1)) as Hs3.
    rewrite Hl3 in Hs3. simpl in Hl, Hs3. subst r s3.
    exists v2. eexists. split.
    + eapply provisionNfsVolume_lookup; eassumption.
    + done.
  - (* the first run found the volume *)
    pose proof (Hconflict _ _ _ _ _ _ _ _ Hcreate Hcode0) as ->.
    pose proof (Hlist volumeName (params_owner_uuid (params j)) (service w)) as Hs.
    rewrite Hfound in Hs. simpl in Hs. rewrite <- Hs in Hfound.
    pose proof (Hconflict _ _ _ _ _ _ _ _ Hsecond Hcode) as ->.
    exists v1. eexists. split.
    + eapply provisionNfsVolume_lookup; eassumption.
    + done.
Qed.
End provisioning.

(** ** Properties of the readiness poll loop *)

Section readiness.
Context {S : Type} `{SdcClients S}.

Lemma actions_app l1 l2 : actions (l1 ++ l2) = actions l1 ++ actions l2.
Proof. unfold actions. apply List.filter_app. Qed.

Lemma rounds_S uuid owner n :
  rounds uuid owner (Datatypes.S n)
  = [Request (GetVolume uuid owner); SetTimeout 1000] ++ rounds uuid owner n.
Proof. reflexivity. Qed.

Lemma checkVolumeReady_pending uuid j (w : world S) r s' :
  volapi_getVolume uuid (params_owner_uuid (params j)) (service w) = (r, s') ->
  pending r ->
  checkVolumeReady uuid j w
  = (Polling, j,
     {| service := s';
        log := log w ++ [Request (GetVolume uuid (params_owner_uuid (params j)));
                         Reply (VolumeReply r.1 r.2); SetTimeout 1000];
        objects := objects w |}).
Proof.
  destruct r as [err v]. intros Hget [Herr Hstate]. simpl in *. subst err.
  unfold checkVolumeReady. rewrite (getVolume_eq _ _ _ _ _ _ Hget).
  unfold onGetVolume, setTimeout, emit. simpl.
  destruct v as [v|]; [|by rewrite <- app_assoc].
  specialize (Hstate v eq_refl). apply String.eqb_neq in Hstate.
  rewrite Hstate. by rewrite <- app_assoc.
Qed.

Lemma checkVolumeReady_ready uuid j (w : world S) v s' :
  volapi_getVolume uuid (params_owner_uuid (params j)) (service w)
  = ((None, Some v), s') ->
  vol_state v = "ready" ->
  checkVolumeReady uuid j w
  = (Finished None, assign_createdVolume v j,
     {| service := s';
        log := log w ++ [Request (GetVolume uuid (params_owner_uuid (params j)));
                         Reply (VolumeReply None (Some v))];
        objects := objects w |}).
Proof.
  intros Hget Hstate. unfold checkVolumeReady.
  rewrite (getVolume_eq _ _ _ _ _ _ Hget). unfold onGetVolume.
  by rewrite Hstate.
Qed.

Lemma checkVolumeReady_error uuid j (w : world S) e v s' :
  volapi_getVolume uuid (params_owner_uuid (params j)) (service w)
  = ((Some e, v), s') ->
  checkVolumeReady uuid j w
  = (Finished (Some e), j,
     {| service := s';
        log := log w ++ [Request (GetVolume uuid (params_owner_uuid (params j)));
                         Reply (VolumeReply (Some e) v)];
        objects := objects w |}).
Proof.
  intros Hget. unfold checkVolumeReady.
  by rewrite (getVolume_eq _ _ _ _ _ _ Hget).
Qed.

(** While the fetches are pending the loop goes round: after [n] of them
    it is where it started, [n] answers later. *)
Lemma checkVolumeCreated_rounds uuid j n : forall w : world S,
  (forall k, k < n ->
     pending (nth_fetch uuid (params_owner_uuid (params j)) k (service w)).1) ->
  exists w' tail,
    (forall fuel, checkVolumeCreated (n + fuel) uuid j w
                  = checkVolumeCreated fuel uuid j w')
    /\ log w' = log w ++ tail
    /\ actions tail = rounds uuid (params_owner_uuid (params j)) n
    /\ (forall k, nth_fetch uuid (params_owner_uuid (params j)) k (service w')
                  = nth_fetch uuid (params_owner_uuid (params j)) (n + k) (service w)).
Proof.
  induction n as [|n IH]; intros w Hpending.
  - exists w, []. repeat split; try done. by rewrite app_nil_r.
  - destruct (volapi_getVolume uuid (params_owner_uuid (params j)) (service w))
      as [r s'] eqn:Hget.
    assert (pending r) as Hr.
    { specialize (Hpending 0 ltac:(lia)). simpl in Hpending.
      by rewrite Hget in Hpending. }
    pose proof (checkVolumeReady_pending _ _ _ _ _ Hget Hr) as Hround.
    set (w1 := {| service := s' |}) in Hround.
    destruct (IH w1) as (w' & tail & Hrun & Hlog & Hact & Hnth).
    { intros k Hk. specialize (Hpending (Datatypes.S k) ltac:(lia)).
      simpl in Hpending. by rewrite Hget in Hpending. }
    exists w'. eexists. split; [|split; [|split]].
    + intros fuel. simpl. rewrite Hround. apply Hrun.
    + rewrite Hlog. simpl. rewrite <- app_assoc. reflexivity.
    + rewrite actions_app, Hact. reflexivity.
    + intros k. rewrite Hnth. simpl. by rewrite Hget.
Qed.

(** C5: when the first [n] fetches are pending and the next one shows a
    ready volume, the loop calls [done] without error after exactly
    [n + 1] fetches, with one second of waiting after each of the first
    [n], and has stored the ready record in [job.createdVolumes] under its
    UUID; it has not called [done] after fewer fetches. When the fetch after the [n] pending ones
    fails instead, the loop calls [done] with that error and fetches no
    more. *)
Theorem checkVolumeCreated_converges uuid (j : job) (w : world S) (n : nat)
    (created : list (string * volume)) :
  createdVolumes j = Some created ->
  (forall k, k < n ->
     pending (nth_fetch uuid (params_owner_uuid (params j)) k (service w)).1) ->
  (forall fuel, fuel <= n -> (checkVolumeCreated fuel uuid j w).1 = (Polling, j))
  /\ (forall v extra,
        (nth_fetch uuid (params_owner_uuid (params j)) n (service w)).1
        = (None, Some v) ->
        vol_state v = "ready" ->
        exists w' tail,
          checkVolumeCreated (Datatypes.S n + extra) uuid j w
          = (Finished None,
             set_createdVolumes (Some (js_set created (vol_uuid v) v)) j, w')
          /\ log w' = log w ++ tail
          /\ actions tail
             = rounds uuid (params_owner_uuid (params j)) n
               ++ [Request (GetVolume uuid (params_owner_uuid (params j)))])
  /\ (forall e x extra,
        (nth_fetch uuid (params_owner_uuid (params j)) n (service w)).1
        = (Some e, x) ->
        exists w' tail,
          checkVolumeCreated (Datatypes.S n + extra) uuid j w
          = (Finished (Some e), j, w')
          /\ log w' = log w ++ tail
          /\ actions tail
             = rounds uuid (params_owner_uuid (params j)) n
               ++ [Request (GetVolume uuid (params_owner_uuid (params j)))]).
Proof.
  intros Hcreated Hpending. split; [|split].
  - intros fuel Hfuel.
    destruct (checkVolumeCreated_rounds uuid j fuel w) as (w' & tail & Hrun & _).
    { intros k Hk. apply Hpending. lia. }
    specialize (Hrun 0). rewrite Nat.add_0_r in Hrun. by rewrite Hrun.
  - intros v extra Hnth Hstate.
    destruct (checkVolumeCreated_rounds uuid j n w Hpending)
      as (w' & tail & Hrun & Hlog & Hact & Hshift).
    specialize (Hshift 0). rewrite Nat.add_0_r in Hshift. simpl in Hshift.
    destruct (volapi_getVolume uuid (params_owner_uuid (params j)) (service w'))
      as [r s'] eqn:Hget.
    rewrite <- Hshift in Hnth. simpl in Hnth. subst r.
    eexists _, _. split; [|split].
    + replace (Datatypes.S n + extra) with (n + Datatypes.S extra) by lia.
      rewrite Hrun. simpl.
      rewrite (checkVolumeReady_ready _ _ _ _ _ Hget Hstate).
      unfold assign_createdVolume. by rewrite Hcreated.
    + simpl. rewrite Hlog, <- app_assoc. reflexivity.
    + by rewrite actions_app, Hact.
  - intros e x extra Hnth.
    destruct (checkVolumeCreated_rounds uuid j n w Hpending)
      as (w' & tail & Hrun & Hlog & Hact & Hshift).
    specialize (Hshift 0). rewrite Nat.add_0_r in Hshift. simpl in Hshift.
    destruct (volapi_getVolume uuid (params_owner_uuid (params j)) (service w'))
      as [r s'] eqn:Hget.
    rewrite <- Hshift in Hnth. simpl in Hnth. subst r.
    eexists _, _. split; [|split].
    + replace (Datatypes.S n + extra) with (n + Datatypes.S extra) by lia.
      rewrite Hrun. simpl.
      by rewrite (checkVolumeReady_error _ _ _ _ _ _ Hget).
    + simpl. rewrite Hlog, <- app_assoc. reflexivity.
    + by rewrite actions_app, Hact.
Qed.

(** C9: when every fetch succeeds and none shows a ready volume, the loop
    never calls [done]: however many answers have arrived, it has set a
    one-second timer after each of them and is waiting for the next. *)
Theorem checkVolumeCreated_never_completes uuid (j : job) (w : world S) :
  (forall k,
     pending (nth_fetch uuid (params_owner_uuid (params j)) k (service w)).1) ->
  forall fuel, exists w' tail,
    checkVolumeCreated fuel uuid j w = (Polling, j, w')
    /\ log w' = log w ++ tail
    /\ actions tail = rounds uuid (params_owner_uuid (params j)) fuel.
Proof.
  intros Hpending fuel.
  destruct (checkVolumeCreated_rounds uuid j fuel w) as (w' & tail & Hrun & Hlog & Hact & _).
  { intros k _. apply Hpending. }
  exists w', tail. specialize (Hrun 0). rewrite Nat.add_0_r in Hrun.
  by rewrite Hrun.
Qed.
End readiness.

(** ** Properties of the metadata update *)

Section reconciliation.
Context `{JSON} {S : Type} `{SdcClients S}.

(** [deepCopy] leaves every existing object as it is. *)
Lemma deepCopy_frame (v v' : jsval) (w w1 : world S) :
  deepCopy v w = (v', w1) ->
  service w1 = service w /\ log w1 = log w
  /\ forall l, l ∈ dom (objects w) -> objects w1 !! l = objects w !! l.
Proof.
  unfold deepCopy, alloc. destruct v as [|p|l]; intros [= <- <-]; try done.
  simpl. repeat split. intros l0 Hl0. apply lookup_insert_ne.
  intros <-. by apply (is_fresh (dom (objects w))).
Qed.

(** The copy of an object is a new object with the same properties. *)
Lemma deepCopy_ref l props (w : world S) :
  objects w !! l = Some props ->
  exists l',
    deepCopy (VRef l) w = (VRef l', with_objects (<[l' := props]> (objects w)) w)
    /\ objects w !! l' = None.
Proof.
  intros Hl. exists (fresh (dom (objects w))). unfold deepCopy, alloc.
  rewrite Hl. simpl. split; [done|]. apply not_elem_of_dom, is_fresh.
Qed.

(** C8: [buildNfsVolumesMetadata] leaves [job.vm] and every object that
    existed before it untouched, whatever it reports; in particular the
    object that [job.vm.internal_metadata] refers to keeps its properties.
    When it reports the metadata built, [job.updatedVmInternalMetadata]
    refers to an object that did not exist before, whose properties are
    those of [job.vm.internal_metadata] with [docker:nfsvolumes] set. *)
Theorem buildNfsVolumesMetadata_copies (j j' : job) (w w' : world S) calls :
  buildNfsVolumesMetadata j w = (calls, j', w') ->
  job_vm j' = job_vm j
  /\ (forall l, l ∈ dom (objects w) -> objects w' !! l = objects w !! l)
  /\ (forall v l props created msg,
        job_vm j = Some v ->
        vm_internal_metadata v = VRef l ->
        objects w !! l = Some props ->
        createdVolumes j = Some created -> created <> [] ->
        calls = [Cb (None, Some msg)] ->
        exists l' str,
          updatedVmInternalMetadata j' = VRef l'
          /\ objects w !! l' = None
          /\ objects w' !! l = Some props
          /\ objects w' !! l' = Some (<[nfsvolumes := JStr str]> props)).
Proof.
  intros Hbuild. unfold buildNfsVolumesMetadata in Hbuild.
  destruct (job_vm j) as [v|] eqn:Hvm; [|by injection Hbuild as <- <- <-].
  destruct (createdVolumes j) as [created|] eqn:Hcreated;
    [|by injection Hbuild as <- <- <-].
  destruct (deepCopy (vm_internal_metadata v) w) as [copy w1] eqn:Hcopy.
  destruct (deepCopy_frame _ _ _ _ Hcopy) as (_ & _ & Hframe).
  destruct (length (Object_keys created) =? 0)%nat eqn:Hlen.
  { injection Hbuild as <- <- <-. repeat split; [by rewrite Hvm|done|].
    intros v0 l props created0 msg _ _ _ [= <-] Hne _.
    destruct created; [done|discriminate]. }
  destruct (push_nfsVolumesMetadata j created []) as [entries|];
    [|injection Hbuild as <- <- <-; repeat split; [by rewrite Hvm|done|];
      by intros ? ? ? ? ? _ _ _ _ _ [=]].
  destruct (set_property copy nfsvolumes (JStr (JSON_stringify (JArr entries))) w1)
    as [w2|] eqn:Hset;
    [|injection Hbuild as <- <- <-; repeat split; [by rewrite Hvm|done|];
      by intros ? ? ? ? ? _ _ _ _ _ [=]].
  injection Hbuild as <- <- <-. split; [exact Hvm|].
  destruct (vm_internal_metadata v) as [|p|l] eqn:Hmeta.
  - injection Hcopy as <- <-. discriminate.
  - injection Hcopy as <- <-. simpl in Hset.
    destruct p; try discriminate; injection Hset as <-;
      (split; [done|]); by intros ? ? ? ? ? [= <-]; rewrite Hmeta.
  - unfold deepCopy, alloc in Hcopy. injection Hcopy as <- <-.
    simpl in Hset. injection Hset as <-. simpl.
    set (l' := fresh (dom (objects w))).
    assert (objects w !! l' = None) as Hfresh by apply not_elem_of_dom, is_fresh.
    split.
    + intros l0 Hl0. rewrite lookup_alter_ne, lookup_insert_ne; [done| |];
        intros <-; by apply not_elem_of_dom in Hfresh.
    + intros v0 l0 props created0 msg [= <-] Hl0 Hprops _ _ _.
      rewrite Hmeta in Hl0. injection Hl0 as <-.
      exists l', (JSON_stringify (JArr entries)). rewrite Hprops. simpl.
      assert (l <> l') as Hne by (intros ->; congruence).
      repeat split; [done| |].
      * by rewrite lookup_alter_ne, lookup_insert_ne.
      * by rewrite lookup_alter_eq, lookup_insert_eq.
Qed.

(** [buildNfsVolumesMetadata] does not assign
    [job.stringifiedRequiredNfsVolumesMetadata]. *)
Lemma buildNfsVolumesMetadata_expected (j j' : job) (w w' : world S) calls :
  buildNfsVolumesMetadata j w = (calls, j', w') ->
  stringifiedRequiredNfsVolumesMetadata j'
  = stringifiedRequiredNfsVolumesMetadata j
  /\ job_vm j' = job_vm j.
Proof.
  unfold buildNfsVolumesMetadata.
  destruct (job_vm j) as [v|] eqn:Hvm; [|by intros [= <- <- <-]].
  destruct (createdVolumes j) as [created|]; [|by intros [= <- <- <-]].
  destruct (deepCopy (vm_internal_metadata v) w) as [copy w1].
  destruct (length (Object_keys created) =? 0)%nat; [by intros [= <- <- <-]|].
  destruct (push_nfsVolumesMetadata j created []) as [entries|];
    [|by intros [= <- <- <-]].
  destruct (set_property copy nfsvolumes _ w1); by intros [= <- <- <-].
Qed.

(** C2, on the code: the string that [buildNfsVolumesMetadata] writes is
    kept in [job.updatedVmInternalMetadata] only. The property that
    [waitForNfsVolumesMetadataUpdated] compares the fetched metadata with,
    [job.stringifiedRequiredNfsVolumesMetadata], is left as it was; while
    it is unassigned, the poll step fails at once, without fetching the VM,
    whatever the VM's metadata holds. *)
Theorem waitForNfsVolumesMetadataUpdated_after_build
    (j j' : job) (w w' : world S) calls (v : vm) (fuel : nat) :
  job_vm j = Some v ->
  stringifiedRequiredNfsVolumesMetadata j = None ->
  buildNfsVolumesMetadata j w = (calls, j', w') ->
  stringifiedRequiredNfsVolumesMetadata j' = None
  /\ waitForNfsVolumesMetadataUpdated fuel j' w'
     = ([Cb (Some (new_Error
               "job.stringifiedRequiredNfsVolumesMetadata must be a string"),
             None)], w').
Proof.
  intros Hvm Hexpected Hbuild.
  destruct (buildNfsVolumesMetadata_expected _ _ _ _ _ Hbuild) as [He Hv].
  rewrite Hexpected in He. rewrite Hvm in Hv. split; [done|].
  unfold waitForNfsVolumesMetadataUpdated. by rewrite Hv, He.
Qed.

(** With no created volume, which is what the explicitly empty list of
    required volumes leads to, the tasks that follow the provisioning report
    that there is nothing to do, without any request; the task after them in
    [provisionChain] then fails, because no metadata update was built. *)
Lemma no_volume_downstream (j : job) (w : world S) (v : vm) schedule :
  job_vm j = Some v ->
  createdVolumes j = Some [] ->
  requiredNfsVolumes j = None ->
  updatedVmInternalMetadata j = VUndefined ->
  waitForNfsVolumeProvisions schedule j w
  = ([Cb (None, Some "No required NFS volume to wait for")], j, w)
  /\ (exists w',
        buildNfsVolumesMetadata j w
        = ([Cb (None, Some "No NFS volume with which to update VM's internal metadata")],
           j, w')
        /\ log w' = log w)
  /\ setupUpdateVmNfsVolumesMetadataRequest j
     = ([Cb (Some (new_Error "job.updatedVmInternalMetadata must be an object"),
             None)], j).
Proof.
  intros Hvm Hcreated Hrequired Hupdated. split; [|split].
  - unfold waitForNfsVolumeProvisions. by rewrite Hrequired, Hcreated.
  - unfold buildNfsVolumesMetadata. rewrite Hvm, Hcreated.
    destruct (deepCopy (vm_internal_metadata v) w) as [copy w1] eqn:Hcopy.
    destruct (deepCopy_frame _ _ _ _ Hcopy) as (_ & Hlog & _).
    by exists w1.
  - unfold setupUpdateVmNfsVolumesMetadataRequest. by rewrite Hupdated.
Qed.
End reconciliation.

(** ** Properties of plain objects *)

Section jsobject_facts.
Context {A : Type}.
Implicit Types (obj : list (string * A)) (key : string) (value : A).

Lemma js_get_set_eq obj key value : js_get (js_set obj key value) key = Some value.
Proof.
  induction obj as [|[k v] obj IH]; simpl.
  - by rewrite String.eqb_refl.
  - destruct (String.eqb k key) eqn:E; simpl; by rewrite E.
Qed.

Lemma js_get_set_ne obj key key' value :
  key <> key' -> js_get (js_set obj key value) key' = js_get obj key'.
Proof.
  intros Hne. induction obj as [|[k v] obj IH]; simpl.
  - apply String.eqb_neq in Hne. by rewrite Hne.
  - destruct (String.eqb k key) eqn:E; simpl.
    + apply String.eqb_eq in E. subst k.
      apply String.eqb_neq in Hne. by rewrite Hne.
    + by rewrite IH.
Qed.

Lemma js_get_Some_key obj key value :
  js_get obj key = Some value -> key ∈ Object_keys obj.
Proof.
  unfold Object_keys. induction obj as [|[k v] obj IH]; simpl; [done|].
  destruct (String.eqb k key) eqn:E.
  - apply String.eqb_eq in E. subst k. intros _. apply list_elem_of_here.
  - intros Hget. apply list_elem_of_further. by apply IH.
Qed.

(** Assigning to a property that exists keeps the keys and their order. *)
Lemma Object_keys_set obj key value :
  key ∈ Object_keys obj -> Object_keys (js_set obj key value) = Object_keys obj.
Proof.
  unfold Object_keys. induction obj as [|[k v] obj IH]; simpl.
  - intros Hin. by apply not_elem_of_nil in Hin.
  - intros Hin. destruct (String.eqb k key) eqn:E; simpl; [done|].
    f_equal. apply IH. apply elem_of_cons in Hin as [->|Hin]; [|done].
    by rewrite String.eqb_refl in E.
Qed.
End jsobject_facts.

(** ** Properties of the wait for all volumes *)

Section all_ready.
Context {S : Type} `{SdcClients S}.

(** The two ways a round can end. *)
Lemma checkVolumeReady_cases uuid j (w : world S) p j1 w1 :
  checkVolumeReady uuid j w = (p, j1, w1) ->
  params j1 = params j
  /\ exists tail, log w1 = log w ++ tail
     /\ ((p <> Finished None /\ j1 = j)
         \/ exists v s',
              p = Finished None
              /\ volapi_getVolume uuid (params_owner_uuid (params j)) (service w)
                 = ((None, Some v), s')
              /\ vol_state v = "ready"
              /\ j1 = assign_createdVolume v j
              /\ tail = [Request (GetVolume uuid (params_owner_uuid (params j)));
                         Reply (VolumeReply None (Some v))]).
Proof.
  destruct (volapi_getVolume uuid (params_owner_uuid (params j)) (service w))
    as [[err v] s'] eqn:Hget.
  destruct err as [e|].
  { rewrite (checkVolumeReady_error _ _ _ _ _ _ Hget). intros [= <- <- <-].
    split; [done|]. eexists. split; [reflexivity|]. by left. }
  destruct v as [v|].
  - destruct (String.eqb (vol_state v) "ready") eqn:Hstate.
    + apply String.eqb_eq in Hstate.
      rewrite (checkVolumeReady_ready _ _ _ _ _ Hget Hstate).
      intros [= <- <- <-]. split.
      * unfold assign_createdVolume. by destruct (createdVolumes j).
      * eexists. split; [reflexivity|]. right. by exists v, s'.
    + apply String.eqb_neq in Hstate.
      rewrite (checkVolumeReady_pending _ _ _ _ _ Hget).
      * intros [= <- <- <-]. split; [done|]. eexists.
        split; [reflexivity|]. by left.
      * split; [done|]. by intros ? [= <-].
  - rewrite (checkVolumeReady_pending _ _ _ _ _ Hget).
    + intros [= <- <- <-]. split; [done|]. eexists.
      split; [reflexivity|]. by left.
    + split; [done|]. by intros ? [=].
Qed.

Lemma wait_step_inv owner created0 (w0 : world S) (st : wait_state S) i :
  fetches_by_uuid S ->
  wait_inv owner created0 w0 st -> wait_inv owner created0 w0 (wait_step st i).
Proof.
  intros Hlaw [Howner (created & Hc & Hkeys) Hpollers (tail0 & Hlog) Hdone].
  unfold wait_step.
  destruct (pollers st !! i) as [[uuid [|err]]|] eqn:Hi; try by constructor; eauto.
  destruct (checkVolumeReady uuid (wait_job st) (wait_world st))
    as [[p j1] w1] eqn:Hround.
  destruct (checkVolumeReady_cases _ _ _ _ _ _ Hround)
    as (Hparams & tail & Hlog1 & Hcase).
  assert (uuid ∈ Object_keys created) as Hin.
  { rewrite Hkeys, <- Hpollers. apply list_elem_of_fmap.
    exists (uuid, Polling). split; [done|]. by eapply list_elem_of_lookup_2. }
  constructor; simpl.
  - by rewrite Hparams.
  - destruct Hcase as [[_ ->] | (v & s' & _ & Hget & _ & -> & _)]; [by eauto|].
    unfold assign_createdVolume. rewrite Hc. simpl. eexists. split; [done|].
    rewrite (Hlaw _ _ _ _ _ Hget). by rewrite Object_keys_set.
  - rewrite list_fmap_insert. simpl. rewrite list_insert_id; [done|].
    by rewrite list_lookup_fmap, Hi.
  - exists (tail0 ++ tail). by rewrite Hlog1, Hlog, <- app_assoc.
  - intros i' uuid' Hi'.
    destruct (decide (i' = i)) as [->|Hne].
    + rewrite list_lookup_insert_eq in Hi' by by eapply lookup_lt_Some.
      injection Hi' as <- ->.
      destruct Hcase as [[Hp _] | (v & s' & _ & Hget & Hstate & -> & ->)]; [done|].
      pose proof (Hlaw _ _ _ _ _ Hget) as Huuid.
      exists v. unfold assign_createdVolume. rewrite Hc. simpl. eexists.
      split; [done|]. rewrite Huuid, js_get_set_eq. repeat split; try done.
      exists tail0, []. rewrite Hlog1, Hlog, Howner. by rewrite <- app_assoc.
    + rewrite list_lookup_insert_ne in Hi' by done.
      destruct (Hdone _ _ Hi')
        as (v' & created' & Hc' & Hget' & Hstate' & Huuid' & pre & post & Hlog').
      rewrite Hc in Hc'. injection Hc' as <-.
      destruct Hcase as [[_ ->] | (v & s' & _ & Hget & Hstate & -> & ->)].
      * exists v', created. repeat split; try done.
        exists pre, (post ++ tail). rewrite Hlog1, Hlog'.
        by rewrite <- !app_assoc.
      * pose proof (Hlaw _ _ _ _ _ Hget) as Huuid.
        unfold assign_createdVolume. rewrite Hc. simpl.
        destruct (decide (uuid = uuid')) as [<-|Hne'].
        -- exists v. eexists. split; [done|]. rewrite Huuid, js_get_set_eq.
           repeat split; try done.
           exists tail0, []. rewrite Hlog1, Hlog, Howner. by rewrite <- app_assoc.
        -- exists v'. eexists. split; [done|].
           rewrite Huuid, js_get_set_ne by done. repeat split; try done.
           exists pre,
             (post ++ [Request (GetVolume uuid
                                  (params_owner_uuid (params (wait_job st))));
                       Reply (VolumeReply None (Some v))]).
           rewrite Hlog1, Hlog'. by rewrite <- !app_assoc.
Qed.

Lemma wait_run_inv owner created0 (w0 : world S) schedule : forall st : wait_state S,
  fetches_by_uuid S ->
  wait_inv owner created0 w0 st ->
  wait_inv owner created0 w0 (wait_run schedule st).
Proof.
  induction schedule as [|i schedule IH]; intros st Hlaw Hinv; [done|].
  simpl. apply IH; [done|]. by apply wait_step_inv.
Qed.

Lemma allVolumesReady_success (ps : list (string * poller)) msg :
  allVolumesReady ps = [Cb (None, Some msg)] ->
  forall uuid p, (uuid, p) ∈ ps -> p = Finished None.
Proof.
  unfold allVolumesReady.
  destruct (forallb is_finished ps) eqn:Hall; [|done].
  destruct (existsb has_failed ps) eqn:Hany; [done|]. intros _ uuid p Hin.
  apply list_elem_of_In in Hin.
  pose proof (proj1 (forallb_forall _ _) Hall _ Hin) as Hfin.
  destruct p as [|[e|]]; [done| |done].
  assert (existsb has_failed ps = true) as Habs
    by (apply existsb_exists; by exists (uuid, Finished (Some e))).
  congruence.
Qed.

(** C10: when the task reports that all required volumes are ready, every
    property of [job.createdVolumes] holds a record in state [ready] whose
    UUID is the key, which is a record that was fetched from VOLAPI during
    the task; the keys are those the task started with. *)
Theorem waitForNfsVolumeProvisions_all_ready
    (schedule : list nat) (j j' : job) (w w' : world S)
    (created : list (string * volume)) :
  fetches_by_uuid S ->
  createdVolumes j = Some created -> created <> [] ->
  waitForNfsVolumeProvisions schedule j w
  = ([Cb (None, Some "All required volumes ready")], j', w') ->
  exists created',
    createdVolumes j' = Some created'
    /\ Object_keys created' = Object_keys created
    /\ forall uuid v,
         js_get created' uuid = Some v ->
         vol_state v = "ready" /\ vol_uuid v = uuid
         /\ exists pre post,
              log w' = log w ++ pre
                ++ [Request (GetVolume uuid (params_owner_uuid (params j)));
                    Reply (VolumeReply None (Some v))] ++ post.
Proof.
  intros Hlaw Hcreated Hne. unfold waitForNfsVolumeProvisions.
  destruct (is_defined (requiredNfsVolumes j) && _); [done|].
  rewrite Hcreated.
  destruct (length (Object_keys created) =? 0)%nat; [done|].
  set (st0 := {| pollers := _ |}). intros [= Hcalls <- <-].
  assert (wait_inv (params_owner_uuid (params j)) created w st0) as Hinv0.
  { constructor; simpl.
    - done.
    - by exists created.
    - generalize (Object_keys created). intros keys.
      induction keys as [|k keys IH]; simpl; [done|]. by f_equal.
    - exists []. by rewrite app_nil_r.
    - intros i uuid Hi. change (map ?f ?l) with (f <$> l) in Hi.
      rewrite list_lookup_fmap in Hi.
      destruct (Object_keys created !! i); simpl in Hi; congruence. }
  pose proof (wait_run_inv _ _ _ schedule _ Hlaw Hinv0)
    as [Howner (created' & Hc' & Hkeys) Hpollers _ Hdone].
  exists created'. split; [done|]. split; [done|].
  intros uuid v Hget.
  assert (uuid ∈ (pollers (wait_run schedule st0)).*1) as Hin.
  { rewrite Hpollers, <- Hkeys. by eapply js_get_Some_key. }
  apply list_elem_of_fmap in Hin as ([uuid' p] & -> & Hin). simpl in Hget.
  pose proof (allVolumesReady_success _ _ Hcalls _ _ Hin) as ->.
  apply list_elem_of_lookup in Hin as [i Hi].
  destruct (Hdone _ _ Hi) as (v' & c & Hc & Hget' & Hstate & Huuid & Hlog).
  rewrite Hc' in Hc. injection Hc as <-. rewrite Hget in Hget'.
  injection Hget' as <-. done.
Qed.
End all_ready.

(** ** The simulation is a well-behaved service *)

Section simulation_facts.
Existing Instance Sim.clients.

Lemma existsb_false_filter {A} (f : A -> bool) (l : list A) :
  existsb f l = false -> List.filter f l = [].
Proof.
  induction l as [|x l IH]; simpl; [done|].
  destruct (f x); simpl; [done|]. exact IH.
Qed.

Lemma Sim_consistent : consistent_volapi Sim.state.
Proof.
  constructor.
  - done.
  - intros name owner type networks s e v s'. simpl. unfold Sim.sim_createVolume.
    destruct (existsb _ _); by intros [= _ _ <-].
  - intros name owner type networks s v s'. simpl. unfold Sim.sim_createVolume.
    destruct (existsb _ _) eqn:Hnone; [done|]. intros [= <- <-].
    eexists. simpl. rewrite List.filter_app, (existsb_false_filter _ _ Hnone).
    simpl. unfold Sim.named at 1. simpl. by rewrite !String.eqb_refl.
Qed.

Lemma Sim_fetches_by_uuid : fetches_by_uuid Sim.state.
Proof.
  intros uuid owner s v s'. simpl. unfold Sim.sim_getVolume.
  destruct (List.find _ _) as [x|] eqn:Hfind; [|done]. intros [= <- _].
  apply find_some in Hfind as [_ Hid]. unfold Sim.identified in Hid.
  apply andb_prop in Hid as [Huuid _]. apply String.eqb_eq in Huuid.
  unfold Sim.shown. by destruct (Sim.remaining x) as [[|n]|].
Qed.

(** A service state that a poll of [uuid] leaves as it is answers every
    poll in a row alike. *)
Lemma nth_fetch_fixed uuid owner (s : Sim.state) r k :
  Sim.sim_getVolume uuid owner s = (r, s) -> nth_fetch uuid owner k s = (r, s).
Proof.
  intros Hfix. induction k as [|k IH]; simpl; [done|]. by rewrite Hfix.
Qed.
End simulation_facts.

(** ** The properties on concrete runs *)

Section runs.
Import Scenario.
Existing Instance Json.builtins.
Existing Instance Sim.clients.

(** A VM with an empty [internal_metadata] object: the task fails. *)
Lemma provisionNfsVolumes_absent_field_fails_run :
  exists j' w',
    provisionNfsVolumes start_job (Sim.boot (services (vm_with ∅) [] 2))
    = Some ([Cb (Some (new_Error
               ("Could not provision volumes, reason: Error: "
                +:+ "docker:nfs_volumes_required internal metadata "
                +:+ "must represent an array")), None)], j', w')
    /\ mapRequiredNfsVolumes j' = None
    /\ createdVolumes j' = None
    /\ volapi_requests w' = [].
Proof.
  apply (provisionNfsVolumes_absent_field_fails start_job
           (Sim.boot (services (vm_with ∅) [] 2)) None (vm_with ∅)
           (services (vm_with ∅) [] 2) ∅); reflexivity.
Defined.

(** The same VM with [docker:nfs_volumes_required] set to [[]]. *)
Lemma provisionNfsVolumes_empty_list_run :
  exists j' w',
    provisionNfsVolumes start_job
      (Sim.boot (services (vm_with {[ nfs_volumes_required := JStr "[]" ]}) [] 2))
    = Some ([Cb (None, Some "All volumes provisioned")], j', w')
    /\ mapRequiredNfsVolumes j' = Some []
    /\ createdVolumes j' = Some []
    /\ volapi_requests w' = [].
Proof.
  apply (provisionNfsVolumes_empty_list start_job
           (Sim.boot (services (vm_with {[ nfs_volumes_required := JStr "[]" ]}) [] 2))
           (vm_with {[ nfs_volumes_required := JStr "[]" ]})
           (services (vm_with {[ nfs_volumes_required := JStr "[]" ]}) [] 2)
           {[ nfs_volumes_required := JStr "[]" ]} "[]");
    try reflexivity. discriminate.
Defined.

(** Text that is not JSON, and an array with an element that is not an
    object: two invocations of the callback each. *)
Lemma loadRequiredNfsVolumes_malformed_calls_run :
  (loadRequiredNfsVolumes start_job empty_context
     (Sim.boot (services (vm_with {[ nfs_volumes_required := JStr "{oops" ]}) [] 2))).1.1.1
  = [Some (new_Error
       "Could not parse docker:nfs_volumes_required internal metadata");
     Some (new_Error
       "docker:nfs_volumes_required internal metadata must represent an array")]
  /\ (loadRequiredNfsVolumes start_job empty_context
        (Sim.boot (services (vm_with {[ nfs_volumes_required := JStr "[1]" ]}) [] 2))).1.1.1
     = [Some (new_Error "requiredVolume must be an object"); None].
Proof.
  split.
  - edestruct (loadRequiredNfsVolumes_malformed_calls start_job empty_context
                (Sim.boot (services (vm_with {[ nfs_volumes_required := JStr "{oops" ]}) [] 2))
                None (vm_with {[ nfs_volumes_required := JStr "{oops" ]})
                (services (vm_with {[ nfs_volumes_required := JStr "{oops" ]}) [] 2)
                {[ nfs_volumes_required := JStr "{oops" ]} "{oops")
      as (calls & j' & ctx' & w' & Hrun & Hparse & _);
      [reflexivity | reflexivity | reflexivity | discriminate |].
    rewrite Hrun. apply Hparse. reflexivity.
  - edestruct (loadRequiredNfsVolumes_malformed_calls start_job empty_context
                (Sim.boot (services (vm_with {[ nfs_volumes_required := JStr "[1]" ]}) [] 2))
                None (vm_with {[ nfs_volumes_required := JStr "[1]" ]})
                (services (vm_with {[ nfs_volumes_required := JStr "[1]" ]}) [] 2)
                {[ nfs_volumes_required := JStr "[1]" ]} "[1]")
      as (calls & j' & ctx' & w' & Hrun & _ & Harray);
      [reflexivity | reflexivity | reflexivity | discriminate |].
    rewrite Hrun. apply (Harray [JNum 1]). reflexivity.
Defined.

(** An overlay nic and an admin nic: the admin nic yields an [undefined]
    element of the [networks] array. *)
Lemma overlay_networks_one_per_nic_run :
  length (overlay_networks [NicObject overlay_nic; NicObject admin_nic]) = 2
  /\ overlay_networks [NicObject overlay_nic; NicObject admin_nic] !! 1 = Some undefined
  /\ overlay_networks [NicObject admin_nic; NicObject untagged_nic]
     = [undefined; undefined].
Proof.
  split; [|split].
  - apply (overlay_networks_one_per_nic [NicObject overlay_nic; NicObject admin_nic]).
  - apply (proj2 (overlay_networks_one_per_nic
                    [NicObject overlay_nic; NicObject admin_nic]) 1 admin_nic
             eq_refl).
  - reflexivity.
Defined.

(** After a conflict, one stored volume named [data] is the result, and
    two of them are an error. *)
Lemma onVolumeCreated_conflict_lookup_run :
  (onVolumeCreated loaded_job "data" (Some conflict) None
     (Sim.boot (services (vm_with ∅) [stored_volume "volume-0" "data" (Some 0)] 2))).1
  = [(None, Some (Sim.shown (stored_volume "volume-0" "data" (Some 0))))]
  /\ (onVolumeCreated loaded_job "data" (Some conflict) None
        (Sim.boot (services (vm_with ∅)
                     [stored_volume "volume-0" "data" (Some 0);
                      stored_volume "volume-1" "data" (Some 0)] 2))).1
     = [(Some (inconsistent_state loaded_job "data"), None)].
Proof.
  split.
  - edestruct (onVolumeCreated_conflict_lookup loaded_job "data" conflict None
                 (Sim.boot (services (vm_with ∅)
                              [stored_volume "volume-0" "data" (Some 0)] 2)))
      as (calls & w' & Hrun & _ & Hone & _); [reflexivity | reflexivity |].
    rewrite Hrun. apply Hone. reflexivity.
  - edestruct (onVolumeCreated_conflict_lookup loaded_job "data" conflict None
                 (Sim.boot (services (vm_with ∅)
                              [stored_volume "volume-0" "data" (Some 0);
                               stored_volume "volume-1" "data" (Some 0)] 2)))
      as (calls & w' & Hrun & _ & _ & Hmany); [reflexivity | reflexivity |].
    rewrite Hrun. eapply Hmany; [reflexivity|]. simpl. lia.
Defined.

(** Two runs of [provisionNfsVolume] for [data] against services that
    hold no volume yet: the second run finds the volume of the first. *)
Lemma provisionNfsVolume_idempotent_run :
  exists v2 w2,
    provisionNfsVolume loaded_job "data"
      (provisionNfsVolume loaded_job "data"
         (Sim.boot (services (vm_with ∅) [] 2))).2
    = ([Cb (None, Some v2)], w2)
    /\ vol_uuid v2 = "volume-0".
Proof.
  pose proof (fun v1 s2 =>
    provisionNfsVolume_idempotent loaded_job "data"
      (Sim.boot (services (vm_with ∅) [] 2))
      (provisionNfsVolume loaded_job "data"
         (Sim.boot (services (vm_with ∅) [] 2))).2
      (loaded_vm 1%positive) v1 conflict None s2 Sim_consistent) as Hthm.
  edestruct Hthm as (v2 & w2 & Hrun & Huuid & _);
    [reflexivity | reflexivity | reflexivity | reflexivity |].
  exists v2, w2. split; [exact Hrun | exact Huuid].
Defined.

(** A volume that is ready after two polls: the loop calls [done] at the
    third fetch. *)
Lemma checkVolumeCreated_converges_run :
  exists w' tail,
    checkVolumeCreated 3 "volume-0"
      (provisioned_job [("volume-0", creating "volume-0" "data")])
      (Sim.boot (services (vm_with ∅) [stored_volume "volume-0" "data" (Some 2)] 2))
    = (Finished None,
       provisioned_job
         [("volume-0", Sim.shown (stored_volume "volume-0" "data" (Some 0)))], w')
    /\ log w' = [] ++ tail
    /\ actions tail
       = [Request (GetVolume "volume-0" "owner-1"); SetTimeout 1000;
          Request (GetVolume "volume-0" "owner-1"); SetTimeout 1000;
          Request (GetVolume "volume-0" "owner-1")].
Proof.
  apply (proj1 (proj2 (checkVolumeCreated_converges "volume-0"
           (provisioned_job [("volume-0", creating "volume-0" "data")])
           (Sim.boot (services (vm_with ∅)
                        [stored_volume "volume-0" "data" (Some 2)] 2))
           2 [("volume-0", creating "volume-0" "data")] eq_refl
           ltac:(intros [|[|k]] Hk;
                 [split; [reflexivity | intros v [= <-]; discriminate]
                 |split; [reflexivity | intros v [= <-]; discriminate]
                 |lia])))
         (Sim.shown (stored_volume "volume-0" "data" (Some 0))) 0);
    reflexivity.
Defined.

(** A volume whose creation failed: after five fetches the loop is still
    going. *)
Lemma checkVolumeCreated_never_completes_run :
  exists w' tail,
    checkVolumeCreated 5 "volume-0"
      (provisioned_job [("volume-0", creating "volume-0" "data")])
      (Sim.boot (services (vm_with ∅) [stored_volume "volume-0" "data" None] 2))
    = (Polling, provisioned_job [("volume-0", creating "volume-0" "data")], w')
    /\ log w' = [] ++ tail
    /\ actions tail = rounds "volume-0" "owner-1" 5.
Proof.
  apply (checkVolumeCreated_never_completes "volume-0"
           (provisioned_job [("volume-0", creating "volume-0" "data")])
           (Sim.boot (services (vm_with ∅)
                        [stored_volume "volume-0" "data" None] 2))).
  intros k.
  change (pending
    (nth_fetch "volume-0" "owner-1" k
       (services (vm_with ∅) [stored_volume "volume-0" "data" None] 2)).1).
  rewrite (nth_fetch_fixed "volume-0" "owner-1"
             (services (vm_with ∅) [stored_volume "volume-0" "data" None] 2)
             (None, Some (Sim.shown (stored_volume "volume-0" "data" None)))
             k eq_refl).
  split; [reflexivity | intros v [= <-]; discriminate].
Defined.

(** Two volumes, each ready at its second fetch, with the answers
    arriving in turn: every record of [job.createdVolumes] is ready. *)
Lemma waitForNfsVolumeProvisions_all_ready_run :
  exists created',
    createdVolumes
      (waitForNfsVolumeProvisions [0; 1; 1; 0]
         (provisioned_job [("volume-0", creating "volume-0" "data");
                           ("volume-1", creating "volume-1" "logs")])
         (Sim.boot (services (vm_with ∅)
                      [stored_volume "volume-0" "data" (Some 1);
                       stored_volume "volume-1" "logs" (Some 1)] 2))).1.2
    = Some created'
    /\ Object_keys created' = ["volume-0"; "volume-1"]
    /\ forall uuid v, js_get created' uuid = Some v ->
         vol_state v = "ready" /\ vol_uuid v = uuid.
Proof.
  edestruct (waitForNfsVolumeProvisions_all_ready [0; 1; 1; 0]
               (provisioned_job [("volume-0", creating "volume-0" "data");
                                 ("volume-1", creating "volume-1" "logs")])
               _
               (Sim.boot (services (vm_with ∅)
                            [stored_volume "volume-0" "data" (Some 1);
                             stored_volume "volume-1" "logs" (Some 1)] 2))
               _ _ Sim_fetches_by_uuid eq_refl ltac:(discriminate) eq_refl)
    as (created' & Hc & Hkeys & Hall).
  exists created'. split; [exact Hc|]. split; [exact Hkeys|].
  intros uuid v Hget. destruct (Hall uuid v Hget) as (Hstate & Huuid & _).
  by split.
Defined.

Lemma triple_eta {A B C} (x : A * B * C) : x = (x.1.1, x.1.2, x.2).
Proof. by destruct x as [[a b] c]. Qed.

(** The metadata update for the ready volume [data]: the metadata object
    of [job.vm] is as before, and the update is a new object. *)
Lemma buildNfsVolumesMetadata_copies_run :
  objects (buildNfsVolumesMetadata (provisioned_job [("volume-0", ready_data)])
             (loaded_world metadata_before (services (vm_with metadata_before) [] 2))).2
    !! 1%positive = Some metadata_before
  /\ exists l',
       updatedVmInternalMetadata
         (buildNfsVolumesMetadata (provisioned_job [("volume-0", ready_data)])
            (loaded_world metadata_before
               (services (vm_with metadata_before) [] 2))).1.2 = VRef l'
       /\ l' <> 1%positive.
Proof.
  destruct (buildNfsVolumesMetadata_copies _ _ _ _ _
              (triple_eta (buildNfsVolumesMetadata
                 (provisioned_job [("volume-0", ready_data)])
                 (loaded_world metadata_before
                    (services (vm_with metadata_before) [] 2)))))
    as (_ & _ & Hdelta).
  edestruct (Hdelta (loaded_vm 1%positive) 1%positive metadata_before
               [("volume-0", ready_data)])
    as (l' & str & Hupdated & Hnew & Hold & _);
    [reflexivity | reflexivity | reflexivity | reflexivity | discriminate
    | reflexivity |].
  split; [exact Hold|]. exists l'. split; [exact Hupdated|].
  intros ->. discriminate Hnew.
Defined.

(** The poll step run on the job that [buildNfsVolumesMetadata] leaves,
    against a VMAPI whose VM already shows the value written: it fails. *)
Lemma waitForNfsVolumesMetadataUpdated_after_build_run :
  stringifiedRequiredNfsVolumesMetadata
    (buildNfsVolumesMetadata (provisioned_job [("volume-0", ready_data)])
       (loaded_world metadata_before (services (vm_with metadata_after) [] 2))).1.2
  = None
  /\ waitForNfsVolumesMetadataUpdated 3
       (buildNfsVolumesMetadata (provisioned_job [("volume-0", ready_data)])
          (loaded_world metadata_before (services (vm_with metadata_after) [] 2))).1.2
       (buildNfsVolumesMetadata (provisioned_job [("volume-0", ready_data)])
          (loaded_world metadata_before (services (vm_with metadata_after) [] 2))).2
     = ([Cb (Some (new_Error
               "job.stringifiedRequiredNfsVolumesMetadata must be a string"),
             None)],
        (buildNfsVolumesMetadata (provisioned_job [("volume-0", ready_data)])
           (loaded_world metadata_before
              (services (vm_with metadata_after) [] 2))).2).
Proof.
  apply (waitForNfsVolumesMetadataUpdated_after_build
           (provisioned_job [("volume-0", ready_data)]) _
           (loaded_world metadata_before (services (vm_with metadata_after) [] 2))
           _ _ (loaded_vm 1%positive) 3 eq_refl eq_refl (triple_eta _)).
Defined.

(** What the update step reports for the ready volume [data], and what the
    poll loop does once it is given the value written: it succeeds at the
    first fetch that shows this value. *)
Example buildNfsVolumesMetadata_data :
  (buildNfsVolumesMetadata (provisioned_job [("volume-0", ready_data)])
     (loaded_world metadata_before (services (vm_with metadata_before) [] 2))).1.1
  = [Cb (None, Some ("Built docker:nfsvolumes internal_metadata:"
                      +:+ nfsvolumes_data))].
Proof. reflexivity. Qed.

Example checkMetadataUpdated_data :
  (checkMetadataUpdated 3 (loaded_vm 1%positive) nfsvolumes_data
     (Sim.boot (services (vm_with metadata_after) [] 2))).1
  = [Cb (None, Some "NFS volumes metadata updated successfully")]
  /\ (checkMetadataUpdated 3 (loaded_vm 1%positive) nfsvolumes_data
        (Sim.boot (services (vm_with metadata_before) [] 2))).1 = [].
Proof. split; reflexivity. Qed.
End runs.


(** ** Further properties of the extraction *)

Section extraction_more.
Context `{JSON} {S : Type} `{SdcClients S}.



End extraction_more.


Section extraction_failures.
Context `{JSON} {S : Type} `{SdcClients S}.

(** X2: when [getVm] yields no VM, or a VM whose [internal_metadata] is not
    an object, the task fails with the message of the extraction step,
    whatever [err] was; the [err] of [getVm] itself is not reported. Nothing
    is asked of VOLAPI, and [job.createdVolumes] and
    [job.mapRequiredNfsVolumes] stay as they were; [job.vm] is assigned only
    when a VM was received. *)
Theorem provisionNfsVolumes_unusable_vm
    (j : job) (w : world S) err (v : option vm_wire) s' :
  vmapi_getVm (params_vm_uuid (params j)) None (service w) = ((err, v), s') ->
  (forall v0 props, v = Some v0 -> vm_internal_metadata v0 <> WObject props) ->
  exists j' w',
    provisionNfsVolumes j w
    = Some ([Cb (Some (new_Error
               ("Could not provision volumes, reason: Error: "
                +:+ match v with
                    | None => "Could not get VM with uuid "
                              +:+ params_vm_uuid (params j)
                    | Some _ => "internal_metadata property missing from VM object"
                    end)), None)], j', w')
    /\ (v = None -> j' = j)
    /\ (is_Some v -> is_Some (job_vm j'))
    /\ createdVolumes j' = createdVolumes j
    /\ mapRequiredNfsVolumes j' = mapRequiredNfsVolumes j
    /\ volapi_requests w' = volapi_requests w.
Proof.
  intros Hget Hmeta.
  unfold provisionNfsVolumes, loadRequiredNfsVolumes, getVm. simpl.
  rewrite Hget. simpl. destruct v as [v|].
  - unfold receive_vm.
    destruct (vm_internal_metadata v) as [|p|props] eqn:Hm;
      [| |by destruct (Hmeta v props eq_refl)]; simpl.
    + eexists _, _. split; [reflexivity|]. simpl. repeat split; try done.
      unfold volapi_requests. simpl. rewrite !filter_app. simpl.
      by rewrite !app_nil_r.
    + destruct (negb (truthy_primitive p)
                || negb (String.eqb (typeof_primitive p) "object")) eqn:Hp.
      * eexists _, _. split; [reflexivity|]. simpl. repeat split; try done.
        unfold volapi_requests. simpl. rewrite !filter_app. simpl.
        by rewrite !app_nil_r.
      * exfalso. destruct p as [|b|n|s0]; simpl in Hp;
          rewrite ?orb_true_r in Hp; discriminate.
  - simpl. eexists _, _. split; [reflexivity|]. simpl.
    repeat split; try done; try (by intros [x [=]]).
    unfold volapi_requests. simpl. rewrite !filter_app. simpl.
    by rewrite !app_nil_r.
Qed.
End extraction_failures.

(** ** Further properties of the provisioning *)

Section provisioning_more.
Context {S : Type} `{SdcClients S}.



Lemma requests_app l1 l2 : requests (l1 ++ l2) = requests l1 ++ requests l2.
Proof. unfold requests. apply omap_app. Qed.


End provisioning_more.


Section fan_out_helpers.
Context {S : Type} `{SdcClients S}.

(** With a VM loaded, [provisionNfsVolume] does not throw: each of its
    calls is an invocation of the callback. *)
Lemma provisionNfsVolume_no_throw (j : job) volumeName (w : world S) v exn :
  job_vm j = Some v ->
  (provisionNfsVolume j volumeName w).1 <> [Throw exn].
Proof.
  intros Hvm. unfold provisionNfsVolume. rewrite Hvm.
  destruct (createVolume _ _ _ _ _) as [[err cv] w1].
  destruct (onVolumeCreated j volumeName err cv w1) as [calls w2]. simpl.
  by destruct (concat _ ++ calls) as [|a [|a' l]].
Qed.
End fan_out_helpers.

Section fan_out.
Context `{JSON} {S : Type} `{SdcClients S}.

Lemma keyed_by_uuid_set created v :
  keyed_by_uuid created -> keyed_by_uuid (js_set created (vol_uuid v) v).
Proof.
  intros Hkeyed uuid v'. destruct (decide (vol_uuid v = uuid)) as [<-|Hne].
  - rewrite js_get_set_eq. by intros [= <-].
  - rewrite js_get_set_ne by done. apply Hkeyed.
Qed.

Lemma collect_createdVolumes_keyed operations : forall acc created,
  keyed_by_uuid acc ->
  collect_createdVolumes operations acc = Some created ->
  keyed_by_uuid created.
Proof.
  induction operations as [|[err [v|]] operations IH]; intros acc created Hacc;
    simpl; [by intros [= <-]| |done].
  apply IH. by apply keyed_by_uuid_set.
Qed.

(** The creations asked for by one run of [provisionNfsVolume]. *)
Lemma provisionNfsVolume_creations (j : job) volumeName (w : world S) v :
  job_vm j = Some v ->
  exists tail,
    log (provisionNfsVolume j volumeName w).2 = log w ++ tail
    /\ List.filter is_creation (requests tail) = [creation_of j v volumeName].
Proof.
  intros Hvm. unfold provisionNfsVolume. rewrite Hvm.
  destruct (volapi_createVolume volumeName (params_owner_uuid (params j))
              "tritonnfs" (overlay_networks (vm_nics v)) (service w))
    as [[err cv] s1] eqn:Hcreate.
  rewrite (createVolume_eq _ _ _ _ _ _ _ _ Hcreate).
  unfold onVolumeCreated.
  destruct err as [e|]; [|by eexists].
  destruct (restCode e) as [code|]; [|by eexists].
  destruct (String.eqb code "VOLUME_ALREADY_EXISTS"); [|by eexists].
  destruct (volapi_listVolumes volumeName (params_owner_uuid (params j)) s1)
    as [[lerr vs] s2] eqn:Hlist.
  erewrite listVolumes_eq by exact Hlist. simpl.
  eexists. split; [by rewrite <- app_assoc|]. done.
Qed.

Lemma forEachParallel_creations (j : job) v names : forall (w w' : world S) r,
  job_vm j = Some v ->
  forEachParallel (provisionNfsVolume j) names w = (r, w') ->
  forall operations, r = Some (Cb operations) ->
  exists tail,
    log w' = log w ++ tail
    /\ List.filter is_creation (requests tail) = map (creation_of j v) names.
Proof.
  induction names as [|name names IH]; intros w w' r Hvm; simpl.
  - intros [= <- <-] operations _. exists []. by rewrite app_nil_r.
  - destruct (provisionNfsVolume_creations j name w v Hvm) as (tail1 & Hlog1 & Hreq1).
    destruct (provisionNfsVolume j name w) as [calls w1].
    destruct (exactly_once calls) as [[result|exn]|]; try by intros [= <- <-].
    destruct (forEachParallel (provisionNfsVolume j) names w1) as [results w2] eqn:Hrest.
    intros [= <- <-] operations Hops.
    destruct results as [[results|exn]|]; try done.
    destruct (IH _ _ _ Hvm Hrest results eq_refl) as (tail2 & Hlog2 & Hreq2).
    exists (tail1 ++ tail2). simpl in Hlog1. split.
    + by rewrite Hlog2, Hlog1, <- app_assoc.
    + rewrite requests_app, List.filter_app, Hreq1, Hreq2. done.
Qed.

Lemma forEachParallel_no_throw (j : job) v exn names : forall w : world S,
  job_vm j = Some v ->
  (forEachParallel (provisionNfsVolume j) names w).1 <> Some (Throw exn).
Proof.
  induction names as [|name names IH]; intros w Hvm; simpl; [done|].
  pose proof (fun exn0 => provisionNfsVolume_no_throw j name w v exn0 Hvm)
    as Hcalls.
  destruct (provisionNfsVolume j name w) as [calls0 w0].
  destruct (exactly_once calls0) as [[result|exn0]|] eqn:Honce; [| |done].
  - specialize (IH w0 Hvm).
    destruct (forEachParallel (provisionNfsVolume j) names w0)
      as [[[results|exn1]|] w2]; done.
  - destruct calls0 as [|c [|c' calls0]]; try done.
    injection Honce as ->. by destruct (Hcalls exn0).
Qed.

(** X6: when [provisionRequiredNfsVolumes] runs to its callback, it has
    asked VOLAPI for exactly one creation per required volume name, in the
    order of the names, each for the owner of the job, of type [tritonnfs]
    and on the networks of the nics; with no required volume it has asked
    for none. *)
Theorem provisionRequiredNfsVolumes_creations
    (j : job) (ctx ctx' : context) (w w' : world S) (v : vm) m calls :
  job_vm j = Some v ->
  ctx_mapRequiredNfsVolumes ctx = Some m ->
  provisionRequiredNfsVolumes j ctx w = Some (calls, ctx', w') ->
  exists tail,
    log w' = log w ++ tail
    /\ List.filter is_creation (requests tail)
       = map (creation_of j v) (Object_keys m).
Proof.
  intros Hvm Hm. unfold provisionRequiredNfsVolumes. rewrite Hm.
  destruct (length (Object_keys m) =? 0)%nat eqn:Hlen.
  - intros [= <- <- <-]. exists []. rewrite app_nil_r. split; [done|].
    apply Nat.eqb_eq in Hlen. by destruct (Object_keys m).
  - destruct (forEachParallel (provisionNfsVolume j) (Object_keys m) w)
      as [r w1] eqn:Hrun.
    destruct r as [[operations|exn]|]; [| |done].
    + destruct (onAllRequiredVolumesProvisioned _ operations) as [calls1 ctx1].
      intros [= <- <- <-].
      by apply (forEachParallel_creations j v _ _ _ _ Hvm Hrun operations).
    + pose proof (forEachParallel_no_throw j v exn (Object_keys m) w Hvm) as Hno.
      by rewrite Hrun in Hno.
Qed.

(** X5: when the task reports that all volumes are provisioned,
    [job.createdVolumes] is an object in which every volume record is filed
    under its own UUID; when it reports anything else,
    [job.createdVolumes] is as it was before the task. *)
Theorem provisionNfsVolumes_createdVolumes
    (j j' : job) (w w' : world S) calls :
  provisionNfsVolumes j w = Some (calls, j', w') ->
  (forall msg, calls = [Cb (None, Some msg)] ->
     exists created, createdVolumes j' = Some created /\ keyed_by_uuid created)
  /\ ((forall msg, calls <> [Cb (None, Some msg)]) ->
      createdVolumes j' = createdVolumes j).
Proof.
  unfold provisionNfsVolumes.
  assert (forall ctx (w0 : world S),
            createdVolumes (loadRequiredNfsVolumes j ctx w0).1.1.2
            = createdVolumes j) as Hload.
  { intros ctx w0. unfold loadRequiredNfsVolumes.
    destruct (getVm _ _ _) as [[err v] w1]. unfold onGetVm.
    destruct v as [v|]; [|done]. simpl.
    destruct (negb _ || negb _); [done|].
    destruct (is_defined _ && negb _); [done|].
    destruct (if truthy _ then _ else _) as [caught parsed].
    destruct (Array_isArray parsed) as [elems|]; [|done].
    by destruct (fold_left _ _ _). }
  specialize (Hload empty_context w).
  destruct (loadRequiredNfsVolumes j empty_context w) as [[[calls1 j1] ctx1] w1].
  simpl in Hload.
  destruct (exactly_once calls1) as [[err|]|]; [| |done].
  { intros [= <- <- <-]. split; [by intros msg [=]|]. by intros _. }
  unfold provisionRequiredNfsVolumes.
  destruct (ctx_mapRequiredNfsVolumes ctx1) as [m|].
  2: { simpl. intros [= <- <- <-]. split; [by intros msg [=]|]. by intros _. }
  destruct (length (Object_keys m) =? 0)%nat.
  { simpl. intros [= <- <- <-]. split.
    - intros msg _. exists []. split; [done|]. by intros uuid v0.
    - intros Hno. by destruct (Hno "All volumes provisioned"). }
  destruct (forEachParallel (provisionNfsVolume j1) (Object_keys m) w1)
    as [[[operations|exn]|] w2]; [| |done].
  2: { simpl. intros [= <- <- <-]. split; [by intros msg [=]|]. by intros _. }
  unfold onAllRequiredVolumesProvisioned.
  destruct (MultiError (omap fst operations)) as [e|]; simpl.
  { intros [= <- <- <-]. split; [by intros msg [=]|]. by intros _. }
  destruct (collect_createdVolumes operations []) as [created|] eqn:Hcollect; simpl.
  - intros [= <- <- <-]. split.
    + intros msg _. exists created. split; [done|].
      apply (collect_createdVolumes_keyed operations [] created); [|done].
      by intros uuid v0.
    + intros Hno. by destruct (Hno "All volumes provisioned").
  - intros [= <- <- <-]. split; [by intros msg [=]|]. by intros _.
Qed.
End fan_out.


(** ** Further properties of the wait for all volumes *)

Section wait_more.
Context {S : Type} `{SdcClients S}.

(** What one round of a poll loop does to the log, the heap and the job. *)
Lemma checkVolumeReady_effects uuid (j : job) (w : world S) keys :
  uuid ∈ keys ->
  exists tail,
    log (checkVolumeReady uuid j w).2 = log w ++ tail
    /\ Forall (fetches_only (params_owner_uuid (params j)) keys) tail
    /\ objects (checkVolumeReady uuid j w).2 = objects w
    /\ params (checkVolumeReady uuid j w).1.2 = params j
    /\ job_vm (checkVolumeReady uuid j w).1.2 = job_vm j
    /\ mapRequiredNfsVolumes (checkVolumeReady uuid j w).1.2
       = mapRequiredNfsVolumes j.
Proof.
  intros Hin.
  assert (fetches_only (params_owner_uuid (params j)) keys
            (Request (GetVolume uuid (params_owner_uuid (params j))))) as Hreq
    by (by exists uuid).
  unfold checkVolumeReady.
  destruct (volapi_getVolume uuid (params_owner_uuid (params j)) (service w))
    as [[err v] s'] eqn:Hget.
  rewrite (getVolume_eq _ _ _ _ _ _ Hget). unfold onGetVolume.
  destruct err as [e|]; simpl.
  { eexists. split; [done|]. repeat split; try done.
    by repeat constructor. }
  destruct v as [v|]; simpl.
  - destruct (String.eqb (vol_state v) "ready"); simpl.
    + eexists. split; [done|]. unfold assign_createdVolume.
      destruct (createdVolumes j); repeat split; try done;
        by repeat constructor.
    + eexists. split; [by rewrite <- app_assoc|]. repeat split; try done.
      by repeat constructor.
  - eexists. split; [by rewrite <- app_assoc|]. repeat split; try done.
    by repeat constructor.
Qed.

Lemma wait_run_effects owner keys schedule : forall st : wait_state S,
  params_owner_uuid (params (wait_job st)) = owner ->
  (forall p, p ∈ pollers st -> p.1 ∈ keys) ->
  exists tail,
    log (wait_world (wait_run schedule st)) = log (wait_world st) ++ tail
    /\ Forall (fetches_only owner keys) tail
    /\ objects (wait_world (wait_run schedule st)) = objects (wait_world st)
    /\ job_vm (wait_job (wait_run schedule st)) = job_vm (wait_job st)
    /\ mapRequiredNfsVolumes (wait_job (wait_run schedule st))
       = mapRequiredNfsVolumes (wait_job st).
Proof.
  induction schedule as [|i schedule IH]; intros st Howner Hkeys.
  { exists []. by rewrite app_nil_r. }
  simpl.
  assert (exists tail1,
    log (wait_world (wait_step st i)) = log (wait_world st) ++ tail1
    /\ Forall (fetches_only owner keys) tail1
    /\ objects (wait_world (wait_step st i)) = objects (wait_world st)
    /\ params (wait_job (wait_step st i)) = params (wait_job st)
    /\ job_vm (wait_job (wait_step st i)) = job_vm (wait_job st)
    /\ mapRequiredNfsVolumes (wait_job (wait_step st i))
       = mapRequiredNfsVolumes (wait_job st)
    /\ (forall p, p ∈ pollers (wait_step st i) -> p.1 ∈ keys))
    as (tail1 & Hlog1 & Hall1 & Hobj1 & Hparams1 & Hvm1 & Hmap1 & Hkeys1).
  { unfold wait_step.
    destruct (pollers st !! i) as [[uuid [|err]]|] eqn:Hi;
      try (exists []; by rewrite app_nil_r).
    assert (uuid ∈ keys) as Hin
      by apply (Hkeys (uuid, Polling)), (list_elem_of_lookup_2 _ _ _ Hi).
    destruct (checkVolumeReady_effects uuid (wait_job st) (wait_world st) keys Hin)
      as (tail1 & Hlog1 & Hall1 & Hrest).
    rewrite Howner in Hall1.
    destruct (checkVolumeReady uuid (wait_job st) (wait_world st)) as [[p j1] w1].
    simpl in *. exists tail1. repeat split; try tauto.
    intros q Hq. apply list_elem_of_lookup in Hq as [i' Hq].
    destruct (decide (i' = i)) as [->|Hne].
    - rewrite list_lookup_insert_eq in Hq by by eapply lookup_lt_Some.
      by injection Hq as <-.
    - rewrite list_lookup_insert_ne in Hq by done.
      by apply Hkeys, (list_elem_of_lookup_2 _ _ _ Hq). }
  destruct (IH (wait_step st i)) as (tail2 & Hlog2 & Hall2 & Hobj2 & Hvm2 & Hmap2).
  { by rewrite Hparams1. }
  { done. }
  exists (tail1 ++ tail2). split; [by rewrite Hlog2, Hlog1, <- app_assoc|].
  split; [by apply Forall_app|]. split; [congruence|]. split; congruence.
Qed.

(** X7: however the answers arrive, the wait for the volumes asks VOLAPI
    only to fetch, for the owner of the job, volumes whose UUID is a key of
    [job.createdVolumes]; it sets no timer other than of one second, changes
    no object of the heap, and leaves [job.vm] and
    [job.mapRequiredNfsVolumes] as they are. *)
Theorem waitForNfsVolumeProvisions_fetches_only
    (schedule : list nat) (j : job) (w : world S) :
  exists tail,
    log (waitForNfsVolumeProvisions schedule j w).2 = log w ++ tail
    /\ Forall (fetches_only (params_owner_uuid (params j))
                 (default [] (Object_keys <$> createdVolumes j))) tail
    /\ objects (waitForNfsVolumeProvisions schedule j w).2 = objects w
    /\ job_vm (waitForNfsVolumeProvisions schedule j w).1.2 = job_vm j
    /\ mapRequiredNfsVolumes (waitForNfsVolumeProvisions schedule j w).1.2
       = mapRequiredNfsVolumes j.
Proof.
  unfold waitForNfsVolumeProvisions.
  destruct (is_defined (requiredNfsVolumes j) && _).
  { exists []. by rewrite app_nil_r. }
  destruct (createdVolumes j) as [created|].
  2: { exists []. by rewrite app_nil_r. }
  destruct (length (Object_keys created) =? 0)%nat.
  { exists []. by rewrite app_nil_r. }
  simpl.
  apply (wait_run_effects (params_owner_uuid (params j)) (Object_keys created)
           schedule {| pollers := _; wait_job := j; wait_world := w |}); [done|].
  simpl. intros p Hp. change (map ?f ?l) with (f <$> l) in Hp.
  apply list_elem_of_fmap in Hp as (uuid & -> & Hin). done.
Qed.
End wait_more.


(** ** Further properties of the metadata update *)

Section reconciliation_more.
Context `{JSON} {S : Type} `{SdcClients S}.

(** The loop over [job.createdVolumes]: it yields one entry per volume, in
    the order of enumeration, unless the required volume of some created
    volume cannot be dereferenced. *)
Lemma push_nfsVolumesMetadata_entries (j : job) created : forall acc,
  push_nfsVolumesMetadata j created acc
  = if forallb (has_descriptor (default [] (mapRequiredNfsVolumes j))) created.*2
    then Some (acc ++ map (nfs_entry (default [] (mapRequiredNfsVolumes j)))
                         created.*2)
    else None.
Proof.
  induction created as [|[uuid v] created IH]; intros acc; simpl.
  { by rewrite app_nil_r. }
  unfold has_descriptor at 1, nfs_entry at 1.
  destruct (mapRequiredNfsVolumes j) as [m|]; simpl; [|done].
  destruct (js_get m (vol_name v)) as [[[]| |]|]; simpl; try done;
    rewrite IH; destruct (forallb _ _); try done; by rewrite <- app_assoc.
Qed.

(** X8: when every created volume has a required volume of its name, the
    value written under [docker:nfsvolumes] is the serialization of an
    array with one object per created volume, in the order in which
    [job.createdVolumes] enumerates them: its [nfsvolume] is the
    [filesystem_path] of the volume and its [mountpoint] that of the
    required volume. The task reports it after ["Built docker:nfsvolumes
    internal_metadata:"] and makes no request. *)
Theorem buildNfsVolumesMetadata_entries
    (j : job) (w : world S) (v : vm) l props created m :
  job_vm j = Some v ->
  vm_internal_metadata v = VRef l ->
  objects w !! l = Some props ->
  createdVolumes j = Some created -> created <> [] ->
  mapRequiredNfsVolumes j = Some m ->
  forallb (has_descriptor m) created.*2 = true ->
  exists l' w',
    buildNfsVolumesMetadata j w
    = ([Cb (None, Some ("Built docker:nfsvolumes internal_metadata:"
                         +:+ JSON_stringify (JArr (map (nfs_entry m) created.*2))))],
       set_updatedVmInternalMetadata (VRef l') j, w')
    /\ objects w' !! l'
       = Some (<[nfsvolumes :=
                   JStr (JSON_stringify (JArr (map (nfs_entry m) created.*2)))]>
                 props)
    /\ log w' = log w.
Proof.
  intros Hvm Hmeta Hprops Hcreated Hne Hm Hall.
  unfold buildNfsVolumesMetadata. rewrite Hvm, Hcreated, Hmeta.
  unfold deepCopy, alloc. rewrite Hprops. simpl.
  destruct created as [|c created]; [done|]. cbn [length Object_keys fmap list_fmap].
  change (Datatypes.S _ =? 0)%nat with false. cbv iota.
  rewrite push_nfsVolumesMetadata_entries, Hm. simpl default. rewrite Hall.
  simpl. eexists _, _. split; [reflexivity|]. simpl. split; [|done].
  by rewrite lookup_alter_eq, lookup_insert_eq.
Qed.


(** X10: after the metadata update was built, the task that sets up the
    request succeeds; the payload it stores refers to the very object the
    update was built in, which is not the metadata object of [job.vm] and
    holds the properties of the latter with [docker:nfsvolumes] set. The
    request is a [post] of the action [update] to the [update] endpoint of
    the VM on its server, with the UUID of the job as [jobid]. *)
Theorem setupUpdateVmNfsVolumesMetadataRequest_after_build
    (j : job) (w : world S) (v : vm) l props created m :
  job_vm j = Some v ->
  vm_internal_metadata v = VRef l ->
  objects w !! l = Some props ->
  createdVolumes j = Some created -> created <> [] ->
  mapRequiredNfsVolumes j = Some m ->
  forallb (has_descriptor m) created.*2 = true ->
  exists l' j2,
    setupUpdateVmNfsVolumesMetadataRequest (buildNfsVolumesMetadata j w).1.2
    = ([Cb (None, Some "Request has been setup!")], j2)
    /\ params_payload (params j2) = Some (VRef l')
    /\ updatedVmInternalMetadata j2 = VRef l'
    /\ l' <> l
    /\ objects (buildNfsVolumesMetadata j w).2 !! l'
       = Some (<[nfsvolumes :=
                   JStr (JSON_stringify (JArr (map (nfs_entry m) created.*2)))]>
                 props)
    /\ objects (buildNfsVolumesMetadata j w).2 !! l = Some props
    /\ endpoint j2
       = Some ("/servers/" +:+ params_server_uuid (params j) +:+ "/vms/"
               +:+ params_vm_uuid (params j) +:+ "/update")
    /\ requestMethod j2 = Some "post" /\ action j2 = Some "update"
    /\ server_uuid j2 = Some (params_server_uuid (params j))
    /\ params_jobid (params j2) = Some (job_uuid j)
    /\ params_owner_uuid (params j2) = params_owner_uuid (params j).
Proof.
  intros Hvm Hmeta Hprops Hcreated Hne Hm Hall.
  unfold buildNfsVolumesMetadata. rewrite Hvm, Hcreated, Hmeta.
  unfold deepCopy, alloc. rewrite Hprops. simpl.
  destruct created as [|c created]; [done|]. cbn [length Object_keys fmap list_fmap].
  change (Datatypes.S _ =? 0)%nat with false. cbv iota.
  rewrite push_nfsVolumesMetadata_entries, Hm. simpl default. rewrite Hall.
  simpl. set (l' := fresh (dom (objects w))).
  assert (objects w !! l' = None) as Hfresh by apply not_elem_of_dom, is_fresh.
  assert (l' <> l) as Hl by (intros ->; congruence).
  exists l'. eexists. split; [reflexivity|]. simpl.
  repeat split; try done.
  - by rewrite lookup_alter_eq, lookup_insert_eq.
  - by rewrite lookup_alter_ne, lookup_insert_ne.
Qed.
End reconciliation_more.


(** ** Properties of the wait for the metadata update *)

Section metadata_poll.
Context {S : Type} `{SdcClients S}.

Lemma strict_equal_string_spec (a : option json) (b : string) :
  strict_equal_string a b = true <-> a = Some (JStr b).
Proof.
  unfold strict_equal_string. destruct a as [[[]| |]|]; try (split; done).
  rewrite String.eqb_eq. split; [by intros ->|by intros [= ->]].
Qed.

(** What the poll loop reads from a VM it has fetched. *)
Lemma getVm_current uuid owner (w : world S) (v : vm_wire) s' key :
  vmapi_getVm uuid owner (service w) = ((None, Some v), s') ->
  exists fetched w1,
    getVm uuid owner w = ((None, Some fetched), w1)
    /\ service w1 = s'
    /\ log w1 = log w ++ [Request (GetVm uuid owner); Reply (VmReply None (Some v))]
    /\ (if truthy_val (vm_internal_metadata fetched)
        then get_property (objects w1) (vm_internal_metadata fetched) key
        else None) = wire_get v key.
Proof.
  intros Hget. unfold getVm, receive_vm, wire_get, alloc. simpl.
  rewrite Hget. simpl.
  destruct (vm_internal_metadata v) as [|p|props]; simpl.
  - eexists _, _. split; [reflexivity|]. simpl. by rewrite <- app_assoc.
  - eexists _, _. split; [reflexivity|]. simpl. rewrite <- app_assoc.
    by destruct (truthy_primitive p).
  - eexists _, _. split; [reflexivity|]. simpl. rewrite <- app_assoc.
    by rewrite lookup_insert_eq.
Qed.

Lemma checkMetadataUpdated_differs fuel (v : vm) expected (w : world S) r s' :
  vmapi_getVm (vm_uuid v) (Some (vm_owner_uuid v)) (service w) = (r, s') ->
  differs expected r ->
  exists w1 tail,
    checkMetadataUpdated (Datatypes.S fuel) v expected w
    = checkMetadataUpdated fuel v expected w1
    /\ service w1 = s'
    /\ log w1 = log w ++ tail
    /\ actions tail
       = [Request (GetVm (vm_uuid v) (Some (vm_owner_uuid v))); SetTimeout 1000].
Proof.
  intros Hget (fetched & -> & Hdiff).
  destruct (getVm_current _ _ _ _ _ nfsvolumes Hget)
    as (f & w1 & Hg & Hs & Hlog & Hcur).
  simpl. rewrite Hg. rewrite Hcur.
  destruct (strict_equal_string (wire_get fetched nfsvolumes) expected) eqn:E.
  { by apply strict_equal_string_spec in E. }
  eexists _, _. split; [reflexivity|]. unfold setTimeout, emit. simpl.
  split; [done|]. rewrite Hlog, <- app_assoc. split; reflexivity.
Qed.

Lemma checkMetadataUpdated_shows fuel (v : vm) expected (w : world S) r s' :
  vmapi_getVm (vm_uuid v) (Some (vm_owner_uuid v)) (service w) = (r, s') ->
  shows expected r ->
  exists w1 tail,
    checkMetadataUpdated (Datatypes.S fuel) v expected w
    = ([Cb (None, Some "NFS volumes metadata updated successfully")], w1)
    /\ log w1 = log w ++ tail
    /\ actions tail = [Request (GetVm (vm_uuid v) (Some (vm_owner_uuid v)))].
Proof.
  intros Hget (fetched & -> & Hshow).
  destruct (getVm_current _ _ _ _ _ nfsvolumes Hget)
    as (f & w1 & Hg & Hs & Hlog & Hcur).
  simpl. rewrite Hg. rewrite Hcur, Hshow. simpl. rewrite String.eqb_refl.
  by eexists _, _.
Qed.

Lemma checkMetadataUpdated_error fuel (v : vm) expected (w : world S) e x s' :
  vmapi_getVm (vm_uuid v) (Some (vm_owner_uuid v)) (service w) = ((Some e, x), s') ->
  exists w1 tail,
    checkMetadataUpdated (Datatypes.S fuel) v expected w
    = ([Cb (Some (new_Error ("Error when getting VM: " +:+ err_toString e)), None)],
       w1)
    /\ log w1 = log w ++ tail
    /\ actions tail = [Request (GetVm (vm_uuid v) (Some (vm_owner_uuid v)))].
Proof.
  intros Hget. simpl. unfold getVm. simpl. rewrite Hget. simpl.
  destruct x as [x|].
  - destruct (receive_vm x _) as [f w1] eqn:Hrecv. simpl.
    eexists _, _. split; [reflexivity|].
    assert (log w1 = log w ++ [Request (GetVm (vm_uuid v) (Some (vm_owner_uuid v)));
                               Reply (VmReply (Some e) (Some x))]) as ->.
    { unfold receive_vm, alloc in Hrecv.
      destruct (vm_internal_metadata x); injection Hrecv as <- <-; simpl;
        by rewrite <- app_assoc. }
    done.
  - eexists _, _. split; [reflexivity|]. simpl. by rewrite <- app_assoc.
Qed.

(** While the VM shows another value the loop goes round. *)
Lemma checkMetadataUpdated_rounds (v : vm) expected n : forall w : world S,
  (forall k, k < n ->
     differs expected
       (nth_getVm (vm_uuid v) (Some (vm_owner_uuid v)) k (service w)).1) ->
  exists w' tail,
    (forall fuel, checkMetadataUpdated (n + fuel) v expected w
                  = checkMetadataUpdated fuel v expected w')
    /\ log w' = log w ++ tail
    /\ actions tail = vm_rounds (vm_uuid v) (vm_owner_uuid v) n
    /\ (forall k, nth_getVm (vm_uuid v) (Some (vm_owner_uuid v)) k (service w')
                  = nth_getVm (vm_uuid v) (Some (vm_owner_uuid v)) (n + k)
                      (service w)).
Proof.
  induction n as [|n IH]; intros w Hdiff.
  - exists w, []. repeat split; try done. by rewrite app_nil_r.
  - destruct (vmapi_getVm (vm_uuid v) (Some (vm_owner_uuid v)) (service w))
      as [r s'] eqn:Hget.
    assert (differs expected r) as Hr.
    { specialize (Hdiff 0 ltac:(lia)). simpl in Hdiff. by rewrite Hget in Hdiff. }
    destruct Hr as (fetched & -> & Hne).
    destruct (getVm_current _ _ _ _ _ nfsvolumes Hget)
      as (f & w1 & Hg & Hs & Hlog & Hcur).
    destruct (IH (setTimeout 1000 w1)) as (w' & tail & Hrun & Hlog' & Hact & Hnth).
    { intros k Hk. specialize (Hdiff (Datatypes.S k) ltac:(lia)).
      simpl in Hdiff. rewrite Hget in Hdiff. simpl in *. by rewrite Hs. }
    exists w',
      ([Request (GetVm (vm_uuid v) (Some (vm_owner_uuid v)));
        Reply (VmReply None (Some fetched)); SetTimeout 1000] ++ tail).
    split; [|split; [|split]].
    + intros fuel. rewrite <- Hrun. cbn [Nat.add checkMetadataUpdated].
      rewrite Hg, Hcur.
      destruct (strict_equal_string (wire_get fetched nfsvolumes) expected) eqn:E;
        [by apply strict_equal_string_spec in E|done].
    + rewrite Hlog'. unfold setTimeout, emit. simpl. rewrite Hlog.
      rewrite <- !app_assoc. reflexivity.
    + rewrite actions_app, Hact. reflexivity.
    + intros k. rewrite Hnth. simpl. rewrite Hs. by rewrite Hget.
Qed.

(** X11: with the expected string in
    [job.stringifiedRequiredNfsVolumesMetadata] and volumes created, when
    the first [n] fetches show a VM whose [docker:nfsvolumes] is not that
    string and the next one shows a VM where it is, the task reports
    success after exactly [n + 1] fetches, with one second of waiting after
    each of the first [n], and not earlier. When the fetch after the first
    [n] fails instead, the task reports ["Error when getting VM: "]
    followed by that error, and fetches no more. *)
Theorem waitForNfsVolumesMetadataUpdated_converges
    (j : job) (w : world S) (v : vm) expected created (n : nat) :
  job_vm j = Some v ->
  stringifiedRequiredNfsVolumesMetadata j = Some (JStr expected) ->
  createdVolumes j = Some created -> created <> [] ->
  (forall k, k < n ->
     differs expected
       (nth_getVm (vm_uuid v) (Some (vm_owner_uuid v)) k (service w)).1) ->
  (forall fuel, fuel <= n -> (waitForNfsVolumesMetadataUpdated fuel j w).1 = [])
  /\ (forall extra,
        shows expected
          (nth_getVm (vm_uuid v) (Some (vm_owner_uuid v)) n (service w)).1 ->
        exists w' tail,
          waitForNfsVolumesMetadataUpdated (Datatypes.S n + extra) j w
          = ([Cb (None, Some "NFS volumes metadata updated successfully")], w')
          /\ log w' = log w ++ tail
          /\ actions tail
             = vm_rounds (vm_uuid v) (vm_owner_uuid v) n
               ++ [Request (GetVm (vm_uuid v) (Some (vm_owner_uuid v)))])
  /\ (forall e x extra,
        (nth_getVm (vm_uuid v) (Some (vm_owner_uuid v)) n (service w)).1
        = (Some e, x) ->
        exists w' tail,
          waitForNfsVolumesMetadataUpdated (Datatypes.S n + extra) j w
          = ([Cb (Some (new_Error ("Error when getting VM: " +:+ err_toString e)),
                  None)], w')
          /\ log w' = log w ++ tail
          /\ actions tail
             = vm_rounds (vm_uuid v) (vm_owner_uuid v) n
               ++ [Request (GetVm (vm_uuid v) (Some (vm_owner_uuid v)))]).
Proof.
  intros Hvm Hexpected Hcreated Hne Hdiff.
  assert (forall fuel, waitForNfsVolumesMetadataUpdated fuel j w
                       = checkMetadataUpdated fuel v expected w) as Hwait.
  { intros fuel. unfold waitForNfsVolumesMetadataUpdated.
    rewrite Hvm, Hexpected, Hcreated. by destruct created. }
  split; [|split].
  - intros fuel Hfuel. rewrite Hwait.
    destruct (checkMetadataUpdated_rounds v expected fuel w) as (w' & tail & Hrun & _).
    { intros k Hk. apply Hdiff. lia. }
    specialize (Hrun 0). rewrite Nat.add_0_r in Hrun. by rewrite Hrun.
  - intros extra Hshow. rewrite Hwait.
    destruct (checkMetadataUpdated_rounds v expected n w Hdiff)
      as (w' & tail & Hrun & Hlog & Hact & Hshift).
    specialize (Hshift 0). rewrite Nat.add_0_r in Hshift. simpl in Hshift.
    destruct (vmapi_getVm (vm_uuid v) (Some (vm_owner_uuid v)) (service w'))
      as [r s'] eqn:Hget.
    rewrite <- Hshift in Hshow. simpl in Hshow.
    destruct (checkMetadataUpdated_shows extra v expected w' r s' Hget Hshow)
      as (w1 & tail1 & Hend & Hlog1 & Hact1).
    exists w1, (tail ++ tail1). split; [|split].
    + replace (Datatypes.S n + extra) with (n + Datatypes.S extra) by lia.
      by rewrite Hrun.
    + by rewrite Hlog1, Hlog, <- app_assoc.
    + by rewrite actions_app, Hact, Hact1.
  - intros e x extra Hnth. rewrite Hwait.
    destruct (checkMetadataUpdated_rounds v expected n w Hdiff)
      as (w' & tail & Hrun & Hlog & Hact & Hshift).
    specialize (Hshift 0). rewrite Nat.add_0_r in Hshift. simpl in Hshift.
    destruct (vmapi_getVm (vm_uuid v) (Some (vm_owner_uuid v)) (service w'))
      as [r s'] eqn:Hget.
    rewrite <- Hshift in Hnth. simpl in Hnth. subst r.
    destruct (checkMetadataUpdated_error extra v expected w' e x s' Hget)
      as (w1 & tail1 & Hend & Hlog1 & Hact1).
    exists w1, (tail ++ tail1). split; [|split].
    + replace (Datatypes.S n + extra) with (n + Datatypes.S extra) by lia.
      by rewrite Hrun.
    + by rewrite Hlog1, Hlog, <- app_assoc.
    + by rewrite actions_app, Hact, Hact1.
Qed.

(** X12: while every fetch shows a VM whose [docker:nfsvolumes] is not
    exactly the expected string, be it absent, of another type or another
    serialization of the same entries, the task never calls back: after any
    number of fetches it has set a timer of one second after each. *)
Theorem waitForNfsVolumesMetadataUpdated_never_completes
    (j : job) (w : world S) (v : vm) expected created :
  job_vm j = Some v ->
  stringifiedRequiredNfsVolumesMetadata j = Some (JStr expected) ->
  createdVolumes j = Some created -> created <> [] ->
  (forall k,
     differs expected
       (nth_getVm (vm_uuid v) (Some (vm_owner_uuid v)) k (service w)).1) ->
  forall fuel, exists w' tail,
    waitForNfsVolumesMetadataUpdated fuel j w = ([], w')
    /\ log w' = log w ++ tail
    /\ actions tail = vm_rounds (vm_uuid v) (vm_owner_uuid v) fuel.
Proof.
  intros Hvm Hexpected Hcreated Hne Hdiff fuel.
  unfold waitForNfsVolumesMetadataUpdated. rewrite Hvm, Hexpected, Hcreated.
  destruct created as [|c created]; [done|]. simpl.
  destruct (checkMetadataUpdated_rounds v expected fuel w)
    as (w' & tail & Hrun & Hlog & Hact & _).
  { intros k _. apply Hdiff. }
  exists w', tail. specialize (Hrun 0). rewrite Nat.add_0_r in Hrun.
  by rewrite Hrun.
Qed.
End metadata_poll.


(** ** The further properties on concrete runs *)

Section runs_more.
Import Scenario Cases.
Existing Instance Json.builtins.
Existing Instance Sim.clients.

(** A service state that a fetch of the VM leaves as it is answers every
    fetch in a row alike. *)
Lemma nth_getVm_fixed uuid owner (s : Sim.state) r k :
  Sim.sim_getVm uuid owner s = (r, s) -> nth_getVm uuid owner k s = (r, s).
Proof.
  intros Hfix. induction k as [|k IH]; simpl; [done|]. by rewrite Hfix.
Qed.


(** A VM served without [internal_metadata]. *)
Lemma provisionNfsVolumes_unusable_vm_run :
  exists j' w',
    provisionNfsVolumes start_job (Sim.boot (services bare_vm [] 2))
    = Some ([Cb (Some (new_Error
               ("Could not provision volumes, reason: Error: "
                +:+ "internal_metadata property missing from VM object")),
             None)], j', w')
    /\ (Some bare_vm = None -> j' = start_job)
    /\ (is_Some (Some bare_vm) -> is_Some (job_vm j'))
    /\ createdVolumes j' = createdVolumes start_job
    /\ mapRequiredNfsVolumes j' = mapRequiredNfsVolumes start_job
    /\ volapi_requests w' = volapi_requests (Sim.boot (services bare_vm [] 2)).
Proof.
  apply (provisionNfsVolumes_unusable_vm start_job
           (Sim.boot (services bare_vm [] 2)) None (Some bare_vm)
           (services bare_vm [] 2)).
  - reflexivity.
  - intros v0 props [= <-]. discriminate.
Defined.



(** Two required volumes: [data] is created before [logs]. *)
Lemma provisionRequiredNfsVolumes_creations_run :
  exists calls ctx' w',
    provisionRequiredNfsVolumes loaded_job
      {| ctx_mapRequiredNfsVolumes :=
           Some [("data", data_descriptor); ("logs", logs_descriptor)];
         ctx_createdVolumes := None |}
      (Sim.boot (services (vm_with ∅) [] 2))
    = Some (calls, ctx', w')
    /\ exists tail,
         log w' = [] ++ tail
         /\ List.filter is_creation (requests tail)
            = map (creation_of loaded_job (loaded_vm 1%positive)) ["data"; "logs"].
Proof.
  eexists _, _, _. split; [reflexivity|].
  eapply (provisionRequiredNfsVolumes_creations loaded_job
            {| ctx_mapRequiredNfsVolumes :=
                 Some [("data", data_descriptor); ("logs", logs_descriptor)];
               ctx_createdVolumes := None |}
            _ (Sim.boot (services (vm_with ∅) [] 2)) _ (loaded_vm 1%positive)
            [("data", data_descriptor); ("logs", logs_descriptor)]);
    reflexivity.
Defined.

(** The whole task for a VM that requires [data] and [logs]. *)
Lemma provisionNfsVolumes_createdVolumes_run :
  exists calls j' w',
    provisionNfsVolumes start_job
      (Sim.boot (services (vm_with {[ nfs_volumes_required := JStr requires_two ]})
                   [] 2))
    = Some (calls, j', w')
    /\ (forall msg, calls = [Cb (None, Some msg)] ->
          exists created,
            createdVolumes j' = Some created /\ keyed_by_uuid created)
    /\ ((forall msg, calls <> [Cb (None, Some msg)]) ->
        createdVolumes j' = createdVolumes start_job).
Proof.
  eexists _, _, _. split; [vm_compute; reflexivity|].
  eapply (provisionNfsVolumes_createdVolumes start_job _
            (Sim.boot (services
                         (vm_with {[ nfs_volumes_required := JStr requires_two ]})
                         [] 2))).
  vm_compute. reflexivity.
Defined.

(** The ready volume [data]: one entry. *)
Lemma buildNfsVolumesMetadata_entries_run :
  exists l' w',
    buildNfsVolumesMetadata (provisioned_job [("volume-0", ready_data)])
      (loaded_world metadata_before (services (vm_with metadata_before) [] 2))
    = ([Cb (None, Some ("Built docker:nfsvolumes internal_metadata:"
                         +:+ JSON_stringify
                               (JArr (map (nfs_entry [("data", data_descriptor)])
                                        [ready_data]))))],
       set_updatedVmInternalMetadata (VRef l')
         (provisioned_job [("volume-0", ready_data)]), w')
    /\ objects w' !! l'
       = Some (<[nfsvolumes :=
                   JStr (JSON_stringify
                           (JArr (map (nfs_entry [("data", data_descriptor)])
                                    [ready_data])))]> metadata_before)
    /\ log w' = [].
Proof.
  apply (buildNfsVolumesMetadata_entries
           (provisioned_job [("volume-0", ready_data)])
           (loaded_world metadata_before (services (vm_with metadata_before) [] 2))
           (loaded_vm 1%positive) 1%positive metadata_before
           [("volume-0", ready_data)] [("data", data_descriptor)]);
    try reflexivity. discriminate.
Defined.


(** The request set up after the update for the ready volume [data]. *)
Lemma setupUpdateVmNfsVolumesMetadataRequest_after_build_run :
  exists l' j2,
    setupUpdateVmNfsVolumesMetadataRequest
      (buildNfsVolumesMetadata (provisioned_job [("volume-0", ready_data)])
         (loaded_world metadata_before
            (services (vm_with metadata_before) [] 2))).1.2
    = ([Cb (None, Some "Request has been setup!")], j2)
    /\ params_payload (params j2) = Some (VRef l')
    /\ updatedVmInternalMetadata j2 = VRef l'
    /\ l' <> 1%positive
    /\ objects (buildNfsVolumesMetadata (provisioned_job [("volume-0", ready_data)])
                  (loaded_world metadata_before
                     (services (vm_with metadata_before) [] 2))).2 !! l'
       = Some (<[nfsvolumes :=
                   JStr (JSON_stringify
                           (JArr (map (nfs_entry [("data", data_descriptor)])
                                    [ready_data])))]> metadata_before)
    /\ objects (buildNfsVolumesMetadata (provisioned_job [("volume-0", ready_data)])
                  (loaded_world metadata_before
                     (services (vm_with metadata_before) [] 2))).2 !! 1%positive
       = Some metadata_before
    /\ endpoint j2 = Some ("/servers/" +:+ "server-1" +:+ "/vms/" +:+ "vm-1"
                           +:+ "/update")
    /\ requestMethod j2 = Some "post" /\ action j2 = Some "update"
    /\ server_uuid j2 = Some "server-1"
    /\ params_jobid (params j2) = Some "job-1"
    /\ params_owner_uuid (params j2) = "owner-1".
Proof.
  apply (setupUpdateVmNfsVolumesMetadataRequest_after_build
           (provisioned_job [("volume-0", ready_data)])
           (loaded_world metadata_before (services (vm_with metadata_before) [] 2))
           (loaded_vm 1%positive) 1%positive metadata_before
           [("volume-0", ready_data)] [("data", data_descriptor)]);
    try reflexivity. discriminate.
Defined.

(** A VM that never shows the update: after four fetches the loop is still
    going. *)
Lemma waitForNfsVolumesMetadataUpdated_never_completes_run :
  exists w' tail,
    waitForNfsVolumesMetadataUpdated 4 updating_job
      (Sim.boot (services (vm_with metadata_before) [] 2))
    = ([], w')
    /\ log w' = [] ++ tail
    /\ actions tail = vm_rounds "vm-1" "owner-1" 4.
Proof.
  apply (waitForNfsVolumesMetadataUpdated_never_completes updating_job
           (Sim.boot (services (vm_with metadata_before) [] 2))
           (loaded_vm 1%positive) nfsvolumes_data [("volume-0", ready_data)]);
    try reflexivity; [discriminate|].
  intros k.
  change (differs nfsvolumes_data
    (nth_getVm "vm-1" (Some "owner-1") k
       (services (vm_with metadata_before) [] 2)).1).
  rewrite (nth_getVm_fixed "vm-1" (Some "owner-1")
             (services (vm_with metadata_before) [] 2)
             (None, Some (vm_with metadata_before)) k eq_refl).
  exists (vm_with metadata_before). split; [reflexivity|]. vm_compute. discriminate.
Defined.
End runs_more.

(** The update lands at the third fetch of the VM. *)
Section runs_updating.
Import Scenario Cases.
Existing Instance Json.builtins.
Existing Instance Updating.clients.

Lemma waitForNfsVolumesMetadataUpdated_converges_run :
  (forall fuel, fuel <= 2 ->
     (waitForNfsVolumesMetadataUpdated fuel updating_job
        (Updating.boot late_update)).1 = [])
  /\ exists w' tail,
       waitForNfsVolumesMetadataUpdated 3 updating_job (Updating.boot late_update)
       = ([Cb (None, Some "NFS volumes metadata updated successfully")], w')
       /\ log w' = [] ++ tail
       /\ actions tail
          = vm_rounds "vm-1" "owner-1" 2 ++ [Request (GetVm "vm-1" (Some "owner-1"))].
Proof.
  assert (forall k, k < 2 ->
    differs nfsvolumes_data
      (nth_getVm "vm-1" (Some "owner-1") k late_update).1) as Hdiffers.
  { intros [|[|k]] Hk; [| |lia];
      (exists (vm_with metadata_before); split; [reflexivity|];
       vm_compute; discriminate). }
  destruct (waitForNfsVolumesMetadataUpdated_converges updating_job
              (Updating.boot late_update) (loaded_vm 1%positive) nfsvolumes_data
              [("volume-0", ready_data)] 2 eq_refl eq_refl eq_refl
              ltac:(discriminate) Hdiffers) as (Hearly & Hshown & _).
  split; [exact Hearly|].
  apply (Hshown 0). exists (vm_with metadata_after). split; [reflexivity|].
  vm_compute. reflexivity.
Defined.
End runs_updating.


(** ** Properties of the VMAPI application *)

Section application.
Import VmapiApp.

Lemma responseIndicatesSuccess_range (statusCode : Z) :
  responseIndicatesSuccess statusCode = true <-> (200 <= statusCode <= 299)%Z.
Proof.
  unfold responseIndicatesSuccess. rewrite Z.eqb_eq. split.
  - intros Hdiv.
    pose proof (Z.div_mod statusCode 100 ltac:(lia)) as Heq.
    pose proof (Z.mod_pos_bound statusCode 100 ltac:(lia)). lia.
  - intros Hrange. symmetry. apply (Z.div_unique statusCode 100 2 (statusCode - 200)); lia.
Qed.

(** X13: for a request to another path than [/ping], the ['after'] handler
    writes an audit record, under the name of the route. The record leaves
    the body of the response out exactly when the status code is between
    200 and 299 and the request is a [GET], a [HEAD], or one of the route
    [putvms]: the body of every failed request is logged. A request to
    [/ping] is not audited. *)
Theorem onAfter_body (path method : string) (statusCode : Z) (rt : option route) :
  path <> "/ping" ->
  onAfter "/ping" method statusCode rt = None
  /\ exists a,
       onAfter path method statusCode rt = Some a
       /\ audit_route a = route_name <$> rt
       /\ (audit_body a = false
           <-> (200 <= statusCode <= 299)%Z
               /\ (method = "GET" \/ method = "HEAD"
                   \/ route_name <$> rt = Some "putvms")).
Proof.
  intros Hpath. split; [done|]. unfold onAfter.
  apply String.eqb_neq in Hpath. rewrite Hpath.
  eexists. split; [reflexivity|]. split; [done|]. simpl.
  destruct (responseIndicatesSuccess statusCode) eqn:Hok.
  - apply responseIndicatesSuccess_range in Hok.
    destruct (String.eqb method "GET") eqn:Hget; simpl.
    { apply String.eqb_eq in Hget. by intuition. }
    destruct (String.eqb method "HEAD") eqn:Hhead; simpl.
    { apply String.eqb_eq in Hhead. by intuition. }
    apply String.eqb_neq in Hget, Hhead.
    destruct rt as [[name]|]; simpl.
    + destruct (String.eqb name "putvms") eqn:Hput.
      * apply String.eqb_eq in Hput. subst name. by intuition.
      * apply String.eqb_neq in Hput. split; [done|].
        intros [_ [?|[?|[= ?]]]]; done.
    + split; [done|]. intros [_ [?|[?|[=]]]]; done.
  - split; [done|]. intros [Hrange _].
    apply responseIndicatesSuccess_range in Hrange. congruence.
Qed.

Lemma trace_traced (r : req) (c : Z) :
  trace r c
  = if traced r
    then (Some (req_time r * 1000 + Z.rem (c + 1) 1000)%Z, Z.rem (c + 1) 1000)
    else (None, c).
Proof.
  unfold trace, traced. destruct (req_route r) as [rt|]; [|done].
  by destruct (skipped (route_name rt)).
Qed.

Lemma traced_before_S (reqs : list req) (k : nat) (r : req) :
  reqs !! k = Some r ->
  traced_before reqs (Datatypes.S k)
  = traced_before reqs k + (if traced r then 1 else 0).
Proof.
  intros Hk. unfold traced_before. rewrite (take_S_r _ _ _ Hk).
  rewrite List.filter_app, length_app. simpl. by destruct (traced r).
Qed.

Lemma traced_before_mono (reqs : list req) (i j : nat) :
  i <= j ->
  traced_before reqs i <= traced_before reqs j
  /\ traced_before reqs j <= traced_before reqs i + (j - i).
Proof.
  induction 1 as [|j Hle IH]; [lia|].
  destruct (reqs !! j) as [r|] eqn:Hj.
  - rewrite (traced_before_S _ _ _ Hj). destruct (traced r); lia.
  - apply lookup_ge_None in Hj. unfold traced_before in *.
    rewrite (take_ge reqs (Datatypes.S j)) by lia.
    rewrite (take_ge reqs j) in IH by lia. lia.
Qed.

(** The sequence number of the request at index [i], from the counter [c]
    the server starts with. *)
Lemma serve_lookup (reqs : list req) : forall (c : Z) (i : nat) (a : Z),
  (0 <= c < 1000)%Z ->
  serve reqs c !! i = Some (Some a) ->
  exists r,
    reqs !! i = Some r /\ traced r = true
    /\ a = (req_time r * 1000
            + (c + Z.of_nat (traced_before reqs (Datatypes.S i))) mod 1000)%Z.
Proof.
  induction reqs as [|r reqs IH]; intros c i a Hc; [done|].
  simpl. rewrite trace_traced.
  assert (Z.rem (c + 1) 1000 = (c + 1) mod 1000)%Z as Hrem
    by (apply Z.rem_mod_nonneg; lia).
  pose proof (Z.mod_pos_bound (c + 1) 1000 ltac:(lia)) as Hbound.
  destruct i as [|i].
  - destruct (traced r) eqn:Htraced; simpl; [|done]. intros [= <-].
    exists r. split; [done|]. split; [done|].
    unfold traced_before. simpl. rewrite Htraced. simpl. by rewrite Hrem.
  - destruct (traced r) eqn:Htraced; simpl; intros Hi.
    + rewrite Hrem in Hi.
      destruct (IH ((c + 1) mod 1000)%Z i a Hbound Hi) as (ri & Hri & Hti & ->).
      exists ri. split; [done|]. split; [done|]. f_equal.
      unfold traced_before. cbn [take List.filter]. rewrite Htraced.
      cbn [length]. rewrite Zplus_mod_idemp_l. f_equal. lia.
    + destruct (IH _ i a Hc Hi) as (ri & Hri & Hti & ->).
      exists ri. split; [done|]. split; [done|]. f_equal.
      unfold traced_before. cbn [take List.filter]. by rewrite Htraced.
Qed.

(** X14: on a server that starts with [request_seq_id] at 0, two requests
    that get the same [req.trace.seq_id] arrived in the same millisecond
    and at least 1000 requests apart. *)
Theorem serve_seq_id_reuse (reqs : list req) (i j : nat) (a : Z) :
  i < j ->
  serve reqs 0 !! i = Some (Some a) ->
  serve reqs 0 !! j = Some (Some a) ->
  1000 <= j - i
  /\ exists ri rj,
       reqs !! i = Some ri /\ reqs !! j = Some rj /\ req_time ri = req_time rj.
Proof.
  intros Hij Hi Hj.
  destruct (serve_lookup reqs 0 i a ltac:(lia) Hi) as (ri & Hri & Hti & Hai).
  destruct (serve_lookup reqs 0 j a ltac:(lia) Hj) as (rj & Hrj & Htj & Haj).
  pose proof (traced_before_S _ _ _ Hrj) as Hstep. rewrite Htj in Hstep.
  pose proof (traced_before_mono reqs (Datatypes.S i) j ltac:(lia)) as [Hlo Hhi].
  set (ni := traced_before reqs (Datatypes.S i)) in *.
  set (nj := traced_before reqs (Datatypes.S j)) in *.
  pose proof (Z.mod_pos_bound (0 + Z.of_nat ni) 1000 ltac:(lia)) as Hbi.
  pose proof (Z.mod_pos_bound (0 + Z.of_nat nj) 1000 ltac:(lia)) as Hbj.
  pose proof (Z.div_mod (0 + Z.of_nat ni) 1000 ltac:(lia)) as Hdi.
  pose proof (Z.div_mod (0 + Z.of_nat nj) 1000 ltac:(lia)) as Hdj.
  split; [lia|]. exists ri, rj. split; [done|]. split; [done|]. lia.
Qed.

Section formatJSON_facts.
Context `{JSON} `{Crypto}.

(** X15: on the same response and body, [formatJSON] leaves for a [HEAD]
    request the status code and the headers it leaves for a request of
    another method, and passes the empty string to its callback.
    [Content-Length] is the length in bytes of the text that the other
    method is sent, [Content-MD5] the digest of that text. *)
Theorem formatJSON_head (method : string) (res : response) (b : body) :
  method <> "HEAD" ->
  (forall exn, (formatJSON method res b).1 = Throw exn ->
     formatJSON "HEAD" res b = formatJSON method res b)
  /\ (forall data, (formatJSON method res b).1 = Cb data ->
        formatJSON "HEAD" res b = (Cb EmptyString, (formatJSON method res b).2)
        /\ res_headers (formatJSON method res b).2 !! "content-length"
           = Some (PNum (Z.of_nat (String.length data)))
        /\ res_headers (formatJSON method res b).2 !! "content-md5"
           = Some (PStr (md5_base64 data))
        /\ res_headers (formatJSON method res b).2 !! "content-type"
           = Some (PStr "application/json")).
Proof.
  intros Hmethod. apply String.eqb_neq in Hmethod.
  unfold formatJSON. rewrite Hmethod.
  set (shaped := match b with
                 | BodyError _ _ _ => _
                 | BodyBuffer _ => _
                 | BodyValue _ => _
                 end).
  destruct shaped as [res1 [value|]]; simpl.
  - split; [done|]. intros data [= <-]. split; [done|].
    unfold setHeader. simpl. repeat split.
    + rewrite lookup_insert_ne by done. rewrite lookup_insert_ne by done.
      by rewrite lookup_insert_eq.
    + rewrite lookup_insert_ne by done. by rewrite lookup_insert_eq.
    + by rewrite lookup_insert_eq.
  - split; [done|]. by intros data [=].
Qed.
End formatJSON_facts.
End application.

(** ** Properties of the backfill of [image_uuid] *)

Section backfill.
Import KvmBackfill.
Context `{JSON} {M : Type} `{Moray M}.

(** X16: [processVm] writes a VM back only if its [image_uuid] was falsy
    and its first disk, parsed if need be, has a truthy [image_uuid]. The
    VM written is filed under [vm.uuid] and differs from the VM read in
    [image_uuid] only, which is that of the first disk; [processVm] on the
    VM written counts it as already processed. *)
Theorem processVm_backfills (vm : vmobj) (uuid : option json) (vm' : vmobj) :
  processVm vm = PutVm uuid vm' ->
  truthy (js_get vm "image_uuid") = false
  /\ uuid = js_get vm "uuid"
  /\ (exists disks image,
        disks_of vm = Some disks
        /\ first_disk disks ≫= (fun d => json_get d "image_uuid") = Some image
        /\ truthy (Some image) = true
        /\ vm' = js_set vm "image_uuid" image)
  /\ (forall key, key <> "image_uuid" -> js_get vm' key = js_get vm key)
  /\ processVm vm' = AlreadyProcessed.
Proof.
  unfold processVm, disks_of.
  destruct (truthy (js_get vm "image_uuid")) eqn:Hold; [done|].
  set (parsed := match js_get vm "disks" with
                 | Some (JPrim (PStr text)) => _
                 | _ => _
                 end).
  assert (forall disks, parsed = Some disks ->
            match js_get vm "disks" with
            | Some (JPrim (PStr text)) => JSON_parse text
            | disks => disks
            end = disks) as Hparsed.
  { subst parsed. intros disks.
    destruct (js_get vm "disks") as [[[| | |text]| |]|]; try by intros [= <-].
    destruct (JSON_parse text); by intros [= <-]. }
  destruct parsed as [disks|]; [|done]. specialize (Hparsed disks eq_refl).
  destruct (truthy disks) eqn:Hdisks; [|by destruct (truthy None)].
  destruct disks as [disks|]; [|done]. cbn [mbind option_bind].
  destruct (truthy (first_disk disks)) eqn:Hdisk; [|done].
  destruct (first_disk disks) as [disk|] eqn:Hfirst; [|done].
  cbn [mbind option_bind].
  destruct (json_get disk "image_uuid") as [image|] eqn:Himage; [|done].
  destruct (truthy (Some image)) eqn:Htruthy; [|done].
  intros [= <- <-].
  split; [done|]. split; [by rewrite js_get_set_ne|].
  split; [exists disks, image; by rewrite Hfirst|].
  split; [intros key Hkey; by rewrite js_get_set_ne|].
  by rewrite js_get_set_eq, Htruthy.
Qed.

(** What a step of the loop over the page does to the counters. *)
Lemma visit_effect (x : script M * page) (vm : vmobj) :
  limit (visit x vm).2 = limit x.2
  /\ totalNbKvmVms (visit x vm).1 = totalNbKvmVms x.1
  /\ match put_of vm with
     | Some put =>
         written (visit x vm).1 = written x.1 ++ [put]
         /\ done (visit x vm).2 = done x.2
         /\ nbProcessedVms (visit x vm).1 = nbProcessedVms x.1
         /\ length (in_flight (visit x vm).2)
            = Datatypes.S (length (in_flight x.2))
     | None =>
         written (visit x vm).1 = written x.1
         /\ done (visit x vm).2 = (done x.2 + 1)%Z
         /\ nbProcessedVms (visit x vm).1 = (nbProcessedVms x.1 + 1)%Z
         /\ in_flight (visit x vm).2 = in_flight x.2
     end.
Proof.
  unfold visit, put_of. destruct (processVm vm) as [| |uuid vm'|]; try done.
  destruct (putVm uuid vm' (moray x.1)) as [perr m]. simpl.
  rewrite length_app. simpl. repeat split; try done. lia.
Qed.

Lemma fold_visit (vms : list vmobj) : forall x : script M * page,
  exists k,
    k <= length vms
    /\ length (omap put_of vms) = length vms - k
    /\ done (fold_left visit vms x).2 = (done x.2 + Z.of_nat k)%Z
    /\ nbProcessedVms (fold_left visit vms x).1
       = (nbProcessedVms x.1 + Z.of_nat k)%Z
    /\ length (in_flight (fold_left visit vms x).2)
       = length (in_flight x.2) + length (omap put_of vms)
    /\ written (fold_left visit vms x).1 = written x.1 ++ omap put_of vms
    /\ limit (fold_left visit vms x).2 = limit x.2
    /\ totalNbKvmVms (fold_left visit vms x).1 = totalNbKvmVms x.1.
Proof.
  induction vms as [|vm vms IH]; intros x.
  - exists 0. simpl. rewrite app_nil_r. repeat split; lia.
  - cbn [fold_left omap list_omap].
    destruct (IH (visit x vm))
      as (k & Hk & Hputs & Hdone & Hnb & Hfl & Hw & Hl & Ht).
    destruct (visit_effect x vm) as (Hl1 & Ht1 & Hstep).
    rewrite Hdone, Hnb, Hfl, Hw, Hl, Ht, Hl1, Ht1.
    destruct (put_of vm) as [put|].
    + destruct Hstep as (-> & -> & -> & ->). exists k.
      cbn [length]. rewrite <- app_assoc. repeat split; try done; lia.
    + destruct Hstep as (-> & -> & -> & ->). exists (Datatypes.S k).
      cbn [length]. repeat split; try done; lia.
Qed.

(** What the callbacks of [n] writes do. *)
Lemma iter_arrive (n : nat) : forall x : script M * page,
  let k := n `min` length (in_flight x.2) in
  done (Nat.iter n arrive x).2 = (done x.2 + Z.of_nat k)%Z
  /\ nbProcessedVms (Nat.iter n arrive x).1 = (nbProcessedVms x.1 + Z.of_nat k)%Z
  /\ length (in_flight (Nat.iter n arrive x).2) = length (in_flight x.2) - k
  /\ written (Nat.iter n arrive x).1 = written x.1
  /\ limit (Nat.iter n arrive x).2 = limit x.2
  /\ totalNbKvmVms (Nat.iter n arrive x).1 = totalNbKvmVms x.1.
Proof.
  induction n as [|n IH]; intros x; cbn zeta.
  - cbn [Nat.iter nat_rect]. repeat split; lia.
  - destruct (IH x) as (Hdone & Hnb & Hfl & Hw & Hl & Ht).
    change (Nat.iter (Datatypes.S n) arrive x)
      with (arrive (Nat.iter n arrive x)).
    set (y := Nat.iter n arrive x) in *. unfold arrive.
    destruct (in_flight y.2) as [|perr rest] eqn:Hrest.
    + rewrite Hdone, Hnb, Hw, Hl, Ht, Hrest. cbn [length] in *.
      repeat split; try done; try lia; f_equal; lia.
    + cbn [count_vm fst snd done nbProcessedVms in_flight written limit
           totalNbKvmVms length] in *.
      rewrite Hdone, Hnb, Hw, Hl, Ht.
      repeat split; try done; try lia; f_equal; lia.
Qed.

(** While writes are in flight for which no callback is scheduled, and
    once all callbacks have run. *)
Lemma wait_in_flight (arrivals : list nat) : forall x : script M * page,
  (done x.2 + Z.of_nat (length (in_flight x.2)) = limit x.2)%Z ->
  (sum_list arrivals < length (in_flight x.2) ->
   exists st' p, wait arrivals x = Waiting st' p)
  /\ (length (in_flight x.2) <= sum_list arrivals ->
      exists st' p,
        wait arrivals x = Called None st' p
        /\ nbProcessedVms st'
           = (nbProcessedVms x.1 + Z.of_nat (length (in_flight x.2)))%Z
        /\ in_flight p = []
        /\ written st' = written x.1
        /\ totalNbKvmVms st' = totalNbKvmVms x.1).
Proof.
  induction arrivals as [|n arrivals IH]; intros x Hinv.
  - simpl. split.
    + intros Hlt. assert ((done x.2 =? limit x.2)%Z = false) as -> by lia.
      by eexists _, _.
    + intros Hle. assert (in_flight x.2 = []) as Hnil
        by (destruct (in_flight x.2); [done|simpl in Hle; lia]).
      rewrite Hnil in *. simpl in *.
      assert ((done x.2 =? limit x.2)%Z = true) as -> by lia.
      eexists _, _. repeat split; try done. lia.
  - cbn [wait sum_list_with id].
    destruct (iter_arrive n x) as (Hdone & Hnb & Hfl & Hw & Hl & Ht).
    destruct (IH (Nat.iter n arrive x)) as [IHwait IHcall]; [lia|].
    split.
    + intros Hlt. assert ((done x.2 =? limit x.2)%Z = false) as -> by lia.
      apply IHwait. lia.
    + intros Hle. destruct (done x.2 =? limit x.2)%Z eqn:Heq.
      * assert (in_flight x.2 = []) as Hnil
          by (destruct (in_flight x.2); [done|simpl in Hinv; lia]).
        rewrite Hnil. eexists _, _. repeat split; try done. simpl. lia.
      * destruct IHcall as (st' & p & Hrun & Hnb' & Hnil & Hw' & Ht'); [lia|].
        exists st', p. rewrite Hrun, Hnb', Hnb, Hw', Hw, Ht', Ht.
        repeat split; try done. lia.
Qed.

Lemma wait_short (arrivals : list nat) : forall x : script M * page,
  (done x.2 + Z.of_nat (length (in_flight x.2)) < limit x.2)%Z ->
  exists st' p, wait arrivals x = Waiting st' p /\ written st' = written x.1.
Proof.
  induction arrivals as [|n arrivals IH]; intros x Hinv; simpl.
  - assert ((done x.2 =? limit x.2)%Z = false) as -> by lia. by eexists _, _.
  - assert ((done x.2 =? limit x.2)%Z = false) as -> by lia.
    destruct (iter_arrive n x) as (Hdone & Hnb & Hfl & Hw & Hl & Ht).
    destruct (IH (Nat.iter n arrive x)) as (st' & p & Hrun & Hw'); [lia|].
    exists st', p. by rewrite Hrun, Hw', Hw.
Qed.

(** X17: when the count and the page are fetched without error and the
    page holds as many VMs as the limit, or as the count if that is less,
    [processVms] calls [processCb] once the callbacks of all its writes
    have run, and not while one is outstanding. By then [nbProcessedVms]
    has grown by the size of the page, and [putVm] was called for the VMs
    that [processVm] backfills, in the order of the page. When this was the
    first page and the count is at most the limit, [processCb] ends the
    script. *)
Theorem processVms_page_completes
    (arrivals : list nat) (offset lim : Z) (st : script M)
    (count : Z) (vms : list vmobj) (m1 m2 : M) :
  countVms (moray st) = ((None, count), m1) ->
  listVms offset lim m1 = ((None, vms), m2) ->
  Z.of_nat (length vms) = (if (count <? lim)%Z then count else lim) ->
  (sum_list arrivals < length (omap put_of vms) ->
   exists st' p, processVms arrivals offset lim st = Waiting st' p)
  /\ (length (omap put_of vms) <= sum_list arrivals ->
      exists st' p,
        processVms arrivals offset lim st = Called None st' p
        /\ nbProcessedVms st' = (nbProcessedVms st + Z.of_nat (length vms))%Z
        /\ in_flight p = []
        /\ written st' = written st ++ omap put_of vms
        /\ (totalNbKvmVms st = 0%Z -> nbProcessedVms st = 0%Z ->
            (count <= lim)%Z ->
            forall VMS_LIMIT, processCb VMS_LIMIT st' = Done)).
Proof.
  intros Hcount Hlist Hsize. unfold processVms. rewrite Hcount, Hlist.
  set (x := (_, {| done := 0; limit := _; in_flight := [] |})).
  destruct (fold_visit vms x)
    as (k & Hk & Hputs & Hdone & Hnb & Hfl & Hw & Hl & Ht).
  simpl in Hdone, Hnb, Hfl, Hw, Hl, Ht.
  destruct (wait_in_flight arrivals (fold_left visit vms x)) as [Hwait Hcall].
  { rewrite Hdone, Hfl, Hl, Hputs, <- Hsize. lia. }
  split.
  - intros Hlt. apply Hwait. lia.
  - intros Hle. destruct Hcall as (st' & p & Hrun & Hnb' & Hnil & Hw' & Ht'); [lia|].
    exists st', p. split; [done|].
    rewrite Hnb', Hnb, Hfl, Hputs, Hw', Hw.
    repeat split; try done; [lia|].
    intros Htotal Hnone Hcl VMS_LIMIT. unfold processCb.
    rewrite Hnb', Ht', Ht, Hnb, Hfl, Hputs, Htotal, Hnone. simpl.
    assert (Z.of_nat (length vms) = count) as Hall
      by (destruct (Z.ltb_spec count lim); lia).
    destruct (Z.ltb_spec (0 + Z.of_nat k + Z.of_nat (length vms - k)) count);
      [lia|done].
Qed.

(** X18: when the page holds fewer VMs than the limit, or than the count
    if that is less, [processVms] never calls [processCb], whatever the
    time it is given: [wait] sets one timer after the other. The writes of
    the page are made all the same. *)
Theorem processVms_short_page_waits
    (arrivals : list nat) (offset lim : Z) (st : script M)
    (count : Z) (vms : list vmobj) (m1 m2 : M) :
  countVms (moray st) = ((None, count), m1) ->
  listVms offset lim m1 = ((None, vms), m2) ->
  (Z.of_nat (length vms) < (if (count <? lim)%Z then count else lim))%Z ->
  exists st' p,
    processVms arrivals offset lim st = Waiting st' p
    /\ written st' = written st ++ omap put_of vms.
Proof.
  intros Hcount Hlist Hsize. unfold processVms. rewrite Hcount, Hlist.
  set (x := (_, {| done := 0; limit := _; in_flight := [] |})).
  destruct (fold_visit vms x)
    as (k & Hk & Hputs & Hdone & Hnb & Hfl & Hw & Hl & Ht).
  simpl in Hdone, Hnb, Hfl, Hw, Hl, Ht.
  destruct (wait_short arrivals (fold_left visit vms x)) as (st' & p & Hrun & Hw').
  { rewrite Hdone, Hfl, Hl, Hputs. lia. }
  exists st', p. by rewrite Hrun, Hw', Hw.
Qed.
End backfill.


(** ** The application and the backfill on concrete runs *)

Section runs_application.
Import VmapiApp KvmBackfill Store.
Existing Instance Json.builtins.
Existing Instance Store.clients.
Existing Instance Store.plain.

(** A successful listing of VMs: the audit record has no body. *)
Lemma onAfter_body_run :
  onAfter "/ping" "GET" 200 (Some {| route_name := "listvms" |}) = None
  /\ exists a,
       onAfter "/vms" "GET" 200 (Some {| route_name := "listvms" |}) = Some a
       /\ audit_route a = Some "listvms"
       /\ (audit_body a = false
           <-> (200 <= 200 <= 299)%Z
               /\ ("GET" = "GET" \/ "GET" = "HEAD"
                   \/ Some "listvms" = Some "putvms")).
Proof.
  apply (onAfter_body "/vms" "GET" 200 (Some {| route_name := "listvms" |})).
  discriminate.
Defined.

(** 1001 requests in one millisecond: the last one gets the sequence
    number of the first. *)
Lemma serve_seq_id_reuse_run :
  1000 <= 1000 - 0
  /\ exists ri rj,
       replicate 1001 {| req_route := Some {| route_name := "listvms" |};
                         req_time := 1500000000000 |} !! 0 = Some ri
       /\ replicate 1001 {| req_route := Some {| route_name := "listvms" |};
                            req_time := 1500000000000 |} !! 1000 = Some rj
       /\ req_time ri = req_time rj.
Proof.
  apply (serve_seq_id_reuse
           (replicate 1001 {| req_route := Some {| route_name := "listvms" |};
                              req_time := 1500000000000 |})
           0 1000 1500000000000001).
  - lia.
  - vm_compute. reflexivity.
  - vm_compute. reflexivity.
Defined.

(** An error without status code, for a [GET] and for a [HEAD]. *)
Lemma formatJSON_head_run :
  (forall exn,
     (formatJSON "GET" {| res_statusCode := 200; res_headers := ∅ |}
        (BodyError None None (Some "boom"))).1 = Throw exn ->
     formatJSON "HEAD" {| res_statusCode := 200; res_headers := ∅ |}
       (BodyError None None (Some "boom"))
     = formatJSON "GET" {| res_statusCode := 200; res_headers := ∅ |}
         (BodyError None None (Some "boom")))
  /\ (forall data,
        (formatJSON "GET" {| res_statusCode := 200; res_headers := ∅ |}
           (BodyError None None (Some "boom"))).1 = Cb data ->
        formatJSON "HEAD" {| res_statusCode := 200; res_headers := ∅ |}
          (BodyError None None (Some "boom"))
        = (Cb EmptyString,
           (formatJSON "GET" {| res_statusCode := 200; res_headers := ∅ |}
              (BodyError None None (Some "boom"))).2)
        /\ res_headers
             (formatJSON "GET" {| res_statusCode := 200; res_headers := ∅ |}
                (BodyError None None (Some "boom"))).2 !! "content-length"
           = Some (PNum (Z.of_nat (String.length data)))
        /\ res_headers
             (formatJSON "GET" {| res_statusCode := 200; res_headers := ∅ |}
                (BodyError None None (Some "boom"))).2 !! "content-md5"
           = Some (PStr (md5_base64 data))
        /\ res_headers
             (formatJSON "GET" {| res_statusCode := 200; res_headers := ∅ |}
                (BodyError None None (Some "boom"))).2 !! "content-type"
           = Some (PStr "application/json")).
Proof.
  apply (formatJSON_head "GET" {| res_statusCode := 200; res_headers := ∅ |}
           (BodyError None None (Some "boom"))).
  discriminate.
Defined.

Example formatJSON_boom :
  (formatJSON "GET" {| res_statusCode := 200; res_headers := ∅ |}
     (BodyError None None (Some "boom"))).1
  = Cb (Json.stringify (JObj [("message", JStr "boom")]))
  /\ res_statusCode
       (formatJSON "GET" {| res_statusCode := 200; res_headers := ∅ |}
          (BodyError None None (Some "boom"))).2 = 500%Z.
Proof. split; reflexivity. Qed.

(** A VM whose disks are stored as text. *)
Lemma processVm_backfills_run :
  truthy (js_get (kvm "vm-a" "image-1") "image_uuid") = false
  /\ Some (JStr "vm-a") = js_get (kvm "vm-a" "image-1") "uuid"
  /\ (exists disks image,
        disks_of (kvm "vm-a" "image-1") = Some disks
        /\ first_disk disks ≫= (fun d => json_get d "image_uuid") = Some image
        /\ truthy (Some image) = true
        /\ js_set (kvm "vm-a" "image-1") "image_uuid" (JStr "image-1")
           = js_set (kvm "vm-a" "image-1") "image_uuid" image)
  /\ (forall key, key <> "image_uuid" ->
        js_get (js_set (kvm "vm-a" "image-1") "image_uuid" (JStr "image-1")) key
        = js_get (kvm "vm-a" "image-1") key)
  /\ processVm (js_set (kvm "vm-a" "image-1") "image_uuid" (JStr "image-1"))
     = AlreadyProcessed.
Proof.
  apply (processVm_backfills (kvm "vm-a" "image-1") (Some (JStr "vm-a"))
           (js_set (kvm "vm-a" "image-1") "image_uuid" (JStr "image-1"))).
  vm_compute. reflexivity.
Defined.

(** Three VMs, one of them backfilled already, and a limit of ten: two
    writes, and the script ends after the page. *)
Lemma processVms_page_completes_run :
  (sum_list [1; 1] < length (omap put_of three_vms) ->
   exists st' p, processVms [1; 1] 0 10 (start three_vms) = Waiting st' p)
  /\ (length (omap put_of three_vms) <= sum_list [1; 1] ->
      exists st' p,
        processVms [1; 1] 0 10 (start three_vms) = Called None st' p
        /\ nbProcessedVms st'
           = (nbProcessedVms (start three_vms) + Z.of_nat (length three_vms))%Z
        /\ in_flight p = []
        /\ written st' = written (start three_vms) ++ omap put_of three_vms
        /\ (totalNbKvmVms (start three_vms) = 0%Z ->
            nbProcessedVms (start three_vms) = 0%Z ->
            (3 <= 10)%Z ->
            forall VMS_LIMIT, processCb VMS_LIMIT st' = Done)).
Proof.
  apply (processVms_page_completes [1; 1] 0 10 (start three_vms) 3 three_vms
           three_vms three_vms); reflexivity.
Defined.

Example processVms_three_vms :
  omap put_of three_vms
  = [(Some (JStr "vm-a"), js_set (kvm "vm-a" "image-1") "image_uuid" (JStr "image-1"));
     (Some (JStr "vm-c"), js_set (kvm "vm-c" "image-3") "image_uuid" (JStr "image-3"))]
  /\ (exists st' p, processVms [1] 0 10 (start three_vms) = Waiting st' p)
  /\ exists st' p, processVms [1; 1] 0 10 (start three_vms) = Called None st' p.
Proof.
  split; [vm_compute; reflexivity|].
  split; eexists _, _; vm_compute; reflexivity.
Qed.

(** The same VMs with a limit of two: the second page holds one VM, and the
    script waits for a second one. *)
Lemma processVms_short_page_waits_run :
  exists st' p,
    processVms [3; 3] 2 2 (start three_vms) = Waiting st' p
    /\ written st'
       = written (start three_vms) ++ omap put_of [kvm "vm-c" "image-3"].
Proof.
  apply (processVms_short_page_waits [3; 3] 2 2 (start three_vms) 3
           [kvm "vm-c" "image-3"] three_vms three_vms); reflexivity.
Defined.
End runs_application.
